(** * ENSO staking scripts: log fetching, decoding, projection, aggregation

    A shallow embedding of the three scripts of the repository:

    - [enso_staking_tracker.py]  (modules [Tracker], [TrackerFrame]),
    - [enso_top_stakers.py]      (module [TopStakers]),
    - [dashboard.py]             (modules [Dashboard], [DashboardView]),

    preceded by a model of the Python built-ins the scripts rely on
    (module [Py]) and of the few pandas operations they call (module
    [Pandas]).

    Conventions.
    - Python [int] is [Z]; Python [float] is IEEE binary64, taken from the
      standard library's [spec_float] with [prec = 53], [emax = 1024].
    - Python [str] is [string], one character per code point below 256.
    - A call that may raise returns an [outcome]; a loop that may run for
      ever takes fuel and returns [option].
    - A JSON log object is a record with the five members the scripts
      read; [topics] is a list, so that a missing slot is an [IndexError]. *)

From Stdlib Require Import ZArith List Bool Ascii String Lia Permutation Sorted.
From Stdlib Require Import QArith DecimalString HexString OrderedTypeEx.
From Stdlib Require Import Floats.SpecFloat.
Import ListNotations.

Local Open Scope string_scope.
Local Open Scope list_scope.
Local Open Scope Z_scope.

(** ** Exceptions and results *)

Inductive exn : Type :=
| ValueError
| IndexError
| KeyError
| OverflowError
| RequestException
| LibraryError.

Inductive outcome (A : Type) : Type :=
| Ok (a : A)
| Raise (e : exn).

Arguments Ok {A} a.
Arguments Raise {A} e.

Definition bind {A B : Type} (r : outcome A) (k : A -> outcome B) : outcome B :=
  match r with
  | Ok a => k a
  | Raise e => Raise e
  end.

Notation "x <- r ;; k" := (bind r (fun x => k))
  (at level 61, r at next level, right associativity).

(** A [for] loop whose body may raise: the state is threaded through the
    items from left to right and the first exception aborts the loop. *)
Fixpoint for_each {A S : Type} (body : S -> A -> outcome S) (items : list A) (s : S)
  : outcome S :=
  match items with
  | [] => Ok s
  | x :: rest => s' <- body s x ;; for_each body rest s'
  end.

(** A list comprehension / append-in-a-loop whose element may raise. *)
Fixpoint map_outcome {A B : Type} (f : A -> outcome B) (items : list A) : outcome (list B) :=
  match items with
  | [] => Ok []
  | x :: rest => y <- f x ;; ys <- map_outcome f rest ;; Ok (y :: ys)
  end.

(** ** Python built-ins *)

Module Py.

Definition float := spec_float.

Definition fadd : float -> float -> float := SFadd 53 1024.
Definition fsub : float -> float -> float := SFsub 53 1024.
Definition fneg : float -> float := SFopp.
Definition flt : float -> float -> bool := SFltb.
Definition fzero : float := S754_zero false.

(** [a / b] on two ints: the correctly rounded binary64 quotient;
    [ZeroDivisionError] is not reachable from the scripts (the divisor is
    the constant [10**18]) and is folded into [ValueError] here. *)
Definition truediv (a b : Z) : outcome float :=
  match a, b with
  | _, Z0 => Raise ValueError
  | Z0, _ => Ok (S754_zero false)
  | _, _ =>
    match SFdiv 53 1024
            (S754_finite (a <? 0) (Z.to_pos (Z.abs a)) 0)
            (S754_finite (b <? 0) (Z.to_pos (Z.abs b)) 0) with
    | S754_infinity _ => Raise OverflowError
    | q => Ok q
    end
  end.

(** The exact rational value of a finite float (0 for infinities and NaN). *)
Definition F2Q (x : float) : Q :=
  match x with
  | S754_finite s m e =>
    let mz := if s then Z.neg m else Z.pos m in
    match e with
    | Z0 => inject_Z mz
    | Zpos p => inject_Z (mz * 2 ^ Zpos p)
    | Zneg p => Qmake mz (2 ^ p)
    end
  | _ => 0%Q
  end.

(** *** Strings *)

Definition code (c : ascii) : nat := nat_of_ascii c.

(** White space as [int()] sees it: the ASCII blanks, and the Latin-1
    spaces NEL and NBSP, which CPython maps to a blank beforehand. *)
Definition isspace (c : ascii) : bool :=
  let n := code c in
  ((9 <=? n) && (n <=? 13) || (n =? 32) || (n =? 133) || (n =? 160))%nat.

(** [bytes.fromhex] skips ASCII white space only. *)
Definition isspace_ascii (c : ascii) : bool :=
  let n := code c in
  ((9 <=? n) && (n <=? 13) || (n =? 32))%nat.

Definition hex_digit (c : ascii) : option Z :=
  let n := code c in
  if ((48 <=? n) && (n <=? 57))%nat then Some (Z.of_nat (n - 48))
  else if ((97 <=? n) && (n <=? 102))%nat then Some (Z.of_nat (n - 87))
  else if ((65 <=? n) && (n <=? 70))%nat then Some (Z.of_nat (n - 55))
  else None.

Fixpoint lstrip (s : string) : string :=
  match s with
  | String c r => if isspace c then lstrip r else s
  | EmptyString => s
  end.

Fixpoint all_space (s : string) : bool :=
  match s with
  | String c r => isspace c && all_space r
  | EmptyString => true
  end.

(** The digit scan of [int(s, 16)]: hex digits with single underscores
    between them; it stops at the first other character and reports the
    value, the number of digits, the rest, and whether the last character
    read was an underscore. *)
Fixpoint scan_digits (s : string) (prev_us : bool) (acc : Z) (n : nat)
  : option (Z * nat * string * bool) :=
  match s with
  | EmptyString => Some (acc, n, s, prev_us)
  | String c r =>
    if Ascii.eqb c "_"%char then
      if prev_us then None else scan_digits r true acc n
    else
      match hex_digit c with
      | Some d => scan_digits r false (16 * acc + d) (S n)
      | None => Some (acc, n, s, prev_us)
      end
  end.

Definition strip_sign (s : string) : bool * string :=
  match s with
  | String c r =>
    if Ascii.eqb c "+"%char then (false, r)
    else if Ascii.eqb c "-"%char then (true, r)
    else (false, s)
  | EmptyString => (false, s)
  end.

(** The base prefix, and the one underscore allowed after it. *)
Definition strip_0x (s : string) : string :=
  match s with
  | String c0 (String c1 r) =>
    if Ascii.eqb c0 "0"%char && (Ascii.eqb c1 "x"%char || Ascii.eqb c1 "X"%char) then
      match r with
      | String c2 r' => if Ascii.eqb c2 "_"%char then r' else r
      | EmptyString => r
      end
    else s
  | _ => s
  end.

Definition starts_with_underscore (s : string) : bool :=
  match s with
  | String c _ => Ascii.eqb c "_"%char
  | EmptyString => false
  end.

(** [int(s, 16)]. *)
Definition int16 (s : string) : outcome Z :=
  let '(neg, s1) := strip_sign (lstrip s) in
  let s2 := strip_0x s1 in
  if starts_with_underscore s2 then Raise ValueError
  else
    match scan_digits s2 false 0 0 with
    | None => Raise ValueError
    | Some (v, n, rest, trailing_us) =>
      if trailing_us || (n =? 0)%nat || negb (all_space rest) then Raise ValueError
      else Ok (if neg then - v else v)
    end.

(** A string of hex digits only, and the number it denotes. *)
Fixpoint all_hex (s : string) : bool :=
  match s with
  | EmptyString => true
  | String c r =>
    match hex_digit c with
    | Some _ => all_hex r
    | None => false
    end
  end.

Fixpoint hex_value (acc : Z) (s : string) : Z :=
  match s with
  | EmptyString => acc
  | String c r =>
    match hex_digit c with
    | Some d => hex_value (16 * acc + d) r
    | None => acc
    end
  end.

(** Slices: [s[i:j]] for [0 <= i <= j], [s[i:]], and [s[-n:]]. *)
Definition slice (s : string) (i j : nat) : string := substring i (j - i) s.

Definition slice_from (s : string) (i : nat) : string :=
  substring i (String.length s - i) s.

Definition slice_last (s : string) (n : nat) : string :=
  slice_from s (String.length s - n).

(** [xs[i]] on a list. *)
Definition index {A : Type} (xs : list A) (i : nat) : outcome A :=
  match nth_error xs i with
  | Some x => Ok x
  | None => Raise IndexError
  end.

(** [bytes.fromhex(s)]: pairs of hex digits, ASCII white space allowed
    before a pair only. *)
Definition byte_of_nibbles (hi lo : Z) : Byte.byte :=
  byte_of_ascii (ascii_of_nat (Z.to_nat (16 * hi + lo))).

Fixpoint fromhex (s : string) : outcome (list Byte.byte) :=
  match s with
  | EmptyString => Ok []
  | String c r =>
    if isspace_ascii c then fromhex r
    else
      match hex_digit c, r with
      | Some hi, String c' r' =>
        match hex_digit c' with
        | Some lo => bs <- fromhex r' ;; Ok (byte_of_nibbles hi lo :: bs)
        | None => Raise ValueError
        end
      | _, _ => Raise ValueError
      end
  end.

(** [b.rstrip(b"\x00")]. *)
Fixpoint rstrip0 (bs : list Byte.byte) : list Byte.byte :=
  match bs with
  | [] => []
  | b :: rest =>
    match rstrip0 rest with
    | [] => if Byte.eqb b Byte.x00 then [] else [b]
    | rest' => b :: rest'
    end
  end.

End Py.

(** ** The log source (Etherscan [getLogs])

    One raw log object of the JSON reply, with the members the scripts read. *)
Record log : Type := {
  blockNumber : string;
  timeStamp : string;
  transactionHash : string;
  topics : list string;
  data : string
}.

(** The decoded JSON body: [resp.get("status")] and [resp.get("result")].
    [None] stands for a missing member.  The API sends a list of logs as
    [result] whenever [status] is ["1"]; with any other status the scripts
    never look at [result]. *)
Record response : Type := {
  status : option string;
  result : option (list log)
}.

(** What [requests.get(...).json()] does: it returns a body or raises
    (time-out, connection error, body that is not JSON). *)
Inductive reply : Type :=
| Reply (resp : response)
| Throws (e : exn).

(** The source answers the [k]-th request of one [fetch_logs] call, made
    with cursor [fromBlock]; the other request parameters are fixed for the
    call. *)
Definition source : Type := nat -> Z -> reply.

Definition status_is_1 (resp : response) : bool :=
  match status resp with
  | Some s => String.eqb s "1"
  | None => false
  end.

(** [resp.get("result")] read as a truth value and as the page. *)
Definition page (resp : response) : list log :=
  match result resp with
  | Some logs => logs
  | None => []
  end.

Definition falsy (logs : list log) : bool :=
  match logs with
  | [] => true
  | _ => false
  end.

(** [10**DECIMALS] with [DECIMALS = 18], the same constant in the three scripts. *)
Definition DECIMALS : Z := 18.

(** ** [enso_staking_tracker.py] *)

Module Tracker.

(** [fetch_logs(topic0)]: the body of [while True:] is run once per unit
    of fuel; [None] is fuel exhaustion, [k] counts the requests made.
    [time.sleep] only paces the requests and is not modelled. *)
Fixpoint fetch_loop (fuel : nat) (src : source) (k : nat)
         (all_logs : list log) (from_block : Z) : option (outcome (list log)) :=
  match fuel with
  | O => None
  | S fuel' =>
    match src k from_block with
    | Throws e => Some (Raise e)
    | Reply resp =>
      if negb (status_is_1 resp) || falsy (page resp) then Some (Ok all_logs)
      else
        let logs := page resp in
        let all_logs := all_logs ++ logs in
        if (1000 <=? List.length logs)%nat then
          match (l <- Py.index logs (List.length logs - 1) ;;
                 Py.int16 (blockNumber l)) with
          | Raise e => Some (Raise e)
          | Ok b => fetch_loop fuel' src (S k) all_logs (b + 1)
          end
        else Some (Ok all_logs)
    end
  end.

Definition fetch_logs (fuel : nat) (src : source) : option (outcome (list log)) :=
  fetch_loop fuel src 0 [] 0.

Definition hex_to_int (h : string) : outcome Z := Py.int16 h.

(** [int(data[start : start + 64], 16)] with [start = 2 + index * 64]. *)
Definition decode_word (data : string) (index : nat) : outcome Z :=
  let start := (2 + index * 64)%nat in
  Py.int16 (Py.slice data start (start + 64)).

(** One row of [all_rows]. *)
Record row : Type := {
  block : Z;
  timestamp : Z;
  tx_hash : string;
  event : string;
  position_id : option Z;
  amount_raw : Z;
  amount : Py.float;
  stake_raw : Z;
  stake : Py.float;
  net_flow : Py.float
}.

Definition parse_deposit (l : log) : outcome row :=
  t1 <- Py.index (topics l) 1 ;;
  position_id <- hex_to_int t1 ;;
  funds_added <- decode_word (data l) 0 ;;
  stake_added <- decode_word (data l) 1 ;;
  blk <- hex_to_int (blockNumber l) ;;
  ts <- hex_to_int (timeStamp l) ;;
  amt <- Py.truediv funds_added (10 ^ DECIMALS) ;;
  stk <- Py.truediv stake_added (10 ^ DECIMALS) ;;
  flow <- Py.truediv funds_added (10 ^ DECIMALS) ;;
  Ok {| block := blk; timestamp := ts; tx_hash := transactionHash l;
        event := "FundsDeposited"; position_id := Some position_id;
        amount_raw := funds_added; amount := amt;
        stake_raw := stake_added; stake := stk;
        net_flow := flow |}.

Definition parse_deposits (logs : list log) : outcome (list row) :=
  map_outcome parse_deposit logs.

Definition parse_withdrawal (l : log) : outcome row :=
  t1 <- Py.index (topics l) 1 ;;
  position_id <- hex_to_int t1 ;;
  funds_removed <- decode_word (data l) 0 ;;
  blk <- hex_to_int (blockNumber l) ;;
  ts <- hex_to_int (timeStamp l) ;;
  amt <- Py.truediv funds_removed (10 ^ DECIMALS) ;;
  flow <- Py.truediv funds_removed (10 ^ DECIMALS) ;;
  Ok {| block := blk; timestamp := ts; tx_hash := transactionHash l;
        event := "FundsWithdrawn"; position_id := Some position_id;
        amount_raw := funds_removed; amount := amt;
        stake_raw := 0; stake := Py.fzero;
        net_flow := Py.fneg flow |}.

Definition parse_withdrawals (logs : list log) : outcome (list row) :=
  map_outcome parse_withdrawal logs.

Definition parse_reward_issued (l : log) : outcome row :=
  validator_id <- Py.index (topics l) 1 ;;
  amount <- decode_word (data l) 0 ;;
  blk <- hex_to_int (blockNumber l) ;;
  ts <- hex_to_int (timeStamp l) ;;
  amt <- Py.truediv amount (10 ^ DECIMALS) ;;
  Ok {| block := blk; timestamp := ts; tx_hash := transactionHash l;
        event := "RewardsIssued"; position_id := None;
        amount_raw := amount; amount := amt;
        stake_raw := 0; stake := Py.fzero;
        net_flow := Py.fzero |}.

Definition parse_rewards_issued (logs : list log) : outcome (list row) :=
  map_outcome parse_reward_issued logs.

Definition parse_reward_withdrawn (l : log) : outcome row :=
  t1 <- Py.index (topics l) 1 ;;
  let to_addr := ("0x" ++ Py.slice_last t1 40)%string in
  amount <- decode_word (data l) 0 ;;
  blk <- hex_to_int (blockNumber l) ;;
  ts <- hex_to_int (timeStamp l) ;;
  amt <- Py.truediv amount (10 ^ DECIMALS) ;;
  Ok {| block := blk; timestamp := ts; tx_hash := transactionHash l;
        event := "RewardsWithdrawn"; position_id := None;
        amount_raw := amount; amount := amt;
        stake_raw := 0; stake := Py.fzero;
        net_flow := Py.fzero |}.

Definition parse_rewards_withdrawn (logs : list log) : outcome (list row) :=
  map_outcome parse_reward_withdrawn logs.

(** Step 1 of [main]: the rows of the four kinds, in the order the kinds
    are fetched and parsed. *)
Definition all_rows (dep_logs wth_logs rew_i_logs rew_w_logs : list log)
  : outcome (list row) :=
  deps <- parse_deposits dep_logs ;;
  wths <- parse_withdrawals wth_logs ;;
  rew_i <- parse_rewards_issued rew_i_logs ;;
  rew_w <- parse_rewards_withdrawn rew_w_logs ;;
  Ok (deps ++ wths ++ rew_i ++ rew_w).

End Tracker.

(** ** Python [dict] with integer keys

    Insertion order is kept, as Python keeps it: the order of
    [positions.values()] is the row order of the data frames built from it.
    Assigning to a key that is present replaces the value in place. *)

Module Dict.
Section Dict.
Context {V : Type}.

Definition t : Type := list (Z * V).

Fixpoint get (k : Z) (d : t) : option V :=
  match d with
  | [] => None
  | (k', v) :: rest => if k =? k' then Some v else get k rest
  end.

(** [d[k] = v]. *)
Fixpoint set (k : Z) (v : V) (d : t) : t :=
  match d with
  | [] => [(k, v)]
  | (k', v') :: rest =>
    if k =? k' then (k, v) :: rest else (k', v') :: set k v rest
  end.

Definition keys (d : t) : list Z := map fst d.
Definition values (d : t) : list V := map snd d.
End Dict.
Arguments t V : clear implicits.
End Dict.

(** ** The pandas operations used by the scripts

    A data frame is the list of its rows.  A frame built from an empty
    sequence of records has no columns, so selecting a column from it
    raises [KeyError]. *)

Module Pandas.

Definition column {A : Type} (rows : list A) : outcome (list A) :=
  match rows with
  | [] => Raise KeyError
  | _ => Ok rows
  end.

Definition isnan (x : Py.float) : bool :=
  match x with
  | S754_nan => true
  | _ => false
  end.

(** [x] sorts after [y] in descending order, missing values last. *)
Definition after_desc (x y : Py.float) : bool :=
  match SFcompare x y with
  | Some Lt => true
  | Some _ => false
  | None => isnan x && negb (isnan y)
  end.

Section Sort.
Context {A : Type}.

Fixpoint insert_by (after : A -> A -> bool) (x : A) (sorted : list A) : list A :=
  match sorted with
  | [] => [x]
  | y :: rest => if after x y then y :: insert_by after x rest else x :: sorted
  end.

Definition sort_by (after : A -> A -> bool) (rows : list A) : list A :=
  fold_right (insert_by after) [] rows.

(** [df.sort_values(col, ascending=False)] on a float column.  pandas
    does not fix the order of rows with equal keys (its default sort is
    not stable); here they keep their order. *)
Definition sort_values_desc (col : A -> Py.float) (rows : list A) : list A :=
  sort_by (fun x y => after_desc (col x) (col y)) rows.

(** [df.sort_values(col)] on an integer column, same remark. *)
Definition sort_values_asc (col : A -> Z) (rows : list A) : list A :=
  sort_by (fun x y => col y <? col x) rows.
End Sort.

(** Group keys: the distinct non-missing keys in increasing order. *)
Fixpoint insert_key (k : string) (ks : list string) : list string :=
  match ks with
  | [] => [k]
  | k' :: rest =>
    match String.compare k k' with
    | Lt => k :: ks
    | Eq => ks
    | Gt => k' :: insert_key k rest
    end
  end.

Fixpoint present {A : Type} (xs : list (option A)) : list A :=
  match xs with
  | [] => []
  | Some x :: rest => x :: present rest
  | None :: rest => present rest
  end.

Section GroupBy.
Context {A : Type}.
Variable by_ : A -> option string.

Definition group_keys (rows : list A) : list string :=
  fold_right insert_key [] (present (map by_ rows)).

Definition has_key (k : string) (r : A) : bool :=
  match by_ r with
  | Some k' => String.eqb k k'
  | None => false
  end.

(** [df.groupby(col)] with the defaults [sort=True, dropna=True]: one
    group per distinct non-missing key, keys in increasing order, the
    rows of a group in frame order; rows whose key is missing belong to
    no group. *)
Definition groupby (rows : list A) : list (string * list A) :=
  map (fun k => (k, filter (has_key k) rows)) (group_keys rows).
End GroupBy.

(** Two ways a float column may be summed: plainly from left to right,
    and with the compensation of Kahan's algorithm as the grouped
    reduction does. *)
Definition seq_sum (xs : list Py.float) : Py.float :=
  match xs with
  | [] => Py.fzero
  | x :: rest => fold_left Py.fadd rest x
  end.

Definition kahan_step (st : Py.float * Py.float) (val : Py.float)
  : Py.float * Py.float :=
  let '(sumx, compensation) := st in
  let y := Py.fsub val compensation in
  let t := Py.fadd sumx y in
  let c := Py.fsub (Py.fsub t sumx) y in
  (t, if isnan c then Py.fzero else c).

Definition kahan_sum (xs : list Py.float) : Py.float :=
  fst (fold_left kahan_step xs (Py.fzero, Py.fzero)).

Definition min_ (xs : list Z) : Z :=
  match xs with
  | [] => 0
  | x :: rest => fold_left Z.min rest x
  end.

Definition max_ (xs : list Z) : Z :=
  match xs with
  | [] => 0
  | x :: rest => fold_left Z.max rest x
  end.

(** [s.cumsum()] on a float column. *)
Fixpoint cumsum_from (acc : Py.float) (xs : list Py.float) : list Py.float :=
  match xs with
  | [] => []
  | x :: rest => let acc' := Py.fadd acc x in acc' :: cumsum_from acc' rest
  end.

Definition cumsum (xs : list Py.float) : list Py.float :=
  match xs with
  | [] => []
  | x :: rest => x :: cumsum_from x rest
  end.

(** The 1-based rank column / index given after sorting. *)
Definition ranked {A : Type} (rows : list A) : list (nat * A) :=
  combine (seq 1 (List.length rows)) rows.

End Pandas.

(** ** [enso_staking_tracker.py], from the rows to the frame and the summary *)

Module TrackerFrame.

(** One row of [df]. *)
Record frame_row : Type := {
  base : Tracker.row;
  datetime : string;
  cumulative_net_staked : Py.float
}.

(** The figures printed by step 5 of [main]. *)
Record summary : Type := {
  total_deposited : Py.float;
  total_withdrawn : Py.float;
  net_staked : Py.float;
  total_rewards_in : Py.float;
  total_rewards_out : Py.float;
  n_deposits : nat;
  n_withdrawals : nat
}.

(** [main] either leaves through [sys.exit] or goes to its end. *)
Inductive run (A : Type) : Type :=
| Exited
| Completed (a : A).

Arguments Exited {A}.
Arguments Completed {A} a.

Section Main.
(** From outside: [pd.to_datetime(_, unit="s", utc=True)] and the float
    sum pandas applies to a column. *)
Variable to_datetime : Z -> outcome string.
Variable fsum : list Py.float -> Py.float.

(** Steps 2 and 3: dated, sorted by block, with the running sum. *)
Definition frame (all_rows : list Tracker.row) : outcome (list frame_row) :=
  dates <- map_outcome (fun r => to_datetime (Tracker.timestamp r)) all_rows ;;
  let sorted := Pandas.sort_values_asc (fun rd => Tracker.block (fst rd))
                                       (combine all_rows dates) in
  let sums := Pandas.cumsum (map (fun rd => Tracker.net_flow (fst rd)) sorted) in
  Ok (map (fun rds => {| base := fst (fst rds); datetime := snd (fst rds);
                         cumulative_net_staked := snd rds |})
          (combine sorted sums)).

Definition of_event (name : string) (df : list frame_row) : list frame_row :=
  filter (fun r => String.eqb (Tracker.event (base r)) name) df.

Definition amounts (df : list frame_row) : list Py.float :=
  map (fun r => Tracker.amount (base r)) df.

(** Step 5; [df["cumulative_net_staked"].iloc[-1]] is the last running sum. *)
Definition summarize (df : list frame_row) : summary :=
  {| total_deposited := fsum (amounts (of_event "FundsDeposited" df));
     total_withdrawn := fsum (amounts (of_event "FundsWithdrawn" df));
     net_staked := last (map cumulative_net_staked df) Py.fzero;
     total_rewards_in := fsum (amounts (of_event "RewardsIssued" df));
     total_rewards_out := fsum (amounts (of_event "RewardsWithdrawn" df));
     n_deposits := List.length (of_event "FundsDeposited" df);
     n_withdrawals := List.length (of_event "FundsWithdrawn" df) |}.

(** [main] from the four fetched lists: it exits when there is no row at
    all, and otherwise builds the frame and the summary. *)
Definition main (dep_logs wth_logs rew_i_logs rew_w_logs : list log)
  : outcome (run (list frame_row * summary)) :=
  all_rows <- Tracker.all_rows dep_logs wth_logs rew_i_logs rew_w_logs ;;
  match all_rows with
  | [] => Ok Exited
  | _ =>
    df <- frame all_rows ;;
    Ok (Completed (df, summarize df))
  end.
End Main.

End TrackerFrame.

(** ** Rows shared by the two reports

    One row of [owner_df]: the named aggregation over one group, and the
    rank given after sorting. *)
Record owner_summary : Type := {
  owner_key : string;
  total_staked : Py.float;
  total_stake_weight : Py.float;
  num_positions : nat;
  earliest_unlock : Z;
  latest_unlock : Z
}.

(** [str(n)] for an int. *)
Definition str (n : Z) : string := NilZero.string_of_int (Z.to_int n).

(** ** [enso_top_stakers.py] *)

Module TopStakers.

Fixpoint fetch_loop (fuel : nat) (src : source) (k : nat)
         (all_logs : list log) (from_block : Z) : option (outcome (list log)) :=
  match fuel with
  | O => None
  | S fuel' =>
    match src k from_block with
    | Throws e => Some (Raise e)
    | Reply resp =>
      if negb (status_is_1 resp) || falsy (page resp) then Some (Ok all_logs)
      else
        let logs := page resp in
        let all_logs := all_logs ++ logs in
        if (1000 <=? List.length logs)%nat then
          match (l <- Py.index logs (List.length logs - 1) ;;
                 Py.int16 (blockNumber l)) with
          | Raise e => Some (Raise e)
          | Ok b => fetch_loop fuel' src (S k) all_logs (b + 1)
          end
        else Some (Ok all_logs)
    end
  end.

(** No caller passes [extra_params], so the request is the one built
    from the cursor. *)
Definition fetch_logs (fuel : nat) (src : source) : option (outcome (list log)) :=
  fetch_loop fuel src 0 [] 0.

Definition h (val : string) : outcome Z := Py.int16 val.

Definition decode_word (data : string) (index : nat) : outcome Z :=
  let start := (2 + index * 64)%nat in
  Py.int16 (Py.slice data start (start + 64)).

(** One value of the [positions] dict. *)
Record position : Type := {
  position_id : Z;
  expiry_ts : Z;
  expiry_utc : string;
  unlock_remaining : string;
  validator : string;
  owner : option string;
  net_deposited : Py.float;
  stake : Py.float
}.

Definition set_owner (p : position) (o : option string) : position :=
  {| position_id := position_id p; expiry_ts := expiry_ts p;
     expiry_utc := expiry_utc p; unlock_remaining := unlock_remaining p;
     validator := validator p; owner := o;
     net_deposited := net_deposited p; stake := stake p |}.

Definition set_net_deposited (p : position) (x : Py.float) : position :=
  {| position_id := position_id p; expiry_ts := expiry_ts p;
     expiry_utc := expiry_utc p; unlock_remaining := unlock_remaining p;
     validator := validator p; owner := owner p;
     net_deposited := x; stake := stake p |}.

Definition set_stake (p : position) (x : Py.float) : position :=
  {| position_id := position_id p; expiry_ts := expiry_ts p;
     expiry_utc := expiry_utc p; unlock_remaining := unlock_remaining p;
     validator := validator p; owner := owner p;
     net_deposited := net_deposited p; stake := x |}.

Section Main.
(** What the script takes from outside: the clock read at import, and
    three library calls: [Web3.to_checksum_address], which raises on a
    string that is not an address;
    [datetime.fromtimestamp(t, tz=utc).strftime(fmt)], which raises on
    a time stamp out of range; and
    [bytes.decode("utf-8", errors="replace")], which never raises.
    [fsum] is the float sum pandas applies to a column. *)
Variable NOW : Z.
Variable to_checksum_address : string -> outcome string.
Variable strftime_utc : string -> Z -> outcome string.
Variable decode_utf8_replace : list Byte.byte -> string.
Variable fsum : list Py.float -> Py.float.

Definition addr_from_topic (topic : string) : outcome string :=
  to_checksum_address ("0x" ++ Py.slice_last topic 40)%string.

Definition format_unlock (expiry_ts : Z) : string :=
  if expiry_ts <=? NOW then "UNLOCKED"
  else
    let remaining := expiry_ts - NOW in
    let days := remaining / 86400 in
    let hours := (remaining mod 86400) / 3600 in
    if 0 <? days then (str days ++ "d " ++ str hours ++ "h")%string
    else (str hours ++ "h")%string.

(** Body of [for log in pc_logs]. *)
Definition on_position_created (positions : Dict.t position) (l : log)
  : outcome (Dict.t position) :=
  t1 <- Py.index (topics l) 1 ;;
  pid <- h t1 ;;
  expiry <- h (Py.slice (data l) 2 66) ;;
  t2 <- Py.index (topics l) 2 ;;
  raw <- Py.fromhex (Py.slice_from t2 2) ;;
  let validator_id := decode_utf8_replace (Py.rstrip0 raw) in
  utc <- strftime_utc "%Y-%m-%d %H:%M" expiry ;;
  Ok (Dict.set pid
        {| position_id := pid; expiry_ts := expiry; expiry_utc := utc;
           unlock_remaining := format_unlock expiry;
           validator := validator_id; owner := None;
           net_deposited := Py.fzero; stake := Py.fzero |}
        positions).

(** Body of [for log in tr_logs]. *)
Definition on_transfer (positions : Dict.t position) (l : log)
  : outcome (Dict.t position) :=
  t2 <- Py.index (topics l) 2 ;;
  to_addr <- addr_from_topic t2 ;;
  t3 <- Py.index (topics l) 3 ;;
  token_id <- h t3 ;;
  match Dict.get token_id positions with
  | Some p => Ok (Dict.set token_id (set_owner p (Some to_addr)) positions)
  | None => Ok positions
  end.

(** Body of [for log in dep_logs]. *)
Definition on_funds_deposited (positions : Dict.t position) (l : log)
  : outcome (Dict.t position) :=
  t1 <- Py.index (topics l) 1 ;;
  pid <- h t1 ;;
  w0 <- decode_word (data l) 0 ;;
  funds_added <- Py.truediv w0 (10 ^ DECIMALS) ;;
  w1 <- decode_word (data l) 1 ;;
  stake_added <- Py.truediv w1 (10 ^ DECIMALS) ;;
  match Dict.get pid positions with
  | Some p =>
    let p := set_net_deposited p (Py.fadd (net_deposited p) funds_added) in
    let p := set_stake p (Py.fadd (stake p) stake_added) in
    Ok (Dict.set pid p positions)
  | None => Ok positions
  end.

(** Body of [for log in wth_logs]. *)
Definition on_funds_withdrawn (positions : Dict.t position) (l : log)
  : outcome (Dict.t position) :=
  t1 <- Py.index (topics l) 1 ;;
  pid <- h t1 ;;
  w0 <- decode_word (data l) 0 ;;
  funds_removed <- Py.truediv w0 (10 ^ DECIMALS) ;;
  match Dict.get pid positions with
  | Some p =>
    Ok (Dict.set pid (set_net_deposited p (Py.fsub (net_deposited p) funds_removed))
                 positions)
  | None => Ok positions
  end.

(** Steps 1 to 4 of [main]: the [positions] dict after the four loops,
    given the four fetched lists. *)
Definition positions_of (pc_logs tr_logs dep_logs wth_logs : list log)
  : outcome (Dict.t position) :=
  positions <- for_each on_position_created pc_logs [] ;;
  positions <- for_each on_transfer tr_logs positions ;;
  positions <- for_each on_funds_deposited dep_logs positions ;;
  for_each on_funds_withdrawn wth_logs positions.

Definition is_active (p : position) : bool := Py.flt Py.fzero (net_deposited p).

(** [pos_df]: the active rows, largest balance first. *)
Definition pos_df (positions : Dict.t position) : outcome (list position) :=
  rows <- Pandas.column (Dict.values positions) ;;
  Ok (Pandas.sort_values_desc net_deposited (filter is_active rows)).

Definition owner_groups (pos_df : list position) : list (string * list position) :=
  Pandas.groupby owner pos_df.

Definition agg (g : string * list position) : owner_summary :=
  {| owner_key := fst g;
     total_staked := fsum (map net_deposited (snd g));
     total_stake_weight := fsum (map stake (snd g));
     num_positions := List.length (snd g);
     earliest_unlock := Pandas.min_ (map expiry_ts (snd g));
     latest_unlock := Pandas.max_ (map expiry_ts (snd g)) |}.

(** [owner_df], the index being the rank. *)
Definition owner_df (pos_df : list position) : list (nat * owner_summary) :=
  Pandas.ranked (Pandas.sort_values_desc total_staked (map agg (owner_groups pos_df))).

(** [main] from the four fetched lists to the two frames it writes. *)
Definition main (pc_logs tr_logs dep_logs wth_logs : list log)
  : outcome (list position * list (nat * owner_summary)) :=
  positions <- positions_of pc_logs tr_logs dep_logs wth_logs ;;
  active <- pos_df positions ;;
  Ok (active, owner_df active).
End Main.

End TopStakers.

(** ** [dashboard.py] *)

Module Dashboard.

Definition h (val : string) : outcome Z := Py.int16 val.

Definition decode_word (data : string) (index : nat) : outcome Z :=
  let start := (2 + index * 64)%nat in
  Py.int16 (Py.slice data start (start + 64)).

Definition addr_from_topic (topic : string) : string :=
  ("0x" ++ Py.slice_last topic 40)%string.

Definition format_unlock (expiry_ts now : Z) : string :=
  if expiry_ts <=? now then "UNLOCKED"
  else
    let remaining := expiry_ts - now in
    let days := remaining / 86400 in
    let hours := (remaining mod 86400) / 3600 in
    if 0 <? days then (str days ++ "d " ++ str hours ++ "h")%string
    else (str hours ++ "h")%string.

(** [f"{addr[:6]}...{addr[-4:]}"]. *)
Definition short_addr (addr : string) : string :=
  (Py.slice addr 0 6 ++ "..." ++ Py.slice_last addr 4)%string.

Definition etherscan_link (addr : string) : string :=
  ("https://etherscan.io/address/" ++ addr)%string.

Fixpoint fetch_loop (fuel : nat) (src : source) (k : nat)
         (all_logs : list log) (from_block : Z) : option (outcome (list log)) :=
  match fuel with
  | O => None
  | S fuel' =>
    match src k from_block with
    | Throws e => Some (Raise e)
    | Reply resp =>
      if negb (status_is_1 resp) || falsy (page resp) then Some (Ok all_logs)
      else
        let logs := page resp in
        let all_logs := all_logs ++ logs in
        if (1000 <=? List.length logs)%nat then
          match (l <- Py.index logs (List.length logs - 1) ;;
                 Py.int16 (blockNumber l)) with
          | Raise e => Some (Raise e)
          | Ok b => fetch_loop fuel' src (S k) all_logs (b + 1)
          end
        else Some (Ok all_logs)
    end
  end.

(** No caller passes [extra]. *)
Definition fetch_logs (fuel : nat) (src : source) : option (outcome (list log)) :=
  fetch_loop fuel src 0 [] 0.

(** One element of [flow_rows]. *)
Record flow_row : Type := {
  block : Z;
  timestamp : Z;
  event : string;
  amount : Py.float;
  net_flow : Py.float
}.

Definition flow_of (event_name : string) (sign : Py.float -> Py.float) (l : log)
  : outcome flow_row :=
  w <- decode_word (data l) 0 ;;
  funds <- Py.truediv w (10 ^ DECIMALS) ;;
  blk <- h (blockNumber l) ;;
  ts <- h (timeStamp l) ;;
  Ok {| block := blk; timestamp := ts; event := event_name;
        amount := funds; net_flow := sign funds |}.

(** The four loops that fill [flow_rows]. *)
Definition flow_rows (dep_logs wth_logs rew_i_logs rew_w_logs : list log)
  : outcome (list flow_row) :=
  deps <- map_outcome (flow_of "Deposit" (fun funds => funds)) dep_logs ;;
  wths <- map_outcome (flow_of "Withdrawal" Py.fneg) wth_logs ;;
  rew_i <- map_outcome (flow_of "Rewards Issued" (fun _ => Py.fzero)) rew_i_logs ;;
  rew_w <- map_outcome (flow_of "Rewards Withdrawn" (fun _ => Py.fzero)) rew_w_logs ;;
  Ok (deps ++ wths ++ rew_i ++ rew_w).

(** One value of the [positions] dict. *)
Record position : Type := {
  position_id : Z;
  expiry_ts : Z;
  validator : string;
  owner : option string;
  net_deposited : Py.float;
  stake : Py.float
}.

Definition set_owner (p : position) (o : option string) : position :=
  {| position_id := position_id p; expiry_ts := expiry_ts p;
     validator := validator p; owner := o;
     net_deposited := net_deposited p; stake := stake p |}.

Definition set_net_deposited (p : position) (x : Py.float) : position :=
  {| position_id := position_id p; expiry_ts := expiry_ts p;
     validator := validator p; owner := owner p;
     net_deposited := x; stake := stake p |}.

Definition set_stake (p : position) (x : Py.float) : position :=
  {| position_id := position_id p; expiry_ts := expiry_ts p;
     validator := validator p; owner := owner p;
     net_deposited := net_deposited p; stake := x |}.

(** One row of [pos_df] / [active_df]: the dict value and the three
    columns added to the frame. *)
Record pos_row : Type := {
  base : position;
  expiry_utc : string;
  unlock_remaining : string;
  is_locked : bool
}.

(** One row of [flow_df]. *)
Record flow_df_row : Type := {
  flow : flow_row;
  datetime : string;
  cumulative_net_staked : Py.float
}.

Section LoadData.
(** From outside: the clock read at the start of [load_data],
    [pd.to_datetime(_, unit="s", utc=True)], which raises on a time
    stamp out of its range, [bytes.decode("utf-8", errors="replace")],
    and the float sum pandas applies to a column. *)
Variable now : Z.
Variable to_datetime : Z -> outcome string.
Variable decode_utf8_replace : list Byte.byte -> string.
Variable fsum : list Py.float -> Py.float.

(** [flow_df]: dated, sorted by block, with the running sum. *)
Definition flow_df (rows : list flow_row) : outcome (list flow_df_row) :=
  rows <- Pandas.column rows ;;
  dates <- map_outcome (fun r => to_datetime (timestamp r)) rows ;;
  let sorted := Pandas.sort_values_asc (fun rd => block (fst rd)) (combine rows dates) in
  let sums := Pandas.cumsum (map (fun rd => net_flow (fst rd)) sorted) in
  Ok (map (fun rds => {| flow := fst (fst rds); datetime := snd (fst rds);
                         cumulative_net_staked := snd rds |})
          (combine sorted sums)).

(** Body of [for log in pc_logs]. *)
Definition on_position_created (positions : Dict.t position) (l : log)
  : outcome (Dict.t position) :=
  t1 <- Py.index (topics l) 1 ;;
  pid <- h t1 ;;
  expiry <- h (Py.slice (data l) 2 66) ;;
  t2 <- Py.index (topics l) 2 ;;
  raw <- Py.fromhex (Py.slice_from t2 2) ;;
  let validator := decode_utf8_replace (Py.rstrip0 raw) in
  Ok (Dict.set pid
        {| position_id := pid; expiry_ts := expiry; validator := validator;
           owner := None; net_deposited := Py.fzero; stake := Py.fzero |}
        positions).

(** Body of [for log in tr_logs]. *)
Definition on_transfer (positions : Dict.t position) (l : log)
  : outcome (Dict.t position) :=
  t2 <- Py.index (topics l) 2 ;;
  let to_addr := addr_from_topic t2 in
  t3 <- Py.index (topics l) 3 ;;
  token_id <- h t3 ;;
  match Dict.get token_id positions with
  | Some p => Ok (Dict.set token_id (set_owner p (Some to_addr)) positions)
  | None => Ok positions
  end.

(** Body of [for log in dep_logs]: the words are decoded only once the
    id is known to be in the dict. *)
Definition on_funds_deposited (positions : Dict.t position) (l : log)
  : outcome (Dict.t position) :=
  t1 <- Py.index (topics l) 1 ;;
  pid <- h t1 ;;
  match Dict.get pid positions with
  | Some p =>
    w0 <- decode_word (data l) 0 ;;
    funds <- Py.truediv w0 (10 ^ DECIMALS) ;;
    let p := set_net_deposited p (Py.fadd (net_deposited p) funds) in
    w1 <- decode_word (data l) 1 ;;
    stake_added <- Py.truediv w1 (10 ^ DECIMALS) ;;
    let p := set_stake p (Py.fadd (stake p) stake_added) in
    Ok (Dict.set pid p positions)
  | None => Ok positions
  end.

(** Body of [for log in wth_logs]. *)
Definition on_funds_withdrawn (positions : Dict.t position) (l : log)
  : outcome (Dict.t position) :=
  t1 <- Py.index (topics l) 1 ;;
  pid <- h t1 ;;
  match Dict.get pid positions with
  | Some p =>
    w0 <- decode_word (data l) 0 ;;
    funds <- Py.truediv w0 (10 ^ DECIMALS) ;;
    Ok (Dict.set pid (set_net_deposited p (Py.fsub (net_deposited p) funds))
                 positions)
  | None => Ok positions
  end.

(** The [positions] dict after the four loops. *)
Definition positions_of (pc_logs tr_logs dep_logs wth_logs : list log)
  : outcome (Dict.t position) :=
  positions <- for_each on_position_created pc_logs [] ;;
  positions <- for_each on_transfer tr_logs positions ;;
  positions <- for_each on_funds_deposited dep_logs positions ;;
  for_each on_funds_withdrawn wth_logs positions.

Definition pos_df (positions : Dict.t position) : outcome (list pos_row) :=
  rows <- Pandas.column (Dict.values positions) ;;
  map_outcome
    (fun p =>
       utc <- to_datetime (expiry_ts p) ;;
       Ok {| base := p; expiry_utc := utc;
             unlock_remaining := format_unlock (expiry_ts p) now;
             is_locked := now <? expiry_ts p |})
    rows.

Definition is_active (r : pos_row) : bool :=
  Py.flt Py.fzero (net_deposited (base r)).

Definition active_df (pos_df : list pos_row) : list pos_row :=
  filter is_active pos_df.

Definition row_owner (r : pos_row) : option string := owner (base r).

Definition owner_groups (active_df : list pos_row) : list (string * list pos_row) :=
  Pandas.groupby row_owner active_df.

Definition agg (g : string * list pos_row) : owner_summary :=
  {| owner_key := fst g;
     total_staked := fsum (map (fun r => net_deposited (base r)) (snd g));
     total_stake_weight := fsum (map (fun r => stake (base r)) (snd g));
     num_positions := List.length (snd g);
     earliest_unlock := Pandas.min_ (map (fun r => expiry_ts (base r)) (snd g));
     latest_unlock := Pandas.max_ (map (fun r => expiry_ts (base r)) (snd g)) |}.

(** [owner_df] with its [rank] column. *)
Definition owner_df (active_df : list pos_row) : list (nat * owner_summary) :=
  Pandas.ranked
    (Pandas.sort_values_desc total_staked (map agg (owner_groups active_df))).

(** [load_data] from the six fetched lists to the three frames. *)
Definition load_data (dep_logs wth_logs rew_i_logs rew_w_logs pc_logs tr_logs : list log)
  : outcome (list flow_df_row * list pos_row * list (nat * owner_summary)) :=
  rows <- flow_rows dep_logs wth_logs rew_i_logs rew_w_logs ;;
  flows <- flow_df rows ;;
  positions <- positions_of pc_logs tr_logs dep_logs wth_logs ;;
  frame <- pos_df positions ;;
  let active := active_df frame in
  Ok (flows, active, owner_df active).
End LoadData.

End Dashboard.

(** ** [dashboard.py], after the aggregation

    The four columns [load_data] adds to the owner table, the counts of
    the KPI row, and the frame shown by the positions tab. *)

Module DashboardView.

(** One row of [owner_df] as [load_data] returns it. *)
Record owner_row : Type := {
  ranked_summary : nat * owner_summary;
  earliest_unlock_utc : string;
  latest_unlock_utc : string;
  earliest_remaining : string;
  latest_remaining : string
}.

Section View.
Variable now : Z.
Variable to_datetime : Z -> outcome string.
Variable fsum : list Py.float -> Py.float.

(** The two date columns are converted one after the other, each as a
    whole; the two texts are [format_unlock] at the clock of [load_data]. *)
Definition owner_columns (owner_df : list (nat * owner_summary)) : outcome (list owner_row) :=
  es <- map_outcome (fun o => to_datetime (earliest_unlock (snd o))) owner_df ;;
  ls <- map_outcome (fun o => to_datetime (latest_unlock (snd o))) owner_df ;;
  Ok (map (fun oel =>
             let o := fst (fst oel) in
             {| ranked_summary := o;
                earliest_unlock_utc := snd (fst oel);
                latest_unlock_utc := snd oel;
                earliest_remaining := Dashboard.format_unlock (earliest_unlock (snd o)) now;
                latest_remaining := Dashboard.format_unlock (latest_unlock (snd o)) now |})
          (combine (combine owner_df es) ls)).

(** The KPI row: the sums over the flow frame by event, and the counts;
    [pos_df] is the active frame [load_data] returns. *)
Definition amounts_of (event_name : string) (flow_df : list Dashboard.flow_df_row)
  : list Py.float :=
  map (fun r => Dashboard.amount (Dashboard.flow r))
      (filter (fun r => String.eqb (Dashboard.event (Dashboard.flow r)) event_name) flow_df).

Definition total_staked_kpi (owner_df : list (nat * owner_summary)) : Py.float :=
  fsum (map (fun o => total_staked (snd o)) owner_df).

Definition total_deposited (flow_df : list Dashboard.flow_df_row) : Py.float :=
  fsum (amounts_of "Deposit" flow_df).

Definition total_withdrawn (flow_df : list Dashboard.flow_df_row) : Py.float :=
  fsum (amounts_of "Withdrawal" flow_df).

Definition total_rewards (flow_df : list Dashboard.flow_df_row) : Py.float :=
  fsum (amounts_of "Rewards Issued" flow_df).

Definition num_stakers (owner_df : list (nat * owner_summary)) : nat :=
  List.length owner_df.

Definition num_positions (pos_df : list Dashboard.pos_row) : nat :=
  List.length pos_df.

(** [pos_df["is_locked"].sum()], the numerator of the locked share. *)
Definition locked_positions (pos_df : list Dashboard.pos_row) : nat :=
  List.length (filter Dashboard.is_locked pos_df).
End View.

(** The positions tab: the two select boxes, then the sort. *)
Definition show_df (lock_filter val_filter : string) (pos_df : list Dashboard.pos_row)
  : list Dashboard.pos_row :=
  let show :=
    if String.eqb lock_filter "Locked" then filter Dashboard.is_locked pos_df
    else if String.eqb lock_filter "Unlocked"
         then filter (fun r => negb (Dashboard.is_locked r)) pos_df
         else pos_df in
  let show :=
    if negb (String.eqb val_filter "All")
    then filter (fun r => String.eqb (Dashboard.validator (Dashboard.base r)) val_filter) show
    else show in
  Pandas.sort_values_desc (fun r => Dashboard.net_deposited (Dashboard.base r)) show.

(** [short_addr(x) if x else "Unknown"]. *)
Definition owner_short (x : option string) : string :=
  match x with
  | Some a => if String.eqb a "" then "Unknown" else Dashboard.short_addr a
  | None => "Unknown"
  end.

End DashboardView.

(** ** Sums and conditions used in the statements about the aggregation

    The sum of the exact values of a float column, and the rows that have
    an owner. *)
Definition exact_sum (xs : list Py.float) : Q :=
  fold_right (fun x acc => (Py.F2Q x + acc)%Q) 0%Q xs.

Definition owned {A : Type} (owner : A -> option string) (r : A) : bool :=
  match owner r with
  | Some _ => true
  | None => false
  end.

(** ** Conditions on a source

    Every record of a successful page lies between the cursor of the
    request and a latest block [L]. *)
Definition bounded_source (L : Z) (src : source) : Prop :=
  forall k fb resp l,
    src k fb = Reply resp ->
    status_is_1 resp = true ->
    In l (page resp) ->
    exists b, Py.int16 (blockNumber l) = Ok b /\ fb <= b <= L.

(** ** Synthetic sources and records used in the examples *)

Module Fixture.

(** A record in block [blk], told apart by [idx]. *)
Definition mk_log (blk idx : Z) : log :=
  {| blockNumber := HexString.of_Z blk;
     timeStamp := "0x0";
     transactionHash := HexString.of_Z idx;
     topics := [];
     data := "0x" |}.

Definition block_of (l : log) : Z :=
  match Py.int16 (blockNumber l) with
  | Ok b => b
  | Raise _ => 0
  end.

(** A source in the manner of the documented API: of the records of
    [chain] at or after the cursor it returns the first 1000, with status
    ["1"]; when there is none it answers status ["0"] ("No records
    found") with an empty list. *)
Definition capped_source (chain : list log) : source :=
  fun _ from_block =>
    match firstn 1000 (filter (fun l => from_block <=? block_of l) chain) with
    | [] => Reply {| status := Some "0"; result := Some [] |}
    | hits => Reply {| status := Some "1"; result := Some hits |}
    end.

(** The error body of the API (bad key, rate limit): status ["0"] and a
    message in place of the list. *)
Definition failing_source : source :=
  fun _ _ => Reply {| status := Some "0"; result := None |}.

Definition empty_source : source :=
  fun _ _ => Reply {| status := Some "1"; result := Some [] |}.

Definition throwing_source : source :=
  fun _ _ => Throws RequestException.

(** 1001 records, two per block, so that block 500
    holds the records of index 999 and 1000, on either side of the page
    boundary. *)
Definition straddling_chain : list log :=
  map (fun i => mk_log (Z.of_nat ((i + 1) / 2)) (Z.of_nat i)) (seq 0 1001).

(** A 32-byte word as 64 hex digits, and a record with the given topic
    and data words (the first topic stands for the signature hash). *)
Fixpoint zeros (n : nat) : string :=
  match n with
  | O => EmptyString
  | S n' => String "0" (zeros n')
  end.

Definition encode_word (n : Z) : string :=
  let digits := Py.slice_from (HexString.of_Z n) 2 in
  (zeros (64 - String.length digits) ++ digits)%string.

Definition event_log (topic_words data_words : list Z) : log :=
  {| blockNumber := "0x10";
     timeStamp := "0x65000000";
     transactionHash := "0xabc";
     topics := map (fun w => ("0x" ++ encode_word w)%string) topic_words;
     data := ("0x" ++ String.concat "" (map encode_word data_words))%string |}.

(** The synthetic amount of the decode round trip, in raw units. *)
Definition raw_amount : Z := 1234567890123456789.

(** The binary64 number nearest to [raw_amount / 10^18]; Python prints it
    as 1.2345678901234567. *)
Definition scaled_amount : Py.float := S754_finite false 5559999489923579 (-52).

(** A parsed row that keeps [raw_amount] and scales it to [scaled_amount]. *)
Definition keeps_and_scales (r : outcome Tracker.row) : Prop :=
  match r with
  | Ok row => Tracker.amount_raw row = raw_amount /\ Tracker.amount row = scaled_amount
  | Raise _ => False
  end.

(** Logs of the four kinds the projection reads.  A validator id is a
    32-byte word whose leading bytes are the label. *)
Definition label_v1 : Z := 0x7631 * 2 ^ 240.
Definition label_v2 : Z := 0x7632 * 2 ^ 240.

Definition created_log (pid expiry validator_word : Z) : log :=
  event_log [0; pid; validator_word] [expiry].

Definition transfer_log (to pid : Z) : log := event_log [0; 0; to; pid] [].

Definition deposit_log (pid funds stake : Z) : log := event_log [0; pid] [funds; stake].

Definition withdrawal_log (pid funds : Z) : log := event_log [0; pid] [funds].

(** Stand-ins for the library calls, for running the scripts on examples. *)
Definition NOW : Z := 1700000000.
Definition checksum_stub (addr : string) : outcome string := Ok addr.
Definition strftime_stub (fmt : string) (t : Z) : outcome string := Ok (str t).
Definition to_datetime_stub (t : Z) : outcome string := Ok (str t).
Definition decode_stub (bs : list Byte.byte) : string := string_of_list_byte bs.

(** Three positions: position 1 of owner B with 1 token, positions 2 and
    3 of owner A with 1 token and with 10^16 tokens. *)
Definition three_created : list log :=
  [created_log 1 1700000100 label_v1;
   created_log 2 1700000200 label_v1;
   created_log 3 1700000300 label_v1].

Definition three_transfers : list log :=
  [transfer_log 11 1; transfer_log 10 2; transfer_log 10 3].

Definition three_deposits : list log :=
  [deposit_log 1 (10 ^ 18) (10 ^ 18);
   deposit_log 2 (10 ^ 18) (10 ^ 18);
   deposit_log 3 (10 ^ 34) (10 ^ 34)].

(** An active frame of three rows with one token each, the third without
    owner. *)
Definition one : Py.float := S754_finite false 4503599627370496 (-52).

Definition pos_row_of (pid : Z) (o : option string) (x : Py.float) : Dashboard.pos_row :=
  {| Dashboard.base :=
       {| Dashboard.position_id := pid; Dashboard.expiry_ts := 1700000100;
          Dashboard.validator := "v1"; Dashboard.owner := o;
          Dashboard.net_deposited := x; Dashboard.stake := x |};
     Dashboard.expiry_utc := "1700000100";
     Dashboard.unlock_remaining := "0h";
     Dashboard.is_locked := true |}.

Definition position_of (pid : Z) (o : option string) (x : Py.float) : TopStakers.position :=
  {| TopStakers.position_id := pid; TopStakers.expiry_ts := 1700000100;
     TopStakers.expiry_utc := "1700000100"; TopStakers.unlock_remaining := "0h";
     TopStakers.validator := "v1"; TopStakers.owner := o;
     TopStakers.net_deposited := x; TopStakers.stake := x |}.

Definition active_rows : list Dashboard.pos_row :=
  [pos_row_of 1 (Some "0xb") one; pos_row_of 2 (Some "0xa") one; pos_row_of 3 None one].

Definition active_positions : list TopStakers.position :=
  [position_of 1 (Some "0xb") one; position_of 2 (Some "0xa") one; position_of 3 None one].

Definition summary_of_one (k : string) : owner_summary :=
  {| owner_key := k; total_staked := one; total_stake_weight := one;
     num_positions := 1; earliest_unlock := 1700000100; latest_unlock := 1700000100 |}.

(** Of a run of [load_data]: the sum of [total_staked] over the owner rows
    and the sum of [net_deposited] over the active rows that have an
    owner, each taken with the float sum [fsum] and exactly. *)
Definition sums_of (fsum : list Py.float -> Py.float)
           (run : outcome (list Dashboard.flow_df_row * list Dashboard.pos_row
                           * list (nat * owner_summary)))
  : option (Py.float * Py.float * Q * Q) :=
  match run with
  | Ok (_, active, owners) =>
    let totals := map (fun o => total_staked (snd o)) owners in
    let nets := map (fun r => Dashboard.net_deposited (Dashboard.base r))
                    (filter (owned Dashboard.row_owner) active) in
    Some (fsum totals, fsum nets, exact_sum totals, exact_sum nets)
  | Raise _ => None
  end.

(** A withdrawal whose payload holds one byte instead of one word. *)
Definition cut_withdrawal : log :=
  {| blockNumber := "0x10";
     timeStamp := "0x65000000";
     transactionHash := "0xabc";
     topics := map (fun w => ("0x" ++ encode_word w)%string) [0; 7];
     data := "0x2a" |}.

End Fixture.

(** ** Shapes of the event kinds

    The shape the contract's events have: the number of topics, signature
    included, and the number of 32-byte words of the payload.  No script
    checks it. *)
Definition has_shape (n_topics n_words : nat) (l : log) : bool :=
  ((List.length (topics l) =? n_topics) && (String.length (data l) =? 2 + 64 * n_words))%nat.

(** ** Agreement of the two positions tables

    The checksummed owner kept by the report is the checksum of the raw
    owner kept by the dashboard; the other compared fields are equal. *)
Definition owner_agree (to_checksum_address : string -> outcome string)
           (o1 o2 : option string) : Prop :=
  match o1, o2 with
  | None, None => True
  | Some checksummed, Some raw => to_checksum_address raw = Ok checksummed
  | _, _ => False
  end.

Definition positions_agree (to_checksum_address : string -> outcome string)
           (p1 : TopStakers.position) (p2 : Dashboard.position) : Prop :=
  TopStakers.position_id p1 = Dashboard.position_id p2
  /\ TopStakers.expiry_ts p1 = Dashboard.expiry_ts p2
  /\ TopStakers.validator p1 = Dashboard.validator p2
  /\ TopStakers.net_deposited p1 = Dashboard.net_deposited p2
  /\ TopStakers.stake p1 = Dashboard.stake p2
  /\ owner_agree to_checksum_address (TopStakers.owner p1) (Dashboard.owner p2).

(** Two dicts with the same keys in the same order and related values. *)
Definition tables_rel {V1 V2 : Type} (R : V1 -> V2 -> Prop)
           (t1 : Dict.t V1) (t2 : Dict.t V2) : Prop :=
  Forall2 (fun kv1 kv2 => fst kv1 = fst kv2 /\ R (snd kv1) (snd kv2)) t1 t2.

Definition tables_agree (to_checksum_address : string -> outcome string)
  : Dict.t TopStakers.position -> Dict.t Dashboard.position -> Prop :=
  tables_rel (positions_agree to_checksum_address).

(** Two positions of one script with the same owner and balances. *)
Definition same_account_dashboard (p q : Dashboard.position) : Prop :=
  Dashboard.owner p = Dashboard.owner q
  /\ Dashboard.net_deposited p = Dashboard.net_deposited q
  /\ Dashboard.stake p = Dashboard.stake q.

Definition same_account_report (p q : TopStakers.position) : Prop :=
  TopStakers.owner p = TopStakers.owner q
  /\ TopStakers.net_deposited p = TopStakers.net_deposited q
  /\ TopStakers.stake p = TopStakers.stake q.

(** ** Conditions used in the statements about the projection

    A position as the creation loop leaves it. *)
Definition untouched_report (p : TopStakers.position) : Prop :=
  TopStakers.owner p = None
  /\ TopStakers.net_deposited p = Py.fzero
  /\ TopStakers.stake p = Py.fzero.

Definition untouched_dashboard (p : Dashboard.position) : Prop :=
  Dashboard.owner p = None
  /\ Dashboard.net_deposited p = Py.fzero
  /\ Dashboard.stake p = Py.fzero.


(** A list of group keys in strictly increasing order. *)
Definition below (k : string) (ks : list string) : Prop :=
  forall k', In k' ks -> String.compare k k' = Lt.

Inductive increasing : list string -> Prop :=
| increasing_nil : increasing []
| increasing_cons : forall k ks, below k ks -> increasing ks -> increasing (k :: ks).

(** ** Conditions on floats and frames used in the further properties

    A float that is zero or a positive finite number: neither negative,
    nor infinite, nor NaN. *)
Definition nonneg_finite (x : Py.float) : bool :=
  match x with
  | S754_zero _ => true
  | S754_finite false _ _ => true
  | _ => false
  end.

(** ** Readings of a log used in the statements about the balances

    The integer carried by the topic of index [i]; the word of index [i]
    of the payload scaled by [10**DECIMALS]; and, for a list of logs, the
    scaled words of those whose first indexed topic is [pid], in the
    order of the list. *)
Definition topic_id (i : nat) (l : log) : outcome Z :=
  t <- Py.index (topics l) i ;; Py.int16 t.

Definition scaled_word (i : nat) (l : log) : outcome Py.float :=
  w <- Tracker.decode_word (data l) i ;; Py.truediv w (10 ^ DECIMALS).

Fixpoint amounts_for (i : nat) (pid : Z) (logs : list log) : outcome (list Py.float) :=
  match logs with
  | [] => Ok []
  | l :: rest =>
    k <- topic_id 1 l ;;
    if k =? pid then
      x <- scaled_word i l ;;
      xs <- amounts_for i pid rest ;;
      Ok (x :: xs)
    else amounts_for i pid rest
  end.

(** No log of the list carries the token id [pid] in its topic [i]. *)
Definition names_no (i : nat) (pid : Z) (logs : list log) : Prop :=
  forall l, In l logs -> topic_id i l <> Ok pid.

(** ** Sample logs for the further properties

    One deposit and one withdrawal of one token for position 1, and the
    flow rows the dashboard builds from them. *)
Module Sample.

Definition dep_logs : list log := [Fixture.deposit_log 1 (10 ^ 18) (10 ^ 18)].
Definition wth_logs : list log := [Fixture.withdrawal_log 1 (10 ^ 18)].

Definition flow_rows : list Dashboard.flow_row :=
  match Dashboard.flow_rows dep_logs wth_logs [] [] with
  | Ok rows => rows
  | Raise _ => []
  end.

(** A source whose first answer is a full page of 1000 records, the last
    one in block 500, and whose later answers are all [second]. *)
Definition full_page : response :=
  {| status := Some "1"; result := Some (firstn 1000 Fixture.straddling_chain) |}.

Definition cut_source (second : reply) : source :=
  fun k _ =>
    match k with
    | O => Reply full_page
    | S _ => second
    end.





(** A FundsDeposited log for position 99, never created, whose payload
    is empty. *)
Definition bare_deposit : log := Fixture.event_log [0; 99] [].

End Sample.

(** ** Agreement of the tracker's rows with the dashboard's flow rows

    The two scripts name the events differently; the compared fields are
    the block, the time stamp, the amount and the net flow, and for the
    frames also the date and the running sum. *)
Definition same_flow (r : Tracker.row) (f : Dashboard.flow_row) : Prop :=
  Tracker.block r = Dashboard.block f
  /\ Tracker.timestamp r = Dashboard.timestamp f
  /\ Tracker.amount r = Dashboard.amount f
  /\ Tracker.net_flow r = Dashboard.net_flow f.

Definition same_frame_row (a : TrackerFrame.frame_row) (b : Dashboard.flow_df_row) : Prop :=
  same_flow (TrackerFrame.base a) (Dashboard.flow b)
  /\ TrackerFrame.datetime a = Dashboard.datetime b
  /\ TrackerFrame.cumulative_net_staked a = Dashboard.cumulative_net_staked b.

(** * Properties *)

(** ** Pagination *)

(** The three scripts carry the same loop. *)
Lemma fetch_loop_top_stakers : TopStakers.fetch_loop = Tracker.fetch_loop.
Proof. reflexivity. Qed.

Lemma fetch_loop_dashboard : Dashboard.fetch_loop = Tracker.fetch_loop.
Proof. reflexivity. Qed.

Lemma falsy_nil : forall logs, falsy logs = true <-> logs = [].
Proof. intros [|l logs]; simpl; split; congruence. Qed.

Lemma last_of_full_page : forall logs : list log,
  (1000 <= List.length logs)%nat ->
  exists l, Py.index logs (List.length logs - 1) = Ok l /\ In l logs.
Proof.
  intros logs Hlen. unfold Py.index.
  destruct (nth_error logs (List.length logs - 1)) as [l|] eqn:E.
  - exists l. split; [reflexivity|]. eapply nth_error_In; eassumption.
  - apply nth_error_None in E. lia.
Qed.

Lemma fetch_loop_S : forall fuel src k all_logs from_block,
  Tracker.fetch_loop (S fuel) src k all_logs from_block
  = match src k from_block with
    | Throws e => Some (Raise e)
    | Reply resp =>
      if negb (status_is_1 resp) || falsy (page resp) then Some (Ok all_logs)
      else
        if (1000 <=? List.length (page resp))%nat then
          match (l <- Py.index (page resp) (List.length (page resp) - 1) ;;
                 Py.int16 (blockNumber l)) with
          | Raise e => Some (Raise e)
          | Ok b => Tracker.fetch_loop fuel src (S k) (all_logs ++ page resp) (b + 1)
          end
        else Some (Ok (all_logs ++ page resp))
    end.
Proof. reflexivity. Qed.

(** A full page: the next request starts one block after the last record. *)
Lemma fetch_loop_full_page : forall fuel src k acc fb resp l b,
  src k fb = Reply resp ->
  status_is_1 resp = true ->
  (1000 <= List.length (page resp))%nat ->
  Py.index (page resp) (List.length (page resp) - 1) = Ok l ->
  Py.int16 (blockNumber l) = Ok b ->
  Tracker.fetch_loop (S fuel) src k acc fb
  = Tracker.fetch_loop fuel src (S k) (acc ++ page resp) (b + 1).
Proof.
  intros fuel src k acc fb resp l b Hsrc Hst Hlen Hidx Hblk.
  rewrite fetch_loop_S, Hsrc, Hst.
  destruct (falsy (page resp)) eqn:Hf.
  - apply falsy_nil in Hf. rewrite Hf in Hlen. simpl in Hlen. lia.
  - apply Nat.leb_le in Hlen. rewrite Hlen, Hidx. cbn [negb orb bind].
    rewrite Hblk. reflexivity.
Qed.

(** A page below the cap: that request is the last one. *)
Lemma fetch_loop_short_page : forall fuel src k acc fb resp,
  src k fb = Reply resp ->
  status_is_1 resp = true ->
  page resp <> [] ->
  (List.length (page resp) < 1000)%nat ->
  Tracker.fetch_loop (S fuel) src k acc fb = Some (Ok (acc ++ page resp)).
Proof.
  intros fuel src k acc fb resp Hsrc Hst Hne Hlen.
  rewrite fetch_loop_S, Hsrc, Hst.
  destruct (falsy (page resp)) eqn:Hf.
  - apply falsy_nil in Hf. contradiction.
  - apply Nat.leb_gt in Hlen. rewrite Hlen. reflexivity.
Qed.

(** C1, as stated, fails: the error body of the API (status ["0"], no
    list) makes [fetch_logs] return normally with no record, exactly as an
    empty successful answer does; nothing is raised. *)
Lemma fetch_logs_failure_not_surfaced :
  Tracker.fetch_logs 1 Fixture.failing_source = Some (Ok [])
  /\ Dashboard.fetch_logs 1 Fixture.failing_source = Some (Ok [])
  /\ Tracker.fetch_logs 1 Fixture.failing_source
     = Tracker.fetch_logs 1 Fixture.empty_source
  /\ forall e, Tracker.fetch_logs 1 Fixture.failing_source <> Some (Raise e).
Proof.
  repeat split; try reflexivity. intros e H. discriminate H.
Qed.

(** C1, amended: a body whose status is not ["1"] and a body whose result
    is empty or missing both end the pagination, and [fetch_logs] returns
    normally the records gathered so far; a failure reaches the caller only
    when the request itself raises. *)
Theorem fetch_loop_ends_quietly : forall fuel src k acc fb,
  (forall resp,
      src k fb = Reply resp ->
      status_is_1 resp = false \/ page resp = [] ->
      Tracker.fetch_loop (S fuel) src k acc fb = Some (Ok acc)
      /\ Dashboard.fetch_loop (S fuel) src k acc fb = Some (Ok acc))
  /\ (forall e,
      src k fb = Throws e ->
      Tracker.fetch_loop (S fuel) src k acc fb = Some (Raise e)
      /\ Dashboard.fetch_loop (S fuel) src k acc fb = Some (Raise e)).
Proof.
  intros fuel src k acc fb. split.
  - intros resp Hsrc Hend. rewrite fetch_loop_dashboard.
    assert (Tracker.fetch_loop (S fuel) src k acc fb = Some (Ok acc)) as H.
    { rewrite fetch_loop_S, Hsrc. destruct Hend as [Hst | Hnil].
      - rewrite Hst. reflexivity.
      - rewrite Hnil. cbn [falsy]. rewrite orb_true_r. reflexivity. }
    split; exact H.
  - intros e Hsrc. rewrite fetch_loop_dashboard, fetch_loop_S, Hsrc.
    split; reflexivity.
Qed.

Lemma fetch_loop_ends_quietly_witness :
  Tracker.fetch_loop 1 Fixture.failing_source 0 [] 0 = Some (Ok [])
  /\ Tracker.fetch_loop 1 Fixture.throwing_source 0 [] 0 = Some (Raise RequestException).
Proof.
  split.
  - apply (proj1 (fetch_loop_ends_quietly 0 Fixture.failing_source 0 [] 0)
                 {| status := Some "0"; result := None |}).
    + reflexivity.
    + left. reflexivity.
  - apply (proj2 (fetch_loop_ends_quietly 0 Fixture.throwing_source 0 [] 0)
                 RequestException).
    reflexivity.
Defined.

(** C2 at a source whose block 500 straddles the page boundary: the first
    page ends inside block 500, the cursor moves to block 501, and the
    record of index 1000, also in block 500, is never fetched. *)
Theorem fetch_logs_skips_straddling_record :
  Tracker.fetch_logs 3 (Fixture.capped_source Fixture.straddling_chain)
  = Some (Ok (firstn 1000 Fixture.straddling_chain))
  /\ TopStakers.fetch_logs 3 (Fixture.capped_source Fixture.straddling_chain)
     = Some (Ok (firstn 1000 Fixture.straddling_chain))
  /\ In (Fixture.mk_log 500 1000) Fixture.straddling_chain
  /\ ~ In (Fixture.mk_log 500 1000) (firstn 1000 Fixture.straddling_chain).
Proof.
  split; [vm_compute; reflexivity|].
  split; [vm_compute; reflexivity|].
  split.
  - apply (nth_error_In _ 1000). vm_compute. reflexivity.
  - intro Hin.
    assert (forallb (fun l => negb (String.eqb (transactionHash l) "0x3e8"))
                    (firstn 1000 Fixture.straddling_chain) = true) as Hall
        by (vm_compute; reflexivity).
    rewrite forallb_forall in Hall. specialize (Hall _ Hin).
    vm_compute in Hall. discriminate Hall.
Qed.

Lemma fetch_loop_returns : forall L src,
  bounded_source L src ->
  forall fuel k acc fb,
    (Z.to_nat (L + 1 - fb) < fuel)%nat ->
    exists r, Tracker.fetch_loop fuel src k acc fb = Some r.
Proof.
  intros L src Hsrc fuel. induction fuel as [|fuel IH]; intros k acc fb Hfuel.
  - lia.
  - rewrite fetch_loop_S.
    destruct (src k fb) as [resp|e] eqn:Ereply; [|eexists; reflexivity].
    destruct (negb (status_is_1 resp) || falsy (page resp)) eqn:Eend;
      [eexists; reflexivity|].
    destruct (1000 <=? List.length (page resp))%nat eqn:Efull;
      [|eexists; reflexivity].
    apply Nat.leb_le in Efull.
    destruct (last_of_full_page _ Efull) as (l & Hidx & Hin).
    rewrite Hidx. cbn [bind].
    apply orb_false_elim in Eend. destruct Eend as [Est _].
    apply negb_false_iff in Est.
    destruct (Hsrc k fb resp l Ereply Est Hin) as (b & Hb & Hlo & Hhi).
    rewrite Hb. apply IH. lia.
Qed.

Lemma firstn_incl : forall (A : Type) (n : nat) (xs : list A) (x : A),
  In x (firstn n xs) -> In x xs.
Proof.
  intros A n. induction n as [|n IH]; intros [|y ys] x Hin; simpl in *; try contradiction.
  destruct Hin as [->|Hin]; [left; reflexivity | right; apply IH; exact Hin].
Qed.

(** The capped source over a chain of well-formed records is bounded by
    any block number that bounds the chain. *)
Lemma capped_source_bounded : forall chain L,
  (forall l, In l chain -> exists b, Py.int16 (blockNumber l) = Ok b /\ b <= L) ->
  bounded_source L (Fixture.capped_source chain).
Proof.
  intros chain L Hchain k fb resp l Hsrc _ Hin.
  unfold Fixture.capped_source in Hsrc.
  set (hits := firstn 1000 (filter (fun l => fb <=? Fixture.block_of l) chain)) in *.
  assert (In l hits) as Hhit.
  { destruct hits as [|x xs] eqn:E; inversion Hsrc; subst resp; exact Hin. }
  apply firstn_incl in Hhit.
  apply filter_In in Hhit. destruct Hhit as [Hl Hfb].
  destruct (Hchain l Hl) as (b & Hb & Hle).
  exists b. split; [exact Hb|]. split; [|exact Hle].
  unfold Fixture.block_of in Hfb. rewrite Hb in Hfb. apply Z.leb_le. exact Hfb.
Qed.

(** C10: for a source bounded by [L] the pagination loop returns, and does
    so within [L + 2] requests: each full page moves the cursor strictly
    forward, to the block after its last record, and every other answer
    ends the loop. *)
Theorem fetch_logs_terminates : forall L src,
  bounded_source L src ->
  forall fuel, (Z.to_nat (L + 1) < fuel)%nat ->
    (exists r, Tracker.fetch_logs fuel src = Some r)
    /\ (exists r, Dashboard.fetch_logs fuel src = Some r).
Proof.
  intros L src Hsrc fuel Hfuel.
  assert (exists r, Tracker.fetch_logs fuel src = Some r) as H.
  { unfold Tracker.fetch_logs. eapply fetch_loop_returns; [eassumption|].
    replace (L + 1 - 0) with (L + 1) by lia. exact Hfuel. }
  split; exact H.
Qed.

Lemma fetch_logs_terminates_witness :
  let src := Fixture.capped_source [Fixture.mk_log 1 0; Fixture.mk_log 2 1] in
  bounded_source 2 src
  /\ (exists r, Tracker.fetch_logs 4 src = Some r)
  /\ (exists r, Dashboard.fetch_logs 4 src = Some r).
Proof.
  intro src.
  assert (bounded_source 2 src) as Hb.
  { apply capped_source_bounded.
    intros l [<-|[<-|[]]]; eexists; (split; [vm_compute; reflexivity | lia]). }
  split; [exact Hb|].
  apply (fetch_logs_terminates 2 src Hb 4). simpl. lia.
Defined.

(** ** Decoding *)

Lemma substring_past_end : forall (s : string) (n m : nat),
  (String.length s <= n)%nat -> substring n m s = EmptyString.
Proof.
  induction s as [|c s IH]; intros n m Hlen.
  - destruct n, m; reflexivity.
  - destruct n as [|n]; simpl in Hlen; [lia|].
    simpl. apply IH. lia.
Qed.

Lemma substring_append_within : forall (s extra : string) (n m : nat),
  (n + m <= String.length s)%nat ->
  substring n m (s ++ extra)%string = substring n m s.
Proof.
  induction s as [|c s IH]; intros extra n m Hlen.
  - simpl in Hlen. assert (n = 0%nat /\ m = 0%nat) as [-> ->] by lia.
    destruct extra; reflexivity.
  - destruct n as [|n].
    + destruct m as [|m]; [reflexivity|].
      simpl. f_equal. apply (IH extra 0%nat m). simpl in Hlen. lia.
    + simpl. apply IH. simpl in Hlen. lia.
Qed.

(** A hex digit is no white space, sign, underscore or base letter. *)
Lemma hex_char_plain : forall c,
  match Py.hex_digit c with
  | Some _ =>
    negb (Py.isspace c) && negb (Ascii.eqb c "+") && negb (Ascii.eqb c "-")
    && negb (Ascii.eqb c "_") && negb (Ascii.eqb c "x") && negb (Ascii.eqb c "X")
  | None => true
  end = true.
Proof.
  intros [[] [] [] [] [] [] [] []]; vm_compute; reflexivity.
Qed.

Lemma hex_char_facts : forall c d,
  Py.hex_digit c = Some d ->
  Py.isspace c = false /\ Ascii.eqb c "+" = false /\ Ascii.eqb c "-" = false
  /\ Ascii.eqb c "_" = false /\ Ascii.eqb c "x" = false /\ Ascii.eqb c "X" = false.
Proof.
  intros c d Hc. pose proof (hex_char_plain c) as H. rewrite Hc in H.
  repeat (apply andb_prop in H; destruct H as [H ?]).
  repeat split; apply negb_true_iff; assumption.
Qed.

Lemma scan_digits_hex : forall s acc n,
  Py.all_hex s = true ->
  Py.scan_digits s false acc n
  = Some (Py.hex_value acc s, (n + String.length s)%nat, EmptyString, false).
Proof.
  induction s as [|c r IH]; intros acc n Hhex; cbn [Py.scan_digits Py.hex_value String.length].
  - rewrite Nat.add_0_r. reflexivity.
  - cbn [Py.all_hex] in Hhex. destruct (Py.hex_digit c) as [d|] eqn:Hc; [|discriminate].
    destruct (hex_char_facts c d Hc) as (_ & _ & _ & Hus & _).
    rewrite Hus, IH by exact Hhex.
    replace (S n + String.length r)%nat with (n + S (String.length r))%nat by lia.
    reflexivity.
Qed.

(** On a non-empty string of hex digits [int(s, 16)] is the number they denote. *)
Lemma int16_hex : forall s,
  s <> EmptyString -> Py.all_hex s = true -> Py.int16 s = Ok (Py.hex_value 0 s).
Proof.
  intros [|c r] Hne Hhex; [congruence|]. clear Hne.
  pose proof Hhex as Hall. cbn [Py.all_hex] in Hhex.
  destruct (Py.hex_digit c) as [d|] eqn:Hc; [|discriminate].
  destruct (hex_char_facts c d Hc) as (Hsp & Hplus & Hminus & Hus & _).
  unfold Py.int16. cbn [Py.lstrip]. rewrite Hsp.
  cbn [Py.strip_sign]. rewrite Hplus, Hminus.
  assert (Py.strip_0x (String c r) = String c r) as ->.
  { destruct r as [|c1 r1]; [reflexivity|]. cbn [Py.strip_0x].
    cbn [Py.all_hex] in Hhex. destruct (Py.hex_digit c1) as [d1|] eqn:Hc1; [|discriminate].
    destruct (hex_char_facts c1 d1 Hc1) as (_ & _ & _ & _ & Hx & HX).
    rewrite Hx, HX, andb_false_r. reflexivity. }
  cbn [Py.starts_with_underscore]. rewrite Hus.
  rewrite scan_digits_hex by exact Hall.
  cbn [orb String.length Nat.add Nat.eqb Py.all_space negb]. reflexivity.
Qed.

Lemma decode_word_same :
  TopStakers.decode_word = Tracker.decode_word
  /\ Dashboard.decode_word = Tracker.decode_word.
Proof. split; reflexivity. Qed.

(** C6, as stated, fails: a withdrawal whose payload is one byte long does
    not have the shape of its kind, yet it is decoded, without any error,
    into a row whose amount is read from the two digits present. *)
Lemma cut_payload_decoded_silently :
  has_shape 2 1 Fixture.cut_withdrawal = false
  /\ exists r, Tracker.parse_withdrawals [Fixture.cut_withdrawal] = Ok [r]
               /\ Tracker.amount_raw r = 42
  /\ TopStakers.decode_word (data Fixture.cut_withdrawal) 0 = Ok 42.
Proof.
  split; [reflexivity|]. eexists. split; [vm_compute; reflexivity|].
  split; reflexivity.
Qed.

(** C6, amended: on a record that is not of the shape of its kind the
    decoder raises only what the built-ins raise, and only when a read
    falls outside the record: a word at or past the end of the payload is
    a [ValueError], a missing topic slot an [IndexError]; what lies beyond
    the words read is ignored, and the hex digits found at the offset of a
    word are decoded as they are, be the word complete or cut short. *)
Theorem decoding_misshapen_record : forall (data_ extra : string) (index : nat) (l : log),
  ((String.length data_ <= 2 + index * 64)%nat ->
     Tracker.decode_word data_ index = Raise ValueError
     /\ TopStakers.decode_word data_ index = Raise ValueError)
  /\ ((2 + index * 64 + 64 <= String.length data_)%nat ->
     Tracker.decode_word (data_ ++ extra)%string index = Tracker.decode_word data_ index
     /\ TopStakers.decode_word (data_ ++ extra)%string index
        = TopStakers.decode_word data_ index)
  /\ ((List.length (topics l) <= 1)%nat ->
     Tracker.parse_deposit l = Raise IndexError
     /\ Tracker.parse_withdrawal l = Raise IndexError
     /\ Tracker.parse_reward_issued l = Raise IndexError
     /\ Tracker.parse_reward_withdrawn l = Raise IndexError)
  /\ (forall w,
        w = Py.slice data_ (2 + index * 64) (2 + index * 64 + 64) ->
        w <> EmptyString ->
        Py.all_hex w = true ->
        Tracker.decode_word data_ index = Ok (Py.hex_value 0 w)
        /\ TopStakers.decode_word data_ index = Ok (Py.hex_value 0 w)).
Proof.
  intros data_ extra index l. split; [|split; [|split]].
  - intro Hshort.
    assert (Tracker.decode_word data_ index = Raise ValueError) as H.
    { unfold Tracker.decode_word, Py.slice.
      rewrite substring_past_end by exact Hshort. reflexivity. }
    split; exact H.
  - intro Hlong.
    assert (Tracker.decode_word (data_ ++ extra)%string index
            = Tracker.decode_word data_ index) as H.
    { unfold Tracker.decode_word, Py.slice.
      rewrite substring_append_within by lia. reflexivity. }
    split; exact H.
  - intro Hfew.
    assert (Py.index (topics l) 1 = Raise IndexError) as H.
    { unfold Py.index.
      destruct (nth_error (topics l) 1) eqn:E; [|reflexivity].
      assert (nth_error (topics l) 1 <> None) as Hne by congruence.
      apply nth_error_Some in Hne. lia. }
    unfold Tracker.parse_deposit, Tracker.parse_withdrawal,
      Tracker.parse_reward_issued, Tracker.parse_reward_withdrawn.
    rewrite H. repeat split; reflexivity.
  - intros w -> Hne Hhex.
    assert (Tracker.decode_word data_ index
            = Ok (Py.hex_value 0 (Py.slice data_ (2 + index * 64) (2 + index * 64 + 64))))
      as H by (unfold Tracker.decode_word; apply int16_hex; assumption).
    split; exact H.
Qed.

Lemma decoding_misshapen_record_witness :
  Tracker.decode_word "0x2a" 1 = Raise ValueError
  /\ Tracker.decode_word
       (data (Fixture.event_log [0; 7] [Fixture.raw_amount]) ++ "ff")%string 0
     = Tracker.decode_word (data (Fixture.event_log [0; 7] [Fixture.raw_amount])) 0
  /\ Tracker.parse_withdrawal (Fixture.event_log [0] [Fixture.raw_amount])
     = Raise IndexError
  /\ Tracker.decode_word "0x2a" 0 = Ok (Py.hex_value 0 "2a").
Proof.
  pose proof (decoding_misshapen_record "0x2a" "" 1
                (Fixture.event_log [0] [Fixture.raw_amount])) as (H1 & _ & H3 & _).
  pose proof (decoding_misshapen_record
                (data (Fixture.event_log [0; 7] [Fixture.raw_amount])) "ff" 0
                (Fixture.event_log [0] [Fixture.raw_amount])) as (_ & H2 & _).
  pose proof (decoding_misshapen_record "0x2a" "" 0
                (Fixture.event_log [0] [Fixture.raw_amount])) as (_ & _ & _ & H4).
  split; [apply H1; simpl; lia|].
  split; [apply H2; vm_compute; lia|].
  split; [apply H3; simpl; lia|].
  apply (H4 "2a"); [reflexivity | discriminate | reflexivity].
Defined.

(** C7, as stated, fails: the scaled amount is a binary64 number, and no
    such number equals 1234567890123456789 / 10^18. *)
Lemma scaled_amount_is_not_the_exact_quotient :
  exists r,
    Tracker.parse_deposit
      (Fixture.event_log [0; 7] [Fixture.raw_amount; Fixture.raw_amount]) = Ok r
    /\ ~ (Py.F2Q (Tracker.amount r) == Fixture.raw_amount # 10 ^ 18)%Q.
Proof.
  eexists. split; [vm_compute; reflexivity|].
  intro H. vm_compute in H. discriminate H.
Qed.

(** C7, amended: for each of the four event kinds with an amount, the
    parser keeps 1234567890123456789 as [amount_raw] and gives as [amount]
    the binary64 number nearest to the quotient by 10^18, which is
    5559999489923579 / 2^52 and lies within 2^-53 of it. *)
Theorem decode_round_trip :
  Fixture.keeps_and_scales
    (Tracker.parse_deposit
       (Fixture.event_log [0; 7] [Fixture.raw_amount; Fixture.raw_amount]))
  /\ Fixture.keeps_and_scales
       (Tracker.parse_withdrawal (Fixture.event_log [0; 7] [Fixture.raw_amount]))
  /\ Fixture.keeps_and_scales
       (Tracker.parse_reward_issued (Fixture.event_log [0; 7] [Fixture.raw_amount]))
  /\ Fixture.keeps_and_scales
       (Tracker.parse_reward_withdrawn (Fixture.event_log [0; 7] [Fixture.raw_amount]))
  /\ (Py.F2Q Fixture.scaled_amount == 5559999489923579 # 2 ^ 52)%Q
  /\ ((Fixture.raw_amount # 10 ^ 18) - (1 # 2 ^ 53) < Py.F2Q Fixture.scaled_amount)%Q
  /\ (Py.F2Q Fixture.scaled_amount < (Fixture.raw_amount # 10 ^ 18) + (1 # 2 ^ 53))%Q.
Proof.
  split; [vm_compute; split; reflexivity|].
  split; [vm_compute; split; reflexivity|].
  split; [vm_compute; split; reflexivity|].
  split; [vm_compute; split; reflexivity|].
  split; [vm_compute; reflexivity|].
  split; vm_compute; reflexivity.
Qed.

(** ** The [positions] dict *)

Lemma bind_Ok : forall (A B : Type) (r : outcome A) (k : A -> outcome B) (b : B),
  (x <- r ;; k x) = Ok b -> exists a, r = Ok a /\ k a = Ok b.
Proof.
  intros A B [a|e] k b H; simpl in H; [|discriminate H].
  exists a. split; [reflexivity | exact H].
Qed.

Lemma for_each_app : forall (A S : Type) (body : S -> A -> outcome S) (xs ys : list A) (s : S),
  for_each body (xs ++ ys) s = (s' <- for_each body xs s ;; for_each body ys s').
Proof.
  intros A S body xs. induction xs as [|x xs IH]; intros ys s; simpl; [reflexivity|].
  destruct (body s x) as [s'|e]; simpl; [apply IH | reflexivity].
Qed.

(** A property of the state kept by every step is kept by the loop. *)
Lemma for_each_invariant : forall (A S : Type) (body : S -> A -> outcome S) (P : S -> Prop)
                                  (xs : list A),
  (forall s x s', In x xs -> P s -> body s x = Ok s' -> P s') ->
  forall s s', P s -> for_each body xs s = Ok s' -> P s'.
Proof.
  intros A S body P xs. induction xs as [|x xs IH]; intros Hstep s s' Hs Hrun; simpl in Hrun.
  - inversion Hrun. subst s'. exact Hs.
  - apply bind_Ok in Hrun. destruct Hrun as (sm & Hone & Hrun).
    apply (IH (fun s0 x0 s0' Hin => Hstep s0 x0 s0' (or_intror Hin)) sm s').
    + apply (Hstep s x sm (or_introl eq_refl) Hs Hone).
    + exact Hrun.
Qed.


Lemma map_outcome_length : forall (A B : Type) (f : A -> outcome B) (xs : list A) (ys : list B),
  map_outcome f xs = Ok ys -> List.length ys = List.length xs.
Proof.
  intros A B f xs. induction xs as [|x0 xs IH]; intros ys Hmap; simpl in *.
  - inversion Hmap. reflexivity.
  - apply bind_Ok in Hmap. destruct Hmap as (y0 & Hy0 & Hmap).
    apply bind_Ok in Hmap. destruct Hmap as (ys0 & Hys0 & Hmap).
    inversion Hmap. simpl. f_equal. apply IH. exact Hys0.
Qed.

Section DictFacts.
Context {V : Type}.
Implicit Types (d : Dict.t V) (k : Z) (v : V).

Lemma dict_get_set_eq : forall d k v, Dict.get k (Dict.set k v d) = Some v.
Proof.
  induction d as [|[k' v'] d IH]; intros k v; simpl.
  - rewrite Z.eqb_refl. reflexivity.
  - destruct (k =? k') eqn:E; simpl; rewrite ?Z.eqb_refl, ?E; [reflexivity | apply IH].
Qed.

Lemma dict_get_set_neq : forall d k k' v, k <> k' -> Dict.get k' (Dict.set k v d) = Dict.get k' d.
Proof.
  induction d as [|[k0 v0] d IH]; intros k k' v Hne; simpl.
  - destruct (k' =? k) eqn:E; [apply Z.eqb_eq in E; congruence | reflexivity].
  - destruct (k =? k0) eqn:E; simpl.
    + apply Z.eqb_eq in E. subst k0.
      destruct (k' =? k) eqn:E'; [apply Z.eqb_eq in E'; congruence | reflexivity].
    + destruct (k' =? k0); [reflexivity | apply IH; exact Hne].
Qed.

Lemma dict_get_None : forall d k, Dict.get k d = None <-> ~ In k (Dict.keys d).
Proof.
  induction d as [|[k' v'] d IH]; intro k; simpl.
  - split; [intros _ [] | reflexivity].
  - destruct (k =? k') eqn:E.
    + apply Z.eqb_eq in E. subst k'. split; [discriminate | intro H; exfalso; apply H; left; reflexivity].
    + apply Z.eqb_neq in E. rewrite IH. split.
      * intros H [Heq|Hin]; [congruence | exact (H Hin)].
      * intros H Hin. apply H. right. exact Hin.
Qed.

(** Assigning to a key that is present keeps the keys and their order. *)
Lemma dict_keys_set_present : forall d k v v0,
  Dict.get k d = Some v0 -> Dict.keys (Dict.set k v d) = Dict.keys d.
Proof.
  induction d as [|[k' v'] d IH]; intros k v v0 Hget; simpl in *; [discriminate|].
  destruct (k =? k') eqn:E; simpl.
  - apply Z.eqb_eq in E. subst k'. reflexivity.
  - f_equal. eapply IH. exact Hget.
Qed.

(** Assigning to a key that is absent appends it. *)
Lemma dict_set_absent : forall d k v,
  Dict.get k d = None -> Dict.set k v d = d ++ [(k, v)].
Proof.
  induction d as [|[k' v'] d IH]; intros k v Hget; simpl in *; [reflexivity|].
  destruct (k =? k'); [discriminate|]. f_equal. apply IH. exact Hget.
Qed.

Lemma dict_get_In : forall d k v, Dict.get k d = Some v -> In v (Dict.values d).
Proof.
  induction d as [|[k' v'] d IH]; intros k v Hget; simpl in *; [discriminate|].
  destruct (k =? k'); [inversion Hget; left; reflexivity | right; eapply IH; exact Hget].
Qed.

End DictFacts.

(** ** Related dicts *)

Section TablesRel.
Context {V1 V2 : Type}.
Variable R : V1 -> V2 -> Prop.

Lemma tables_rel_get : forall (t1 : Dict.t V1) (t2 : Dict.t V2) k,
  tables_rel R t1 t2 ->
  match Dict.get k t1, Dict.get k t2 with
  | Some p1, Some p2 => R p1 p2
  | None, None => True
  | _, _ => False
  end.
Proof.
  intros t1 t2 k Hrel. induction Hrel as [|[k1 p1] [k2 p2] t1 t2 [Hk Hp] _ IH]; simpl.
  - exact I.
  - simpl in Hk. subst k2. destruct (k =? k1); [exact Hp | exact IH].
Qed.

Lemma tables_rel_set : forall (t1 : Dict.t V1) (t2 : Dict.t V2) k p1 p2,
  tables_rel R t1 t2 -> R p1 p2 -> tables_rel R (Dict.set k p1 t1) (Dict.set k p2 t2).
Proof.
  intros t1 t2 k p1 p2 Hrel Hp.
  induction Hrel as [|[k1 q1] [k2 q2] t1 t2 [Hk Hq] Hrest IH]; simpl.
  - constructor; [split; [reflexivity | exact Hp] | constructor].
  - simpl in Hk. subst k2. destruct (k =? k1).
    + constructor; [split; [reflexivity | exact Hp] | exact Hrest].
    + constructor; [split; [reflexivity | exact Hq] | exact IH].
Qed.

Lemma tables_rel_keys : forall (t1 : Dict.t V1) (t2 : Dict.t V2),
  tables_rel R t1 t2 -> Dict.keys t1 = Dict.keys t2.
Proof.
  intros t1 t2 Hrel. induction Hrel as [|[k1 q1] [k2 q2] t1 t2 [Hk _] _ IH]; simpl.
  - reflexivity.
  - simpl in Hk. subst k2. f_equal. exact IH.
Qed.

(** A loop that completes on one dict is matched, step by step, by the
    loop on a related dict. *)
Lemma tables_rel_loops : forall (body1 : Dict.t V1 -> log -> outcome (Dict.t V1))
                                (body2 : Dict.t V2 -> log -> outcome (Dict.t V2)),
  (forall t1 t2 l t1', tables_rel R t1 t2 -> body1 t1 l = Ok t1' ->
                       exists t2', body2 t2 l = Ok t2' /\ tables_rel R t1' t2') ->
  forall logs t1 t2 t1', tables_rel R t1 t2 -> for_each body1 logs t1 = Ok t1' ->
                         exists t2', for_each body2 logs t2 = Ok t2' /\ tables_rel R t1' t2'.
Proof.
  intros body1 body2 Hstep logs.
  induction logs as [|l logs IH]; intros t1 t2 t1' Hrel Hrun; simpl in *.
  - inversion Hrun. subst t1'. exists t2. split; [reflexivity | exact Hrel].
  - apply bind_Ok in Hrun. destruct Hrun as (t1m & Hone & Hrun).
    destruct (Hstep _ _ _ _ Hrel Hone) as (t2m & Hone2 & Hrelm).
    rewrite Hone2. cbn [bind]. eapply IH; eassumption.
Qed.

End TablesRel.

Lemma tables_rel_refl : forall (V : Type) (R : V -> V -> Prop) (t : Dict.t V),
  (forall x, R x x) -> tables_rel R t t.
Proof.
  intros V R t Hrefl. unfold tables_rel.
  induction t as [|kv t IH]; constructor; [split; [reflexivity | apply Hrefl] | exact IH].
Qed.

(** Assigning a related value to a key that is present gives a related dict. *)
Lemma tables_rel_set_present : forall (V : Type) (R : V -> V -> Prop) (t : Dict.t V) k old v,
  (forall x, R x x) ->
  Dict.get k t = Some old ->
  R v old ->
  tables_rel R (Dict.set k v t) t.
Proof.
  intros V R t k old v Hrefl. unfold tables_rel.
  induction t as [|[k' v'] t IH]; intros Hget Hv; simpl in *.
  - discriminate Hget.
  - destruct (k =? k') eqn:E.
    + apply Z.eqb_eq in E. subst k'. inversion Hget. subst v'.
      constructor; [split; [reflexivity | exact Hv]|].
      apply tables_rel_refl. exact Hrefl.
    + constructor; [split; [reflexivity | apply Hrefl] | apply IH; assumption].
Qed.

(** ** The report and the dashboard build the same table *)

Section SameTable.
Variable NOW : Z.
Variable to_checksum_address : string -> outcome string.
Variable strftime_utc : string -> Z -> outcome string.
Variable decode_utf8_replace : list Byte.byte -> string.

Abbreviation agree := (positions_agree to_checksum_address).
Abbreviation related := (tables_rel (positions_agree to_checksum_address)).

Lemma created_related : forall t1 t2 l t1',
  related t1 t2 ->
  TopStakers.on_position_created NOW strftime_utc decode_utf8_replace t1 l = Ok t1' ->
  exists t2',
    Dashboard.on_position_created decode_utf8_replace t2 l = Ok t2' /\ related t1' t2'.
Proof.
  intros t1 t2 l t1' Hrel Hstep.
  unfold TopStakers.on_position_created in Hstep.
  unfold Dashboard.on_position_created.
  apply bind_Ok in Hstep. destruct Hstep as (t1x & Ht1 & Hstep). rewrite Ht1. cbn [bind].
  apply bind_Ok in Hstep. destruct Hstep as (pid & Hpid & Hstep).
  change (Dashboard.h t1x) with (TopStakers.h t1x). rewrite Hpid. cbn [bind].
  apply bind_Ok in Hstep. destruct Hstep as (expiry & Hexp & Hstep).
  change (Dashboard.h (Py.slice (data l) 2 66))
    with (TopStakers.h (Py.slice (data l) 2 66)). rewrite Hexp. cbn [bind].
  apply bind_Ok in Hstep. destruct Hstep as (t2x & Ht2 & Hstep). rewrite Ht2. cbn [bind].
  apply bind_Ok in Hstep. destruct Hstep as (raw & Hraw & Hstep). rewrite Hraw. cbn [bind].
  apply bind_Ok in Hstep. destruct Hstep as (utc & _ & Hstep).
  inversion Hstep. subst t1'. cbn [bind].
  eexists. split; [reflexivity|].
  apply tables_rel_set; [exact Hrel|].
  repeat split; reflexivity.
Qed.

Lemma transfer_related : forall t1 t2 l t1',
  related t1 t2 ->
  TopStakers.on_transfer to_checksum_address t1 l = Ok t1' ->
  exists t2', Dashboard.on_transfer t2 l = Ok t2' /\ related t1' t2'.
Proof.
  intros t1 t2 l t1' Hrel Hstep.
  unfold TopStakers.on_transfer in Hstep. unfold Dashboard.on_transfer.
  apply bind_Ok in Hstep. destruct Hstep as (t2x & Ht2 & Hstep). rewrite Ht2. cbn [bind].
  apply bind_Ok in Hstep. destruct Hstep as (to_addr & Haddr & Hstep).
  apply bind_Ok in Hstep. destruct Hstep as (t3x & Ht3 & Hstep). rewrite Ht3. cbn [bind].
  apply bind_Ok in Hstep. destruct Hstep as (token_id & Hid & Hstep).
  change (Dashboard.h t3x) with (TopStakers.h t3x). rewrite Hid. cbn [bind].
  pose proof (tables_rel_get _ t1 t2 token_id Hrel) as Hget.
  destruct (Dict.get token_id t1) as [p1|], (Dict.get token_id t2) as [p2|];
    try contradiction.
  - inversion Hstep. subst t1'. eexists. split; [reflexivity|].
    apply tables_rel_set; [exact Hrel|].
    destruct Hget as (H1 & H2 & H3 & H4 & H5 & _).
    repeat split; try assumption.
  - inversion Hstep. subst t1'. eexists. split; [reflexivity | exact Hrel].
Qed.

Lemma deposited_related : forall t1 t2 l t1',
  related t1 t2 ->
  TopStakers.on_funds_deposited t1 l = Ok t1' ->
  exists t2', Dashboard.on_funds_deposited t2 l = Ok t2' /\ related t1' t2'.
Proof.
  intros t1 t2 l t1' Hrel Hstep.
  unfold TopStakers.on_funds_deposited in Hstep. unfold Dashboard.on_funds_deposited.
  apply bind_Ok in Hstep. destruct Hstep as (t1x & Ht1 & Hstep). rewrite Ht1. cbn [bind].
  apply bind_Ok in Hstep. destruct Hstep as (pid & Hpid & Hstep).
  change (Dashboard.h t1x) with (TopStakers.h t1x). rewrite Hpid. cbn [bind].
  apply bind_Ok in Hstep. destruct Hstep as (w0 & Hw0 & Hstep).
  apply bind_Ok in Hstep. destruct Hstep as (funds & Hfunds & Hstep).
  apply bind_Ok in Hstep. destruct Hstep as (w1 & Hw1 & Hstep).
  apply bind_Ok in Hstep. destruct Hstep as (stake_added & Hstake & Hstep).
  pose proof (tables_rel_get _ t1 t2 pid Hrel) as Hget.
  destruct (Dict.get pid t1) as [p1|], (Dict.get pid t2) as [p2|];
    try contradiction.
  - change (Dashboard.decode_word (data l) 0) with (TopStakers.decode_word (data l) 0).
    change (Dashboard.decode_word (data l) 1) with (TopStakers.decode_word (data l) 1).
    rewrite Hw0. cbn [bind]. rewrite Hfunds. cbn [bind].
    rewrite Hw1. cbn [bind]. rewrite Hstake. cbn [bind].
    inversion Hstep. subst t1'. eexists. split; [reflexivity|].
    apply tables_rel_set; [exact Hrel|].
    destruct Hget as (H1 & H2 & H3 & H4 & H5 & H6).
    repeat split; simpl; try assumption; congruence.
  - inversion Hstep. subst t1'. eexists. split; [reflexivity | exact Hrel].
Qed.

Lemma withdrawn_related : forall t1 t2 l t1',
  related t1 t2 ->
  TopStakers.on_funds_withdrawn t1 l = Ok t1' ->
  exists t2', Dashboard.on_funds_withdrawn t2 l = Ok t2' /\ related t1' t2'.
Proof.
  intros t1 t2 l t1' Hrel Hstep.
  unfold TopStakers.on_funds_withdrawn in Hstep. unfold Dashboard.on_funds_withdrawn.
  apply bind_Ok in Hstep. destruct Hstep as (t1x & Ht1 & Hstep). rewrite Ht1. cbn [bind].
  apply bind_Ok in Hstep. destruct Hstep as (pid & Hpid & Hstep).
  change (Dashboard.h t1x) with (TopStakers.h t1x). rewrite Hpid. cbn [bind].
  apply bind_Ok in Hstep. destruct Hstep as (w0 & Hw0 & Hstep).
  apply bind_Ok in Hstep. destruct Hstep as (funds & Hfunds & Hstep).
  pose proof (tables_rel_get _ t1 t2 pid Hrel) as Hget.
  destruct (Dict.get pid t1) as [p1|], (Dict.get pid t2) as [p2|];
    try contradiction.
  - change (Dashboard.decode_word (data l) 0) with (TopStakers.decode_word (data l) 0).
    rewrite Hw0. cbn [bind]. rewrite Hfunds. cbn [bind].
    inversion Hstep. subst t1'. eexists. split; [reflexivity|].
    apply tables_rel_set; [exact Hrel|].
    destruct Hget as (H1 & H2 & H3 & H4 & H5 & H6).
    repeat split; simpl; try assumption; congruence.
  - inversion Hstep. subst t1'. eexists. split; [reflexivity | exact Hrel].
Qed.

Lemma positions_of_related : forall pc_logs tr_logs dep_logs wth_logs t1,
  TopStakers.positions_of NOW to_checksum_address strftime_utc decode_utf8_replace
                          pc_logs tr_logs dep_logs wth_logs = Ok t1 ->
  exists t2,
    Dashboard.positions_of decode_utf8_replace pc_logs tr_logs dep_logs wth_logs = Ok t2
    /\ related t1 t2.
Proof.
  intros pc tr dep wth t1 Hrun.
  unfold TopStakers.positions_of in Hrun. unfold Dashboard.positions_of.
  apply bind_Ok in Hrun. destruct Hrun as (a1 & Ha & Hrun).
  apply bind_Ok in Hrun. destruct Hrun as (b1 & Hb & Hrun).
  apply bind_Ok in Hrun. destruct Hrun as (c1 & Hc & Hrun).
  destruct (tables_rel_loops _ _ _ created_related pc [] [] a1 (Forall2_nil _) Ha)
    as (a2 & Ha2 & Hra).
  destruct (tables_rel_loops _ _ _ transfer_related tr a1 a2 b1 Hra Hb) as (b2 & Hb2 & Hrb).
  destruct (tables_rel_loops _ _ _ deposited_related dep b1 b2 c1 Hrb Hc) as (c2 & Hc2 & Hrc).
  destruct (tables_rel_loops _ _ _ withdrawn_related wth c1 c2 t1 Hrc Hrun) as (t2 & Ht2 & Hrt).
  rewrite Ha2. cbn [bind]. rewrite Hb2. cbn [bind]. rewrite Hc2. cbn [bind].
  exists t2. split; [exact Ht2 | exact Hrt].
Qed.

End SameTable.

(** C8, as stated, fails: on the same logs the dashboard can return a
    table where the report returns none.  A [FundsDeposited] log for
    position 99, never created, with an empty payload: the dashboard
    tests [pid in positions] first and skips the log, keeping the table
    of position 1; the report decodes the two words before the test, and
    [int("", 16)] raises ValueError.  So the two projections differ in
    more than the form of the owner address. *)
Lemma report_raises_where_dashboard_returns :
  Dashboard.positions_of Fixture.decode_stub
                         [Fixture.created_log 1 1700000100 Fixture.label_v1] []
                         [Sample.bare_deposit] []
  = Ok [(1, Dashboard.base (Fixture.pos_row_of 1 None Py.fzero))]
  /\ TopStakers.positions_of Fixture.NOW Fixture.checksum_stub Fixture.strftime_stub
                             Fixture.decode_stub
                             [Fixture.created_log 1 1700000100 Fixture.label_v1] []
                             [Sample.bare_deposit] []
     = Raise ValueError
  /\ forall NOW to_checksum_address strftime_utc decode_utf8_replace,
       Dashboard.positions_of decode_utf8_replace [] [] [Sample.bare_deposit] [] = Ok []
       /\ TopStakers.positions_of NOW to_checksum_address strftime_utc decode_utf8_replace
                                  [] [] [Sample.bare_deposit] []
          = Raise ValueError.
Proof.
  split; [vm_compute; reflexivity|].
  split; [vm_compute; reflexivity|].
  intros NOW tca strf dec. split; vm_compute; reflexivity.
Qed.

(** C8, amended: on the same four lists of logs, whenever the report's
    loops complete, the dashboard's complete too, the two tables hold the
    same position ids in the same order, and for every id the two
    positions agree on [expiry_ts], [validator], [net_deposited] and
    [stake]; the owners differ only in that the report's is the
    checksummed form of the dashboard's. *)
Theorem projections_agree :
  forall NOW to_checksum_address strftime_utc decode_utf8_replace
         pc_logs tr_logs dep_logs wth_logs t1,
    TopStakers.positions_of NOW to_checksum_address strftime_utc decode_utf8_replace
                            pc_logs tr_logs dep_logs wth_logs = Ok t1 ->
    exists t2,
      Dashboard.positions_of decode_utf8_replace pc_logs tr_logs dep_logs wth_logs = Ok t2
      /\ Dict.keys t1 = Dict.keys t2
      /\ forall pid,
          match Dict.get pid t1, Dict.get pid t2 with
          | Some p1, Some p2 =>
            TopStakers.expiry_ts p1 = Dashboard.expiry_ts p2
            /\ TopStakers.validator p1 = Dashboard.validator p2
            /\ TopStakers.net_deposited p1 = Dashboard.net_deposited p2
            /\ TopStakers.stake p1 = Dashboard.stake p2
            /\ owner_agree to_checksum_address (TopStakers.owner p1) (Dashboard.owner p2)
          | None, None => True
          | _, _ => False
          end.
Proof.
  intros NOW tca strf dec pc tr dep wth t1 Hrun.
  destruct (positions_of_related NOW tca strf dec pc tr dep wth t1 Hrun) as (t2 & Ht2 & Hrel).
  exists t2. split; [exact Ht2|]. split; [eapply tables_rel_keys; exact Hrel|].
  intro pid. pose proof (tables_rel_get _ t1 t2 pid Hrel) as Hget.
  destruct (Dict.get pid t1) as [p1|], (Dict.get pid t2) as [p2|]; try exact Hget.
  destruct Hget as (_ & H2 & H3 & H4 & H5 & H6). repeat split; assumption.
Qed.

Lemma projections_agree_witness :
  let pc := [Fixture.created_log 1 1700000100 Fixture.label_v1] in
  let tr := [Fixture.transfer_log 10 1] in
  let dep := [Fixture.deposit_log 1 (1000 * 10 ^ 18) (1000 * 10 ^ 18)] in
  let wth := [Fixture.withdrawal_log 1 (400 * 10 ^ 18)] in
  exists t1 t2,
    TopStakers.positions_of Fixture.NOW Fixture.checksum_stub Fixture.strftime_stub
                            Fixture.decode_stub pc tr dep wth = Ok t1
    /\ Dashboard.positions_of Fixture.decode_stub pc tr dep wth = Ok t2
    /\ Dict.keys t1 = Dict.keys t2.
Proof.
  intros pc tr dep wth.
  eassert (TopStakers.positions_of Fixture.NOW Fixture.checksum_stub Fixture.strftime_stub
                                   Fixture.decode_stub pc tr dep wth = Ok _) as H1
      by (vm_compute; reflexivity).
  destruct (projections_agree _ _ _ _ _ _ _ _ _ H1) as (t2 & H2 & Hk & _).
  eexists. exists t2. split; [exact H1|]. split; [exact H2 | exact Hk].
Defined.

(** ** Duplicate creation *)

Section Creation.
Variable NOW : Z.
Variable strftime_utc : string -> Z -> outcome string.
Variable decode_utf8_replace : list Byte.byte -> string.

(** What one pass of the creation loop does never depends on the dict:
    it decodes the log and assigns the record to its id. *)
Lemma created_step_dashboard : forall t l t',
  Dashboard.on_position_created decode_utf8_replace t l = Ok t' ->
  exists pid fresh,
    t' = Dict.set pid fresh t
    /\ untouched_dashboard fresh
    /\ (exists t1, Py.index (topics l) 1 = Ok t1 /\ Py.int16 t1 = Ok pid)
    /\ Dashboard.h (Py.slice (data l) 2 66) = Ok (Dashboard.expiry_ts fresh)
    /\ forall t0,
        Dashboard.on_position_created decode_utf8_replace t0 l = Ok (Dict.set pid fresh t0).
Proof.
  intros t l t' Hstep. unfold Dashboard.on_position_created in *.
  apply bind_Ok in Hstep. destruct Hstep as (t1x & Ht1 & Hstep).
  apply bind_Ok in Hstep. destruct Hstep as (pid & Hpid & Hstep).
  apply bind_Ok in Hstep. destruct Hstep as (expiry & Hexp & Hstep).
  apply bind_Ok in Hstep. destruct Hstep as (t2x & Ht2 & Hstep).
  apply bind_Ok in Hstep. destruct Hstep as (raw & Hraw & Hstep).
  inversion Hstep. subst t'. eexists. eexists.
  split; [reflexivity|]. split; [repeat split|].
  split; [exists t1x; split; [exact Ht1 | exact Hpid]|].
  split; [exact Hexp|].
  intro t0. rewrite Ht1. cbn [bind]. rewrite Hpid. cbn [bind]. rewrite Hexp. cbn [bind].
  rewrite Ht2. cbn [bind]. rewrite Hraw. reflexivity.
Qed.

Lemma created_step_report : forall t l t',
  TopStakers.on_position_created NOW strftime_utc decode_utf8_replace t l = Ok t' ->
  exists pid fresh,
    t' = Dict.set pid fresh t
    /\ untouched_report fresh
    /\ (exists t1, Py.index (topics l) 1 = Ok t1 /\ Py.int16 t1 = Ok pid)
    /\ TopStakers.h (Py.slice (data l) 2 66) = Ok (TopStakers.expiry_ts fresh)
    /\ forall t0,
        TopStakers.on_position_created NOW strftime_utc decode_utf8_replace t0 l
        = Ok (Dict.set pid fresh t0).
Proof.
  intros t l t' Hstep. unfold TopStakers.on_position_created in *.
  apply bind_Ok in Hstep. destruct Hstep as (t1x & Ht1 & Hstep).
  apply bind_Ok in Hstep. destruct Hstep as (pid & Hpid & Hstep).
  apply bind_Ok in Hstep. destruct Hstep as (expiry & Hexp & Hstep).
  apply bind_Ok in Hstep. destruct Hstep as (t2x & Ht2 & Hstep).
  apply bind_Ok in Hstep. destruct Hstep as (raw & Hraw & Hstep).
  apply bind_Ok in Hstep. destruct Hstep as (utc & Hutc & Hstep).
  inversion Hstep. subst t'. eexists. eexists.
  split; [reflexivity|]. split; [repeat split|].
  split; [exists t1x; split; [exact Ht1 | exact Hpid]|].
  split; [exact Hexp|].
  intro t0. rewrite Ht1. cbn [bind]. rewrite Hpid. cbn [bind]. rewrite Hexp. cbn [bind].
  rewrite Ht2. cbn [bind]. rewrite Hraw. cbn [bind]. rewrite Hutc. reflexivity.
Qed.

(** While the creation loop runs, every position of the dict is as created:
    no owner, zero balances. *)
Lemma creation_loop_untouched_dashboard : forall logs t,
  for_each (Dashboard.on_position_created decode_utf8_replace) logs [] = Ok t ->
  forall k p, Dict.get k t = Some p -> untouched_dashboard p.
Proof.
  intros logs t Hrun.
  refine (for_each_invariant _ _ _
            (fun t => forall k p, Dict.get k t = Some p -> untouched_dashboard p)
            logs _ [] t _ Hrun); [| intros k p H; discriminate H].
  intros s x s' _ Hs Hstep k p Hget.
  destruct (created_step_dashboard _ _ _ Hstep) as (pid & fresh & -> & Hfresh & _).
  destruct (Z.eq_dec pid k) as [->|Hne].
  - rewrite dict_get_set_eq in Hget. inversion Hget. subst p. exact Hfresh.
  - rewrite dict_get_set_neq in Hget by exact Hne. eapply Hs. exact Hget.
Qed.

Lemma creation_loop_untouched_report : forall logs t,
  for_each (TopStakers.on_position_created NOW strftime_utc decode_utf8_replace) logs []
  = Ok t ->
  forall k p, Dict.get k t = Some p -> untouched_report p.
Proof.
  intros logs t Hrun.
  refine (for_each_invariant _ _ _
            (fun t => forall k p, Dict.get k t = Some p -> untouched_report p)
            logs _ [] t _ Hrun); [| intros k p H; discriminate H].
  intros s x s' _ Hs Hstep k p Hget.
  destruct (created_step_report _ _ _ Hstep) as (pid & fresh & -> & Hfresh & _).
  destruct (Z.eq_dec pid k) as [->|Hne].
  - rewrite dict_get_set_eq in Hget. inversion Hget. subst p. exact Hfresh.
  - rewrite dict_get_set_neq in Hget by exact Hne. eapply Hs. exact Hget.
Qed.

(** The handlers never read the expiry or the validator: run on two dicts
    that agree on owners and balances, they complete alike and keep the
    agreement. *)
Lemma dashboard_created_same : forall t u l t',
  tables_rel same_account_dashboard t u ->
  Dashboard.on_position_created decode_utf8_replace t l = Ok t' ->
  exists u', Dashboard.on_position_created decode_utf8_replace u l = Ok u'
             /\ tables_rel same_account_dashboard t' u'.
Proof.
  intros t u l t' Hrel Hstep.
  destruct (created_step_dashboard _ _ _ Hstep) as (pid & fresh & -> & _ & _ & _ & Hany).
  exists (Dict.set pid fresh u). split; [apply Hany|].
  apply tables_rel_set; [exact Hrel | repeat split].
Qed.

Lemma dashboard_transfer_same : forall t u l t',
  tables_rel same_account_dashboard t u ->
  Dashboard.on_transfer t l = Ok t' ->
  exists u', Dashboard.on_transfer u l = Ok u' /\ tables_rel same_account_dashboard t' u'.
Proof.
  intros t u l t' Hrel Hstep. unfold Dashboard.on_transfer in *.
  apply bind_Ok in Hstep. destruct Hstep as (t2x & Ht2 & Hstep). rewrite Ht2. cbn [bind].
  apply bind_Ok in Hstep. destruct Hstep as (t3x & Ht3 & Hstep). rewrite Ht3. cbn [bind].
  apply bind_Ok in Hstep. destruct Hstep as (id & Hid & Hstep). rewrite Hid. cbn [bind].
  pose proof (tables_rel_get _ t u id Hrel) as Hget.
  destruct (Dict.get id t) as [p|], (Dict.get id u) as [q|]; try contradiction;
    inversion Hstep; subst t'; eexists; (split; [reflexivity|]); [|exact Hrel].
  apply tables_rel_set; [exact Hrel|].
  destruct Hget as (_ & Hn & Hs). repeat split; assumption.
Qed.

Lemma dashboard_deposited_same : forall t u l t',
  tables_rel same_account_dashboard t u ->
  Dashboard.on_funds_deposited t l = Ok t' ->
  exists u', Dashboard.on_funds_deposited u l = Ok u'
             /\ tables_rel same_account_dashboard t' u'.
Proof.
  intros t u l t' Hrel Hstep. unfold Dashboard.on_funds_deposited in *.
  apply bind_Ok in Hstep. destruct Hstep as (t1x & Ht1 & Hstep). rewrite Ht1. cbn [bind].
  apply bind_Ok in Hstep. destruct Hstep as (id & Hid & Hstep). rewrite Hid. cbn [bind].
  pose proof (tables_rel_get _ t u id Hrel) as Hget.
  destruct (Dict.get id t) as [p|], (Dict.get id u) as [q|]; try contradiction.
  - apply bind_Ok in Hstep. destruct Hstep as (w0 & Hw0 & Hstep). rewrite Hw0. cbn [bind].
    apply bind_Ok in Hstep. destruct Hstep as (f & Hf & Hstep). rewrite Hf. cbn [bind].
    apply bind_Ok in Hstep. destruct Hstep as (w1 & Hw1 & Hstep). rewrite Hw1. cbn [bind].
    apply bind_Ok in Hstep. destruct Hstep as (sa & Hsa & Hstep). rewrite Hsa. cbn [bind].
    inversion Hstep. subst t'. eexists. split; [reflexivity|].
    apply tables_rel_set; [exact Hrel|].
    destruct Hget as (Ho & Hn & Hs). repeat split; simpl; congruence.
  - inversion Hstep. subst t'. eexists. split; [reflexivity | exact Hrel].
Qed.

Lemma dashboard_withdrawn_same : forall t u l t',
  tables_rel same_account_dashboard t u ->
  Dashboard.on_funds_withdrawn t l = Ok t' ->
  exists u', Dashboard.on_funds_withdrawn u l = Ok u'
             /\ tables_rel same_account_dashboard t' u'.
Proof.
  intros t u l t' Hrel Hstep. unfold Dashboard.on_funds_withdrawn in *.
  apply bind_Ok in Hstep. destruct Hstep as (t1x & Ht1 & Hstep). rewrite Ht1. cbn [bind].
  apply bind_Ok in Hstep. destruct Hstep as (id & Hid & Hstep). rewrite Hid. cbn [bind].
  pose proof (tables_rel_get _ t u id Hrel) as Hget.
  destruct (Dict.get id t) as [p|], (Dict.get id u) as [q|]; try contradiction.
  - apply bind_Ok in Hstep. destruct Hstep as (w0 & Hw0 & Hstep). rewrite Hw0. cbn [bind].
    apply bind_Ok in Hstep. destruct Hstep as (f & Hf & Hstep). rewrite Hf. cbn [bind].
    inversion Hstep. subst t'. eexists. split; [reflexivity|].
    apply tables_rel_set; [exact Hrel|].
    destruct Hget as (Ho & Hn & Hs). repeat split; simpl; congruence.
  - inversion Hstep. subst t'. eexists. split; [reflexivity | exact Hrel].
Qed.

Lemma report_created_same : forall t u l t',
  tables_rel same_account_report t u ->
  TopStakers.on_position_created NOW strftime_utc decode_utf8_replace t l = Ok t' ->
  exists u', TopStakers.on_position_created NOW strftime_utc decode_utf8_replace u l = Ok u'
             /\ tables_rel same_account_report t' u'.
Proof.
  intros t u l t' Hrel Hstep.
  destruct (created_step_report _ _ _ Hstep) as (pid & fresh & -> & _ & _ & _ & Hany).
  exists (Dict.set pid fresh u). split; [apply Hany|].
  apply tables_rel_set; [exact Hrel | repeat split].
Qed.

End Creation.

Section ReportHandlers.
Variable to_checksum_address : string -> outcome string.

Lemma report_transfer_same : forall t u l t',
  tables_rel same_account_report t u ->
  TopStakers.on_transfer to_checksum_address t l = Ok t' ->
  exists u', TopStakers.on_transfer to_checksum_address u l = Ok u'
             /\ tables_rel same_account_report t' u'.
Proof.
  intros t u l t' Hrel Hstep. unfold TopStakers.on_transfer in *.
  apply bind_Ok in Hstep. destruct Hstep as (t2x & Ht2 & Hstep). rewrite Ht2. cbn [bind].
  apply bind_Ok in Hstep. destruct Hstep as (addr & Haddr & Hstep). rewrite Haddr. cbn [bind].
  apply bind_Ok in Hstep. destruct Hstep as (t3x & Ht3 & Hstep). rewrite Ht3. cbn [bind].
  apply bind_Ok in Hstep. destruct Hstep as (id & Hid & Hstep). rewrite Hid. cbn [bind].
  pose proof (tables_rel_get _ t u id Hrel) as Hget.
  destruct (Dict.get id t) as [p|], (Dict.get id u) as [q|]; try contradiction;
    inversion Hstep; subst t'; eexists; (split; [reflexivity|]); [|exact Hrel].
  apply tables_rel_set; [exact Hrel|].
  destruct Hget as (_ & Hn & Hs). repeat split; assumption.
Qed.

Lemma report_deposited_same : forall t u l t',
  tables_rel same_account_report t u ->
  TopStakers.on_funds_deposited t l = Ok t' ->
  exists u', TopStakers.on_funds_deposited u l = Ok u'
             /\ tables_rel same_account_report t' u'.
Proof.
  intros t u l t' Hrel Hstep. unfold TopStakers.on_funds_deposited in *.
  apply bind_Ok in Hstep. destruct Hstep as (t1x & Ht1 & Hstep). rewrite Ht1. cbn [bind].
  apply bind_Ok in Hstep. destruct Hstep as (id & Hid & Hstep). rewrite Hid. cbn [bind].
  apply bind_Ok in Hstep. destruct Hstep as (w0 & Hw0 & Hstep). rewrite Hw0. cbn [bind].
  apply bind_Ok in Hstep. destruct Hstep as (f & Hf & Hstep). rewrite Hf. cbn [bind].
  apply bind_Ok in Hstep. destruct Hstep as (w1 & Hw1 & Hstep). rewrite Hw1. cbn [bind].
  apply bind_Ok in Hstep. destruct Hstep as (sa & Hsa & Hstep). rewrite Hsa. cbn [bind].
  pose proof (tables_rel_get _ t u id Hrel) as Hget.
  destruct (Dict.get id t) as [p|], (Dict.get id u) as [q|]; try contradiction;
    inversion Hstep; subst t'; eexists; (split; [reflexivity|]); [|exact Hrel].
  apply tables_rel_set; [exact Hrel|].
  destruct Hget as (Ho & Hn & Hs). repeat split; simpl; congruence.
Qed.

Lemma report_withdrawn_same : forall t u l t',
  tables_rel same_account_report t u ->
  TopStakers.on_funds_withdrawn t l = Ok t' ->
  exists u', TopStakers.on_funds_withdrawn u l = Ok u'
             /\ tables_rel same_account_report t' u'.
Proof.
  intros t u l t' Hrel Hstep. unfold TopStakers.on_funds_withdrawn in *.
  apply bind_Ok in Hstep. destruct Hstep as (t1x & Ht1 & Hstep). rewrite Ht1. cbn [bind].
  apply bind_Ok in Hstep. destruct Hstep as (id & Hid & Hstep). rewrite Hid. cbn [bind].
  apply bind_Ok in Hstep. destruct Hstep as (w0 & Hw0 & Hstep). rewrite Hw0. cbn [bind].
  apply bind_Ok in Hstep. destruct Hstep as (f & Hf & Hstep). rewrite Hf. cbn [bind].
  pose proof (tables_rel_get _ t u id Hrel) as Hget.
  destruct (Dict.get id t) as [p|], (Dict.get id u) as [q|]; try contradiction;
    inversion Hstep; subst t'; eexists; (split; [reflexivity|]); [|exact Hrel].
  apply tables_rel_set; [exact Hrel|].
  destruct Hget as (Ho & Hn & Hs). repeat split; simpl; congruence.
Qed.

End ReportHandlers.

(** A run with a duplicate creation ends with the owners and balances of
    the run without it. *)
Lemma dashboard_duplicate_run :
  forall decode_utf8_replace earlier l later tr dep wth positions pid fresh old T',
    for_each (Dashboard.on_position_created decode_utf8_replace) earlier [] = Ok positions ->
    Dashboard.on_position_created decode_utf8_replace [] l = Ok [(pid, fresh)] ->
    Dict.get pid positions = Some old ->
    Dashboard.positions_of decode_utf8_replace (earlier ++ l :: later) tr dep wth = Ok T' ->
    exists T,
      Dashboard.positions_of decode_utf8_replace (earlier ++ later) tr dep wth = Ok T
      /\ tables_rel same_account_dashboard T' T.
Proof.
  intros dec earlier l later tr dep wth positions pid fresh old T' Hearlier Hl Hold Hrun.
  unfold Dashboard.positions_of in *.
  apply bind_Ok in Hrun. destruct Hrun as (C' & Hc & Hrun).
  apply bind_Ok in Hrun. destruct Hrun as (A' & Ha & Hrun).
  apply bind_Ok in Hrun. destruct Hrun as (B' & Hb & Hrun).
  rewrite for_each_app, Hearlier in Hc. cbn [bind for_each] in Hc.
  destruct (created_step_dashboard dec _ _ _ Hl)
    as (pid' & fresh' & Heq & Hfresh & _ & _ & Hany).
  simpl in Heq. inversion Heq. subst pid' fresh'. rewrite Hany in Hc. cbn [bind] in Hc.
  assert (tables_rel same_account_dashboard (Dict.set pid fresh positions) positions) as Hrel.
  { apply tables_rel_set_present with (old := old); [repeat split | exact Hold |].
    destruct (creation_loop_untouched_dashboard dec _ _ Hearlier _ _ Hold) as (Ho & Hn & Hs).
    destruct Hfresh as (Ho' & Hn' & Hs'). repeat split; congruence. }
  destruct (tables_rel_loops _ _ _ (dashboard_created_same dec) later _ _ _ Hrel Hc)
    as (C & HC & HrelC).
  destruct (tables_rel_loops _ _ _ dashboard_transfer_same tr _ _ _ HrelC Ha)
    as (A & HA & HrelA).
  destruct (tables_rel_loops _ _ _ dashboard_deposited_same dep _ _ _ HrelA Hb)
    as (B & HB & HrelB).
  destruct (tables_rel_loops _ _ _ dashboard_withdrawn_same wth _ _ _ HrelB Hrun)
    as (T & HT & HrelT).
  exists T. split; [|exact HrelT].
  rewrite for_each_app, Hearlier. cbn [bind]. rewrite HC. cbn [bind].
  rewrite HA. cbn [bind]. rewrite HB. cbn [bind]. exact HT.
Qed.

Lemma report_duplicate_run :
  forall NOW to_checksum_address strftime_utc decode_utf8_replace
         earlier l later tr dep wth positions pid fresh old T',
    for_each (TopStakers.on_position_created NOW strftime_utc decode_utf8_replace)
             earlier [] = Ok positions ->
    TopStakers.on_position_created NOW strftime_utc decode_utf8_replace [] l
    = Ok [(pid, fresh)] ->
    Dict.get pid positions = Some old ->
    TopStakers.positions_of NOW to_checksum_address strftime_utc decode_utf8_replace
                            (earlier ++ l :: later) tr dep wth = Ok T' ->
    exists T,
      TopStakers.positions_of NOW to_checksum_address strftime_utc decode_utf8_replace
                              (earlier ++ later) tr dep wth = Ok T
      /\ tables_rel same_account_report T' T.
Proof.
  intros NOW tca strf dec earlier l later tr dep wth positions pid fresh old T'
         Hearlier Hl Hold Hrun.
  unfold TopStakers.positions_of in *.
  apply bind_Ok in Hrun. destruct Hrun as (C' & Hc & Hrun).
  apply bind_Ok in Hrun. destruct Hrun as (A' & Ha & Hrun).
  apply bind_Ok in Hrun. destruct Hrun as (B' & Hb & Hrun).
  rewrite for_each_app, Hearlier in Hc. cbn [bind for_each] in Hc.
  destruct (created_step_report NOW strf dec _ _ _ Hl)
    as (pid' & fresh' & Heq & Hfresh & _ & _ & Hany).
  simpl in Heq. inversion Heq. subst pid' fresh'. rewrite Hany in Hc. cbn [bind] in Hc.
  assert (tables_rel same_account_report (Dict.set pid fresh positions) positions) as Hrel.
  { apply tables_rel_set_present with (old := old); [repeat split | exact Hold |].
    destruct (creation_loop_untouched_report NOW strf dec _ _ Hearlier _ _ Hold)
      as (Ho & Hn & Hs).
    destruct Hfresh as (Ho' & Hn' & Hs'). repeat split; congruence. }
  destruct (tables_rel_loops _ _ _ (report_created_same NOW strf dec) later _ _ _ Hrel Hc)
    as (C & HC & HrelC).
  destruct (tables_rel_loops _ _ _ (report_transfer_same tca) tr _ _ _ HrelC Ha)
    as (A & HA & HrelA).
  destruct (tables_rel_loops _ _ _ report_deposited_same dep _ _ _ HrelA Hb)
    as (B & HB & HrelB).
  destruct (tables_rel_loops _ _ _ report_withdrawn_same wth _ _ _ HrelB Hrun)
    as (T & HT & HrelT).
  exists T. split; [|exact HrelT].
  rewrite for_each_app, Hearlier. cbn [bind]. rewrite HC. cbn [bind].
  rewrite HA. cbn [bind]. rewrite HB. cbn [bind]. exact HT.
Qed.

(** C5: when the creation loop meets a [PositionCreated] log whose id is
    already in the dict, it raises nothing and assigns the record decoded
    from the later log to that id, in place: the expiry and the validator
    become the later log's, the keys and every other position are as
    before, and owner, net deposit and stake of the position are what they
    were.  The creation loop runs before the three other loops, so nothing
    accumulated is lost: the whole run ends with the keys, owners, net
    deposits and stakes of the run without the duplicate. *)
Theorem duplicate_creation_overwrites :
  forall NOW to_checksum_address strftime_utc decode_utf8_replace
         (earlier : list log) (l : log),
    (forall positions pid fresh old,
        for_each (Dashboard.on_position_created decode_utf8_replace) earlier []
        = Ok positions ->
        Dashboard.on_position_created decode_utf8_replace [] l = Ok [(pid, fresh)] ->
        Dict.get pid positions = Some old ->
        Dashboard.on_position_created decode_utf8_replace positions l
        = Ok (Dict.set pid fresh positions)
        /\ Dict.get pid (Dict.set pid fresh positions) = Some fresh
        /\ Dashboard.h (Py.slice (data l) 2 66) = Ok (Dashboard.expiry_ts fresh)
        /\ Dashboard.owner fresh = Dashboard.owner old
        /\ Dashboard.net_deposited fresh = Dashboard.net_deposited old
        /\ Dashboard.stake fresh = Dashboard.stake old
        /\ Dict.keys (Dict.set pid fresh positions) = Dict.keys positions
        /\ (forall k, k <> pid ->
                      Dict.get k (Dict.set pid fresh positions) = Dict.get k positions)
        /\ forall later tr dep wth T',
            Dashboard.positions_of decode_utf8_replace (earlier ++ l :: later) tr dep wth
            = Ok T' ->
            exists T,
              Dashboard.positions_of decode_utf8_replace (earlier ++ later) tr dep wth
              = Ok T
              /\ tables_rel same_account_dashboard T' T)
    /\ (forall positions pid fresh old,
        for_each (TopStakers.on_position_created NOW strftime_utc decode_utf8_replace)
                 earlier [] = Ok positions ->
        TopStakers.on_position_created NOW strftime_utc decode_utf8_replace [] l
        = Ok [(pid, fresh)] ->
        Dict.get pid positions = Some old ->
        TopStakers.on_position_created NOW strftime_utc decode_utf8_replace positions l
        = Ok (Dict.set pid fresh positions)
        /\ Dict.get pid (Dict.set pid fresh positions) = Some fresh
        /\ TopStakers.h (Py.slice (data l) 2 66) = Ok (TopStakers.expiry_ts fresh)
        /\ TopStakers.owner fresh = TopStakers.owner old
        /\ TopStakers.net_deposited fresh = TopStakers.net_deposited old
        /\ TopStakers.stake fresh = TopStakers.stake old
        /\ Dict.keys (Dict.set pid fresh positions) = Dict.keys positions
        /\ (forall k, k <> pid ->
                      Dict.get k (Dict.set pid fresh positions) = Dict.get k positions)
        /\ forall later tr dep wth T',
            TopStakers.positions_of NOW to_checksum_address strftime_utc
                                    decode_utf8_replace (earlier ++ l :: later) tr dep wth
            = Ok T' ->
            exists T,
              TopStakers.positions_of NOW to_checksum_address strftime_utc
                                      decode_utf8_replace (earlier ++ later) tr dep wth
              = Ok T
              /\ tables_rel same_account_report T' T).
Proof.
  intros NOW tca strf dec earlier l. split.
  - intros positions pid fresh old Hrun Hl Hold.
    destruct (created_step_dashboard dec _ _ _ Hl)
      as (pid' & fresh' & Heq & Hfresh & _ & Hexp & Hany).
    simpl in Heq. inversion Heq. subst pid' fresh'.
    destruct (creation_loop_untouched_dashboard dec _ _ Hrun _ _ Hold) as (Ho & Hn & Hs).
    destruct Hfresh as (Ho' & Hn' & Hs').
    split; [apply Hany|]. split; [apply dict_get_set_eq|]. split; [exact Hexp|].
    split; [congruence|]. split; [congruence|]. split; [congruence|].
    split; [eapply dict_keys_set_present; exact Hold|].
    split; [intros k Hne; apply dict_get_set_neq; congruence|].
    intros later tr dep wth T' HT'. eapply dashboard_duplicate_run; eassumption.
  - intros positions pid fresh old Hrun Hl Hold.
    destruct (created_step_report NOW strf dec _ _ _ Hl)
      as (pid' & fresh' & Heq & Hfresh & _ & Hexp & Hany).
    simpl in Heq. inversion Heq. subst pid' fresh'.
    destruct (creation_loop_untouched_report NOW strf dec _ _ Hrun _ _ Hold) as (Ho & Hn & Hs).
    destruct Hfresh as (Ho' & Hn' & Hs').
    split; [apply Hany|]. split; [apply dict_get_set_eq|]. split; [exact Hexp|].
    split; [congruence|]. split; [congruence|]. split; [congruence|].
    split; [eapply dict_keys_set_present; exact Hold|].
    split; [intros k Hne; apply dict_get_set_neq; congruence|].
    intros later tr dep wth T' HT'. eapply report_duplicate_run; eassumption.
Qed.

Lemma duplicate_creation_overwrites_witness :
  let earlier := [Fixture.created_log 1 1700000100 Fixture.label_v1] in
  let l := Fixture.created_log 1 1700000200 Fixture.label_v2 in
  (exists positions fresh,
      for_each (Dashboard.on_position_created Fixture.decode_stub) earlier [] = Ok positions
      /\ Dashboard.on_position_created Fixture.decode_stub positions l
         = Ok (Dict.set 1 fresh positions)
      /\ Dashboard.expiry_ts fresh = 1700000200
      /\ Dashboard.validator fresh = "v2")
  /\ (exists positions fresh,
      for_each (TopStakers.on_position_created Fixture.NOW Fixture.strftime_stub
                                               Fixture.decode_stub) earlier []
      = Ok positions
      /\ TopStakers.on_position_created Fixture.NOW Fixture.strftime_stub
                                        Fixture.decode_stub positions l
         = Ok (Dict.set 1 fresh positions)
      /\ TopStakers.expiry_ts fresh = 1700000200
      /\ TopStakers.validator fresh = "v2").
Proof.
  intros earlier l.
  pose proof (duplicate_creation_overwrites Fixture.NOW Fixture.checksum_stub
                Fixture.strftime_stub Fixture.decode_stub earlier l) as [Hd Hr].
  split.
  - pose (old := {| Dashboard.position_id := 1; Dashboard.expiry_ts := 1700000100;
                    Dashboard.validator := "v1"; Dashboard.owner := None;
                    Dashboard.net_deposited := Py.fzero; Dashboard.stake := Py.fzero |}).
    pose (fresh := {| Dashboard.position_id := 1; Dashboard.expiry_ts := 1700000200;
                      Dashboard.validator := "v2"; Dashboard.owner := None;
                      Dashboard.net_deposited := Py.fzero; Dashboard.stake := Py.fzero |}).
    exists [(1, old)], fresh.
    assert (for_each (Dashboard.on_position_created Fixture.decode_stub) earlier []
            = Ok [(1, old)]) as H1 by (vm_compute; reflexivity).
    split; [exact H1|]. split; [|split; reflexivity].
    apply (Hd [(1, old)] 1 fresh old H1); vm_compute; reflexivity.
  - pose (old := {| TopStakers.position_id := 1; TopStakers.expiry_ts := 1700000100;
                    TopStakers.expiry_utc := "1700000100";
                    TopStakers.unlock_remaining := "0h";
                    TopStakers.validator := "v1"; TopStakers.owner := None;
                    TopStakers.net_deposited := Py.fzero; TopStakers.stake := Py.fzero |}).
    pose (fresh := {| TopStakers.position_id := 1; TopStakers.expiry_ts := 1700000200;
                      TopStakers.expiry_utc := "1700000200";
                      TopStakers.unlock_remaining := "0h";
                      TopStakers.validator := "v2"; TopStakers.owner := None;
                      TopStakers.net_deposited := Py.fzero; TopStakers.stake := Py.fzero |}).
    exists [(1, old)], fresh.
    assert (for_each (TopStakers.on_position_created Fixture.NOW Fixture.strftime_stub
                                                     Fixture.decode_stub) earlier []
            = Ok [(1, old)]) as H1 by (vm_compute; reflexivity).
    split; [exact H1|]. split; [|split; reflexivity].
    apply (Hr [(1, old)] 1 fresh old H1); vm_compute; reflexivity.
Defined.

(** ** Events for an id that was never created *)

Section UnknownId.
Variable NOW : Z.
Variable to_checksum_address : string -> outcome string.
Variable strftime_utc : string -> Z -> outcome string.
Variable decode_utf8_replace : list Byte.byte -> string.

(** The three later loops never add or remove a key. *)
Lemma dashboard_transfer_keys : forall t l t',
  Dashboard.on_transfer t l = Ok t' -> Dict.keys t' = Dict.keys t.
Proof.
  intros t l t' Hstep. unfold Dashboard.on_transfer in Hstep.
  apply bind_Ok in Hstep. destruct Hstep as (t2x & _ & Hstep).
  apply bind_Ok in Hstep. destruct Hstep as (t3x & _ & Hstep).
  apply bind_Ok in Hstep. destruct Hstep as (id & _ & Hstep).
  destruct (Dict.get id t) as [p|] eqn:E; inversion Hstep; subst t'.
  - eapply dict_keys_set_present. exact E.
  - reflexivity.
Qed.

Lemma dashboard_deposited_keys : forall t l t',
  Dashboard.on_funds_deposited t l = Ok t' -> Dict.keys t' = Dict.keys t.
Proof.
  intros t l t' Hstep. unfold Dashboard.on_funds_deposited in Hstep.
  apply bind_Ok in Hstep. destruct Hstep as (t1x & _ & Hstep).
  apply bind_Ok in Hstep. destruct Hstep as (id & _ & Hstep).
  destruct (Dict.get id t) as [p|] eqn:E.
  - apply bind_Ok in Hstep. destruct Hstep as (w0 & _ & Hstep).
    apply bind_Ok in Hstep. destruct Hstep as (f & _ & Hstep).
    apply bind_Ok in Hstep. destruct Hstep as (w1 & _ & Hstep).
    apply bind_Ok in Hstep. destruct Hstep as (sa & _ & Hstep).
    inversion Hstep. subst t'. eapply dict_keys_set_present. exact E.
  - inversion Hstep. reflexivity.
Qed.

Lemma report_transfer_keys : forall t l t',
  TopStakers.on_transfer to_checksum_address t l = Ok t' -> Dict.keys t' = Dict.keys t.
Proof.
  intros t l t' Hstep. unfold TopStakers.on_transfer in Hstep.
  apply bind_Ok in Hstep. destruct Hstep as (t2x & _ & Hstep).
  apply bind_Ok in Hstep. destruct Hstep as (addr & _ & Hstep).
  apply bind_Ok in Hstep. destruct Hstep as (t3x & _ & Hstep).
  apply bind_Ok in Hstep. destruct Hstep as (id & _ & Hstep).
  destruct (Dict.get id t) as [p|] eqn:E; inversion Hstep; subst t'.
  - eapply dict_keys_set_present. exact E.
  - reflexivity.
Qed.

Lemma report_deposited_keys : forall t l t',
  TopStakers.on_funds_deposited t l = Ok t' -> Dict.keys t' = Dict.keys t.
Proof.
  intros t l t' Hstep. unfold TopStakers.on_funds_deposited in Hstep.
  apply bind_Ok in Hstep. destruct Hstep as (t1x & _ & Hstep).
  apply bind_Ok in Hstep. destruct Hstep as (id & _ & Hstep).
  apply bind_Ok in Hstep. destruct Hstep as (w0 & _ & Hstep).
  apply bind_Ok in Hstep. destruct Hstep as (f & _ & Hstep).
  apply bind_Ok in Hstep. destruct Hstep as (w1 & _ & Hstep).
  apply bind_Ok in Hstep. destruct Hstep as (sa & _ & Hstep).
  destruct (Dict.get id t) as [p|] eqn:E; inversion Hstep; subst t'.
  - eapply dict_keys_set_present. exact E.
  - reflexivity.
Qed.

Lemma dashboard_withdrawn_keys : forall t l t',
  Dashboard.on_funds_withdrawn t l = Ok t' -> Dict.keys t' = Dict.keys t.
Proof.
  intros t l t' Hstep. unfold Dashboard.on_funds_withdrawn in Hstep.
  apply bind_Ok in Hstep. destruct Hstep as (t1x & _ & Hstep).
  apply bind_Ok in Hstep. destruct Hstep as (id & _ & Hstep).
  destruct (Dict.get id t) as [p|] eqn:E.
  - apply bind_Ok in Hstep. destruct Hstep as (w0 & _ & Hstep).
    apply bind_Ok in Hstep. destruct Hstep as (f & _ & Hstep).
    inversion Hstep. subst t'. eapply dict_keys_set_present. exact E.
  - inversion Hstep. reflexivity.
Qed.

Lemma report_withdrawn_keys : forall t l t',
  TopStakers.on_funds_withdrawn t l = Ok t' -> Dict.keys t' = Dict.keys t.
Proof.
  intros t l t' Hstep. unfold TopStakers.on_funds_withdrawn in Hstep.
  apply bind_Ok in Hstep. destruct Hstep as (t1x & _ & Hstep).
  apply bind_Ok in Hstep. destruct Hstep as (id & _ & Hstep).
  apply bind_Ok in Hstep. destruct Hstep as (w0 & _ & Hstep).
  apply bind_Ok in Hstep. destruct Hstep as (f & _ & Hstep).
  destruct (Dict.get id t) as [p|] eqn:E; inversion Hstep; subst t'.
  - eapply dict_keys_set_present. exact E.
  - reflexivity.
Qed.

Lemma loop_keeps_keys : forall (V : Type) (body : Dict.t V -> log -> outcome (Dict.t V)),
  (forall t l t', body t l = Ok t' -> Dict.keys t' = Dict.keys t) ->
  forall logs t t', for_each body logs t = Ok t' -> Dict.keys t' = Dict.keys t.
Proof.
  intros V body Hstep logs t t' Hrun.
  refine (for_each_invariant _ _ body (fun s => Dict.keys s = Dict.keys t) logs _ t t'
                             eq_refl Hrun).
  intros s x s' _ Hs Hone. rewrite (Hstep _ _ _ Hone). exact Hs.
Qed.



Lemma get_None_keys : forall (V : Type) (t t' : Dict.t V) pid,
  Dict.keys t' = Dict.keys t -> Dict.get pid t = None -> Dict.get pid t' = None.
Proof.
  intros V t t' pid Hk Hget. apply dict_get_None. rewrite Hk.
  apply dict_get_None. exact Hget.
Qed.








(** The keys of the final dict are those the creation loop put there, in
    the same order: no other loop creates a position. *)
Lemma dashboard_keys_from_creation : forall pc tr dep wth T,
  Dashboard.positions_of decode_utf8_replace pc tr dep wth = Ok T ->
  exists T0,
    for_each (Dashboard.on_position_created decode_utf8_replace) pc [] = Ok T0
    /\ Dict.keys T = Dict.keys T0.
Proof.
  intros pc tr dep wth T Hrun. unfold Dashboard.positions_of in Hrun.
  apply bind_Ok in Hrun. destruct Hrun as (T0 & E0 & Hrun).
  apply bind_Ok in Hrun. destruct Hrun as (Ta & Ea & Hrun).
  apply bind_Ok in Hrun. destruct Hrun as (Tb & Eb & Hrun).
  exists T0. split; [exact E0|].
  rewrite (loop_keeps_keys _ _ dashboard_withdrawn_keys _ _ _ Hrun).
  rewrite (loop_keeps_keys _ _ dashboard_deposited_keys _ _ _ Eb).
  exact (loop_keeps_keys _ _ dashboard_transfer_keys _ _ _ Ea).
Qed.

Lemma report_keys_from_creation : forall pc tr dep wth T,
  TopStakers.positions_of NOW to_checksum_address strftime_utc decode_utf8_replace
                          pc tr dep wth = Ok T ->
  exists T0,
    for_each (TopStakers.on_position_created NOW strftime_utc decode_utf8_replace) pc []
    = Ok T0
    /\ Dict.keys T = Dict.keys T0.
Proof.
  intros pc tr dep wth T Hrun. unfold TopStakers.positions_of in Hrun.
  apply bind_Ok in Hrun. destruct Hrun as (T0 & E0 & Hrun).
  apply bind_Ok in Hrun. destruct Hrun as (Ta & Ea & Hrun).
  apply bind_Ok in Hrun. destruct Hrun as (Tb & Eb & Hrun).
  exists T0. split; [exact E0|].
  rewrite (loop_keeps_keys _ _ report_withdrawn_keys _ _ _ Hrun).
  rewrite (loop_keeps_keys _ _ report_deposited_keys _ _ _ Eb).
  exact (loop_keeps_keys _ _ report_transfer_keys _ _ _ Ea).
Qed.



End UnknownId.

(** ** The net-flow series *)

Lemma insert_by_perm : forall (A : Type) (after : A -> A -> bool) (x : A) (xs : list A),
  Permutation (Pandas.insert_by after x xs) (x :: xs).
Proof.
  intros A after x xs. induction xs as [|y ys IH]; simpl.
  - apply Permutation_refl.
  - destruct (after x y).
    + eapply perm_trans; [apply perm_skip; exact IH | apply perm_swap].
    + apply Permutation_refl.
Qed.

(** Sorting rearranges the rows and nothing else. *)
Lemma sort_by_perm : forall (A : Type) (after : A -> A -> bool) (xs : list A),
  Permutation (Pandas.sort_by after xs) xs.
Proof.
  intros A after xs. induction xs as [|x xs IH]; simpl.
  - apply perm_nil.
  - eapply perm_trans; [apply insert_by_perm | apply perm_skip; exact IH].
Qed.

Lemma cumsum_from_length : forall xs acc,
  List.length (Pandas.cumsum_from acc xs) = List.length xs.
Proof.
  induction xs as [|x xs IH]; intro acc; simpl; [reflexivity | f_equal; apply IH].
Qed.

Lemma cumsum_length : forall xs, List.length (Pandas.cumsum xs) = List.length xs.
Proof.
  intros [|x xs]; simpl; [reflexivity | f_equal; apply cumsum_from_length].
Qed.







(** ** Grouping by owner *)

Section GroupByFacts.
Context {A : Type}.
Variable by_ : A -> option string.

Lemma compare_refl_Eq : forall k : string, String.compare k k = Eq.
Proof.
  intro k. pose proof (String.compare_antisym k k) as H.
  destruct (String.compare k k); simpl in H; congruence.
Qed.

Lemma compare_Lt_trans : forall a b c : string,
  String.compare a b = Lt -> String.compare b c = Lt -> String.compare a c = Lt.
Proof.
  intros a b c Hab Hbc. apply String_as_OT.cmp_lt.
  eapply String_as_OT.lt_trans; apply String_as_OT.cmp_lt; eassumption.
Qed.

Lemma insert_key_In : forall k k0 ks, In k (Pandas.insert_key k0 ks) <-> k = k0 \/ In k ks.
Proof.
  intros k k0 ks. induction ks as [|k' ks IH]; simpl.
  - intuition.
  - destruct (String.compare k0 k') eqn:E; simpl.
    + apply String.compare_eq_iff in E. subst k'. intuition.
    + intuition.
    + rewrite IH. intuition.
Qed.

Lemma insert_key_increasing : forall k0 ks,
  increasing ks -> increasing (Pandas.insert_key k0 ks).
Proof.
  intros k0 ks Hinc. induction Hinc as [|k ks Hbelow Hinc IH]; simpl.
  - constructor; [intros k' [] | constructor].
  - destruct (String.compare k0 k) eqn:E.
    + constructor; assumption.
    + constructor; [|constructor; assumption].
      intros k' [<-|Hin]; [exact E|].
      eapply compare_Lt_trans; [exact E | apply Hbelow; exact Hin].
    + constructor; [|exact IH].
      intros k' Hin. apply insert_key_In in Hin. destruct Hin as [->|Hin].
      * rewrite String.compare_antisym, E. reflexivity.
      * apply Hbelow. exact Hin.
Qed.
Lemma increasing_NoDup : forall ks, increasing ks -> NoDup ks.
Proof.
  intros ks Hinc. induction Hinc as [|k ks Hbelow _ IH]; constructor; [|exact IH].
  intro Hin. pose proof (Hbelow k Hin) as H. rewrite compare_refl_Eq in H. discriminate H.
Qed.

Lemma present_In : forall (B : Type) (xs : list (option B)) (x : B),
  In x (Pandas.present xs) <-> In (Some x) xs.
Proof.
  intros B xs x. induction xs as [|[y|] xs IH]; simpl.
  - reflexivity.
  - rewrite IH. split; intros [H|H]; auto; left; congruence.
  - rewrite IH. split; [auto | intros [H|H]; [discriminate | exact H]].
Qed.

Lemma fold_insert_key_In : forall k ks, In k (fold_right Pandas.insert_key [] ks) <-> In k ks.
Proof.
  intros k ks. induction ks as [|k0 ks IH]; simpl; [reflexivity|].
  rewrite insert_key_In, IH. intuition.
Qed.

Lemma fold_insert_key_increasing : forall ks, increasing (fold_right Pandas.insert_key [] ks).
Proof.
  induction ks as [|k0 ks IH]; simpl; [constructor | apply insert_key_increasing; exact IH].
Qed.

(** The group keys are exactly the owners that occur, each once. *)
Lemma group_keys_In : forall rows k,
  In k (Pandas.group_keys by_ rows) <-> exists r, In r rows /\ by_ r = Some k.
Proof.
  intros rows k. unfold Pandas.group_keys.
  rewrite fold_insert_key_In, present_In, in_map_iff.
  split; intros (r & H1 & H2); exists r; auto.
Qed.

Lemma group_keys_NoDup : forall rows, NoDup (Pandas.group_keys by_ rows).
Proof.
  intro rows. apply increasing_NoDup. apply fold_insert_key_increasing.
Qed.

Lemma has_key_iff : forall k r, Pandas.has_key by_ k r = true <-> by_ r = Some k.
Proof.
  intros k r. unfold Pandas.has_key. destruct (by_ r) as [k'|].
  - rewrite String.eqb_eq. split; congruence.
  - split; discriminate.
Qed.

(** A group holds rows of the frame, all with the group's key; a row
    without a key is in no group. *)
Lemma groupby_members : forall rows k members r,
  In (k, members) (Pandas.groupby by_ rows) ->
  In r members ->
  In r rows /\ by_ r = Some k.
Proof.
  intros rows k members r Hg Hr. unfold Pandas.groupby in Hg.
  apply in_map_iff in Hg. destruct Hg as (k0 & Heq & _). inversion Heq. subst k0 members.
  apply filter_In in Hr. destruct Hr as [Hin Hkey].
  split; [exact Hin | apply has_key_iff; exact Hkey].
Qed.

Lemma groupby_covers : forall rows r k,
  In r rows -> by_ r = Some k ->
  In (k, filter (Pandas.has_key by_ k) rows) (Pandas.groupby by_ rows)
  /\ In r (filter (Pandas.has_key by_ k) rows).
Proof.
  intros rows r k Hin Hk. split.
  - unfold Pandas.groupby. apply in_map_iff. exists k. split; [reflexivity|].
    apply group_keys_In. exists r. split; assumption.
  - apply filter_In. split; [exact Hin | apply has_key_iff; exact Hk].
Qed.

Lemma filter_disjoint_perm : forall (p q : A -> bool) (rows : list A),
  (forall r, In r rows -> p r = true -> q r = true -> False) ->
  Permutation (filter p rows ++ filter q rows) (filter (fun r => p r || q r) rows).
Proof.
  intros p q rows. induction rows as [|r rows IH]; intro Hdis; simpl.
  - apply perm_nil.
  - assert (Permutation (filter p rows ++ filter q rows)
                        (filter (fun r => p r || q r) rows)) as IH'.
    { apply IH. intros r0 Hin. apply Hdis. right. exact Hin. }
    destruct (p r) eqn:Ep, (q r) eqn:Eq; simpl.
    + exfalso. apply (Hdis r); [left; reflexivity | exact Ep | exact Eq].
    + apply perm_skip. exact IH'.
    + eapply perm_trans; [apply Permutation_sym, Permutation_middle|].
      apply perm_skip. exact IH'.
    + exact IH'.
Qed.

Lemma groups_of_keys_perm : forall (ks : list string) (rows : list A),
  NoDup ks ->
  Permutation (List.concat (map (fun k => filter (Pandas.has_key by_ k) rows) ks))
              (filter (fun r => existsb (fun k => Pandas.has_key by_ k r) ks) rows).
Proof.
  intros ks rows Hnodup. induction Hnodup as [|k ks Hnotin Hnodup IH]; simpl.
  - induction rows as [|r rows IHr]; simpl; [apply perm_nil | exact IHr].
  - eapply perm_trans; [apply Permutation_app_head; exact IH|].
    apply (filter_disjoint_perm (Pandas.has_key by_ k)
             (fun r => existsb (fun k0 => Pandas.has_key by_ k0 r) ks)).
    intros r _ Hk Hks. apply existsb_exists in Hks. destruct Hks as (k' & Hin & Hk').
    apply has_key_iff in Hk. apply has_key_iff in Hk'.
    assert (k' = k) by congruence. subst k'. contradiction.
Qed.

(** The groups split the rows that have a key: every such row is in one
    group and one only. *)
Lemma groupby_partition : forall rows,
  Permutation (List.concat (map snd (Pandas.groupby by_ rows))) (filter (owned by_) rows).
Proof.
  intro rows. unfold Pandas.groupby. rewrite map_map. simpl.
  eapply perm_trans; [apply groups_of_keys_perm; apply group_keys_NoDup|].
  erewrite filter_ext_in; [apply Permutation_refl|].
  intros r Hin. unfold owned. destruct (by_ r) as [k|] eqn:Ek.
  - apply existsb_exists. exists k. split.
    + apply group_keys_In. exists r. split; assumption.
    + apply has_key_iff. exact Ek.
  - destruct (existsb _ _) eqn:Ex; [|reflexivity].
    apply existsb_exists in Ex. destruct Ex as (k & _ & Hk).
    apply has_key_iff in Hk. congruence.
Qed.

End GroupByFacts.


(** ** Owner aggregation *)

Lemma ranked_rows : forall (B : Type) (rows : list B), map snd (Pandas.ranked rows) = rows.
Proof.
  intros B rows. unfold Pandas.ranked. generalize 1%nat.
  induction rows as [|r rows IH]; intro n; simpl; [reflexivity | f_equal; apply IH].
Qed.

Lemma exact_sum_app : forall xs ys,
  (exact_sum (xs ++ ys) == exact_sum xs + exact_sum ys)%Q.
Proof.
  induction xs as [|x xs IH]; intro ys; simpl.
  - ring.
  - rewrite IH. ring.
Qed.

Lemma exact_sum_perm : forall xs ys,
  Permutation xs ys -> (exact_sum xs == exact_sum ys)%Q.
Proof.
  intros xs ys Hperm. induction Hperm; simpl.
  - reflexivity.
  - rewrite IHHperm. reflexivity.
  - ring.
  - rewrite IHHperm1. exact IHHperm2.
Qed.

Lemma list_sum_perm : forall xs ys, Permutation xs ys -> list_sum xs = list_sum ys.
Proof.
  intros xs ys Hperm. induction Hperm; simpl; lia.
Qed.

Lemma length_concat_sum : forall (B : Type) (ls : list (list B)),
  List.length (List.concat ls) = list_sum (map (@List.length B) ls).
Proof.
  intros B ls. induction ls as [|l ls IH]; simpl; [reflexivity|].
  rewrite length_app, IH. reflexivity.
Qed.

Section Aggregation.
Context {A : Type}.
Variable fsum : list Py.float -> Py.float.
Variable owner : A -> option string.
Variable net : A -> Py.float.
Variable agg : string * list A -> owner_summary.
Hypothesis agg_key : forall g, owner_key (agg g) = fst g.
Hypothesis agg_total : forall g, total_staked (agg g) = fsum (map net (snd g)).
Hypothesis agg_count : forall g, num_positions (agg g) = List.length (snd g).

(** The facts shared by the two scripts, for the frame [owner_df] built as
    [ranked (sort (map agg (groupby owner rows)))]. *)
Lemma summaries_perm : forall rows,
  Permutation
    (map snd (Pandas.ranked (Pandas.sort_values_desc total_staked
                               (map agg (Pandas.groupby owner rows)))))
    (map agg (Pandas.groupby owner rows)).
Proof.
  intro rows. rewrite ranked_rows. apply sort_by_perm.
Qed.

Lemma summary_is_a_group : forall rows rank s,
  In (rank, s) (Pandas.ranked (Pandas.sort_values_desc total_staked
                                 (map agg (Pandas.groupby owner rows)))) ->
  exists members,
    In (owner_key s, members) (Pandas.groupby owner rows)
    /\ s = agg (owner_key s, members)
    /\ forall m, In m members -> In m rows /\ owner m = Some (owner_key s).
Proof.
  intros rows rank s Hin.
  assert (In s (map agg (Pandas.groupby owner rows))) as Hs.
  { eapply Permutation_in; [apply summaries_perm|].
    apply in_map_iff. exists (rank, s). split; [reflexivity | exact Hin]. }
  apply in_map_iff in Hs. destruct Hs as ([k members] & Hagg & Hg).
  assert (owner_key s = k) as Hk by (rewrite <- Hagg, agg_key; reflexivity).
  exists members. rewrite Hk. split; [exact Hg|]. split; [symmetry; exact Hagg|].
  intros m Hm. eapply groupby_members; eassumption.
Qed.

Lemma counts_add_up : forall rows,
  list_sum (map num_positions
                (map snd (Pandas.ranked (Pandas.sort_values_desc total_staked
                                           (map agg (Pandas.groupby owner rows))))))
  = List.length (filter (owned owner) rows).
Proof.
  intro rows.
  rewrite (list_sum_perm _ _ (Permutation_map num_positions (summaries_perm rows))).
  rewrite map_map.
  rewrite (map_ext _ (fun g => List.length (snd g)) agg_count).
  rewrite <- (Permutation_length (groupby_partition owner rows)).
  rewrite length_concat_sum, map_map. reflexivity.
Qed.

Lemma exact_sum_groups : forall groups : list (string * list A),
  (exact_sum (map net (List.concat (map snd groups)))
   == fold_right (fun g acc => exact_sum (map net (snd g)) + acc) 0 groups)%Q.
Proof.
  induction groups as [|g groups IH]; simpl.
  - reflexivity.
  - rewrite map_app, exact_sum_app, IH. reflexivity.
Qed.

(** When the float sum of every group is exact, the totals add up to the
    sum over the grouped rows. *)
Lemma totals_add_up_when_exact : forall rows,
  (forall g, In g (Pandas.groupby owner rows) ->
             (Py.F2Q (fsum (map net (snd g))) == exact_sum (map net (snd g)))%Q) ->
  (exact_sum (map total_staked
                  (map snd (Pandas.ranked (Pandas.sort_values_desc total_staked
                                             (map agg (Pandas.groupby owner rows))))))
   == exact_sum (map net (filter (owned owner) rows)))%Q.
Proof.
  intros rows Hexact.
  rewrite (exact_sum_perm _ _ (Permutation_map total_staked (summaries_perm rows))).
  rewrite <- (exact_sum_perm _ _ (Permutation_map net (groupby_partition owner rows))).
  rewrite exact_sum_groups.
  induction (Pandas.groupby owner rows) as [|g groups IH]; simpl.
  - reflexivity.
  - rewrite agg_total, Hexact by (left; reflexivity).
    rewrite IH; [reflexivity|]. intros g' Hin. apply Hexact. right. exact Hin.
Qed.

End Aggregation.

(** C3, as stated, fails: of two positions with a deposit each, the first
    transferred to an owner and the second never transferred, both are in
    the active frame, and the owner frame has the single row of the owner
    of the first: there is no group for the second, under a sentinel or
    otherwise, and its 500 tokens are in no total. *)
Lemma ownerless_position_dropped :
  let pc := [Fixture.created_log 1 1700000100 Fixture.label_v1;
             Fixture.created_log 2 1700000200 Fixture.label_v1] in
  let tr := [Fixture.transfer_log 10 1] in
  let dep := [Fixture.deposit_log 1 (1000 * 10 ^ 18) (1000 * 10 ^ 18);
              Fixture.deposit_log 2 (500 * 10 ^ 18) (500 * 10 ^ 18)] in
  (exists flows r1 r2 s,
      Dashboard.load_data Fixture.NOW Fixture.to_datetime_stub Fixture.decode_stub
                          Pandas.kahan_sum dep [] [] [] pc tr
      = Ok (flows, [r1; r2], [(1%nat, s)])
      /\ Dashboard.row_owner r2 = None
      /\ Dashboard.row_owner r1 = Some (owner_key s)
      /\ num_positions s = 1%nat
      /\ total_staked s = Dashboard.net_deposited (Dashboard.base r1))
  /\ (exists p1 p2 s,
      TopStakers.main Fixture.NOW Fixture.checksum_stub Fixture.strftime_stub
                      Fixture.decode_stub Pandas.kahan_sum pc tr dep []
      = Ok ([p1; p2], [(1%nat, s)])
      /\ TopStakers.owner p2 = None
      /\ TopStakers.owner p1 = Some (owner_key s)
      /\ num_positions s = 1%nat
      /\ total_staked s = TopStakers.net_deposited p1).
Proof.
  intros pc tr dep. split.
  - eexists. eexists. eexists. eexists. split; [vm_compute; reflexivity|].
    repeat split.
  - eexists. eexists. eexists. split; [vm_compute; reflexivity|].
    repeat split.
Qed.

(** C3, amended: an active position without owner stays in the active
    frame and is left out of the owner aggregation: every row of
    [owner_df] is the aggregate of one group, the group holds only
    positions whose owner is the row's key, and the position is in none. *)
Theorem ownerless_position_left_out : forall fsum,
  (forall frame r rank s,
      In r frame ->
      Dashboard.is_active r = true ->
      Dashboard.row_owner r = None ->
      In (rank, s) (Dashboard.owner_df fsum (Dashboard.active_df frame)) ->
      In r (Dashboard.active_df frame)
      /\ exists members,
          In (owner_key s, members) (Dashboard.owner_groups (Dashboard.active_df frame))
          /\ s = Dashboard.agg fsum (owner_key s, members)
          /\ ~ In r members
          /\ forall m, In m members -> Dashboard.row_owner m = Some (owner_key s))
  /\ (forall pos_df p rank s,
      In p pos_df ->
      TopStakers.owner p = None ->
      In (rank, s) (TopStakers.owner_df fsum pos_df) ->
      exists members,
        In (owner_key s, members) (TopStakers.owner_groups pos_df)
        /\ s = TopStakers.agg fsum (owner_key s, members)
        /\ ~ In p members
        /\ forall m, In m members -> TopStakers.owner m = Some (owner_key s)).
Proof.
  intro fsum. split.
  - intros frame r rank s Hin Hact Hnone Hs.
    split; [apply filter_In; split; assumption|].
    destruct (summary_is_a_group Dashboard.row_owner (Dashboard.agg fsum)
                (fun g => eq_refl) _ rank s Hs) as (members & Hg & Hagg & Hmem).
    exists members. split; [exact Hg|]. split; [exact Hagg|]. split.
    + intro Hr. destruct (Hmem r Hr) as [_ Howner]. congruence.
    + intros m Hm. apply (Hmem m Hm).
  - intros pos_df p rank s Hin Hnone Hs.
    destruct (summary_is_a_group TopStakers.owner (TopStakers.agg fsum)
                (fun g => eq_refl) _ rank s Hs) as (members & Hg & Hagg & Hmem).
    exists members. split; [exact Hg|]. split; [exact Hagg|]. split.
    + intro Hr. destruct (Hmem p Hr) as [_ Howner]. congruence.
    + intros m Hm. apply (Hmem m Hm).
Qed.

Lemma ownerless_position_left_out_witness :
  In (Fixture.pos_row_of 3 None Fixture.one) (Dashboard.active_df Fixture.active_rows)
  /\ exists members,
      In ("0xa", members) (Dashboard.owner_groups (Dashboard.active_df Fixture.active_rows))
      /\ ~ In (Fixture.pos_row_of 3 None Fixture.one) members.
Proof.
  destruct (proj1 (ownerless_position_left_out Pandas.kahan_sum)
                  Fixture.active_rows (Fixture.pos_row_of 3 None Fixture.one)
                  1%nat (Fixture.summary_of_one "0xa"))
    as (Hin & members & Hg & _ & Hnot & _).
  - right. right. left. reflexivity.
  - reflexivity.
  - reflexivity.
  - vm_compute. left. reflexivity.
  - split; [exact Hin|]. exists members. split; [exact Hg | exact Hnot].
Defined.


(** C9, as stated, fails on floats: for position 1 of owner B with 1
    token and positions 2 and 3 of owner A with 1 and 10^16 tokens, the
    total of A is rounded to 10^16, so the totals add up to 10^16 + 1
    exactly and to 10^16 as floats, while the net deposits of the three
    positions add up to 10^16 + 2 either way.  This holds with the plain
    and with the compensated float sum. *)
Lemma owner_totals_round :
  (exists a b x y,
      Fixture.sums_of Pandas.kahan_sum
        (Dashboard.load_data Fixture.NOW Fixture.to_datetime_stub Fixture.decode_stub
           Pandas.kahan_sum Fixture.three_deposits [] [] []
           Fixture.three_created Fixture.three_transfers)
      = Some (a, b, x, y)
      /\ a <> b /\ ~ (x == y)%Q)
  /\ (exists a b x y,
      Fixture.sums_of Pandas.seq_sum
        (Dashboard.load_data Fixture.NOW Fixture.to_datetime_stub Fixture.decode_stub
           Pandas.seq_sum Fixture.three_deposits [] [] []
           Fixture.three_created Fixture.three_transfers)
      = Some (a, b, x, y)
      /\ a <> b /\ ~ (x == y)%Q).
Proof.
  split.
  - eexists. eexists. eexists. eexists. split; [vm_compute; reflexivity|].
    split; [discriminate|]. intro H. vm_compute in H. discriminate H.
  - eexists. eexists. eexists. eexists. split; [vm_compute; reflexivity|].
    split; [discriminate|]. intro H. vm_compute in H. discriminate H.
Qed.

(** C9, amended: the owner groups split the active positions that have an
    owner, each such position lying in exactly one group; the rows of
    [owner_df] are the aggregates of the groups; their [num_positions] add
    up to the number of those positions; and their [total_staked] add up
    to the sum of the net deposits of those positions whenever the float
    sum of each group is exact. *)
Theorem owner_groups_partition : forall fsum,
  (forall active,
      let groups := Dashboard.owner_groups active in
      let grouped := filter (owned Dashboard.row_owner) active in
      let summaries := map snd (Dashboard.owner_df fsum active) in
      let net := fun r => Dashboard.net_deposited (Dashboard.base r) in
      Permutation (List.concat (map snd groups)) grouped
      /\ Permutation summaries (map (Dashboard.agg fsum) groups)
      /\ list_sum (map num_positions summaries) = List.length grouped
      /\ ((forall g, In g groups ->
                     (Py.F2Q (fsum (map net (snd g))) == exact_sum (map net (snd g)))%Q) ->
          (exact_sum (map total_staked summaries) == exact_sum (map net grouped))%Q))
  /\ (forall pos_df,
      let groups := TopStakers.owner_groups pos_df in
      let grouped := filter (owned TopStakers.owner) pos_df in
      let summaries := map snd (TopStakers.owner_df fsum pos_df) in
      Permutation (List.concat (map snd groups)) grouped
      /\ Permutation summaries (map (TopStakers.agg fsum) groups)
      /\ list_sum (map num_positions summaries) = List.length grouped
      /\ ((forall g, In g groups ->
                     (Py.F2Q (fsum (map TopStakers.net_deposited (snd g)))
                      == exact_sum (map TopStakers.net_deposited (snd g)))%Q) ->
          (exact_sum (map total_staked summaries)
           == exact_sum (map TopStakers.net_deposited grouped))%Q)).
Proof.
  intro fsum. split.
  - intros active groups grouped summaries net.
    split; [apply groupby_partition|].
    split; [apply summaries_perm|].
    split; [apply (counts_add_up Dashboard.row_owner (Dashboard.agg fsum)
                                 (fun g => eq_refl))|].
    apply (totals_add_up_when_exact fsum Dashboard.row_owner net (Dashboard.agg fsum)
                                    (fun g => eq_refl)).
  - intros pos_df groups grouped summaries.
    split; [apply groupby_partition|].
    split; [apply summaries_perm|].
    split; [apply (counts_add_up TopStakers.owner (TopStakers.agg fsum)
                                 (fun g => eq_refl))|].
    apply (totals_add_up_when_exact fsum TopStakers.owner TopStakers.net_deposited
                                    (TopStakers.agg fsum) (fun g => eq_refl)).
Qed.

Lemma owner_groups_partition_witness :
  (exact_sum (map total_staked
                  (map snd (Dashboard.owner_df Pandas.kahan_sum Fixture.active_rows)))
   == exact_sum (map (fun r => Dashboard.net_deposited (Dashboard.base r))
                     (filter (owned Dashboard.row_owner) Fixture.active_rows)))%Q.
Proof.
  destruct (proj1 (owner_groups_partition Pandas.kahan_sum) Fixture.active_rows)
    as (_ & _ & _ & Hsum).
  apply Hsum. intros g Hin. vm_compute in Hin.
  destruct Hin as [<-|[<-|[]]]; vm_compute; reflexivity.
Defined.

(** ** A run from logs to frames

    One position created twice, transferred to an owner, credited with
    1000 tokens and debited of 400: the dict holds the later expiry and
    validator, the owner and a balance of 600 (5277655813324800 / 2^43),
    and the owner frame has one row. *)
Example run_with_duplicate_creation :
  let pc := [Fixture.created_log 1 1700000100 Fixture.label_v1;
             Fixture.created_log 1 1700000200 Fixture.label_v2] in
  let tr := [Fixture.transfer_log 10 1] in
  let dep := [Fixture.deposit_log 1 (1000 * 10 ^ 18) (1000 * 10 ^ 18)] in
  let wth := [Fixture.withdrawal_log 1 (400 * 10 ^ 18)] in
  Dashboard.positions_of Fixture.decode_stub pc tr dep wth
  = Ok [(1, {| Dashboard.position_id := 1;
               Dashboard.expiry_ts := 1700000200;
               Dashboard.validator := "v2";
               Dashboard.owner := Some "0x000000000000000000000000000000000000000a";
               Dashboard.net_deposited := S754_finite false 5277655813324800 (-43);
               Dashboard.stake := S754_finite false 8796093022208000 (-43) |})]
  /\ (Py.F2Q (S754_finite false 5277655813324800 (-43)) == 600)%Q
  /\ exists flows active s,
      Dashboard.load_data Fixture.NOW Fixture.to_datetime_stub Fixture.decode_stub
                          Pandas.kahan_sum dep wth [] [] pc tr
      = Ok (flows, active, [(1%nat, s)])
      /\ total_staked s = S754_finite false 5277655813324800 (-43)
      /\ num_positions s = 1%nat.
Proof.
  intros pc tr dep wth.
  split; [vm_compute; reflexivity|].
  split; [vm_compute; reflexivity|].
  eexists. eexists. eexists. split; [vm_compute; reflexivity|].
  split; reflexivity.
Qed.

(** * Further properties *)

(** ** Words, numbers and addresses *)

Lemma substring_prefix : forall (x rest : string),
  substring 0 (String.length x) (x ++ rest)%string = x.
Proof.
  induction x as [|c x IH]; intro rest; simpl.
  - destruct rest; reflexivity.
  - f_equal. apply IH.
Qed.

Lemma substring_skip : forall (x rest : string) (n m : nat),
  substring (String.length x + n) m (x ++ rest)%string = substring n m rest.
Proof.
  induction x as [|c x IH]; intros rest n m; simpl; [reflexivity | apply IH].
Qed.

Lemma substring_whole : forall s : string, substring 0 (String.length s) s = s.
Proof.
  induction s as [|c s IH]; simpl; [reflexivity | f_equal; exact IH].
Qed.

Lemma substring_length_le : forall (s : string) (n m : nat),
  (String.length (substring n m s) <= m)%nat.
Proof.
  induction s as [|c s IH]; intros n m.
  - destruct n, m; simpl; lia.
  - destruct n as [|n].
    + destruct m as [|m]; simpl; [lia|]. specialize (IH 0%nat m). lia.
    + simpl. apply IH.
Qed.

Lemma append_length : forall a b : string,
  String.length (a ++ b)%string = (String.length a + String.length b)%nat.
Proof.
  induction a as [|c a IH]; intro b; simpl; [reflexivity | f_equal; apply IH].
Qed.

Lemma concat_words_cons : forall (x : string) (xs : list string),
  String.concat "" (x :: xs) = (x ++ String.concat "" xs)%string.
Proof.
  intros x [|y ys]; simpl; [|reflexivity].
  induction x as [|c x IH]; simpl; [reflexivity | f_equal; exact IH].
Qed.

(** In a string of 64-character words the word of index [i] starts at [64 * i]. *)
Lemma substring_nth_word : forall (words : list string) (i : nat) (w : string),
  (forall x, In x words -> String.length x = 64%nat) ->
  nth_error words i = Some w ->
  substring (i * 64) 64 (String.concat "" words) = w.
Proof.
  induction words as [|x xs IH]; intros i w Hlen Hnth.
  - destruct i; discriminate Hnth.
  - rewrite concat_words_cons.
    assert (String.length x = 64%nat) as Hx by (apply Hlen; left; reflexivity).
    destruct i as [|i].
    + simpl in Hnth. inversion Hnth. subst w.
      change (0 * 64)%nat with 0%nat. rewrite <- Hx at 1. apply substring_prefix.
    + simpl in Hnth.
      replace (S i * 64)%nat with (String.length x + i * 64)%nat by lia.
      rewrite substring_skip. apply IH; [|exact Hnth].
      intros y Hy. apply Hlen. right. exact Hy.
Qed.

Lemma hex_digit_range : forall c,
  match Py.hex_digit c with
  | Some d => (0 <=? d) && (d <? 16)
  | None => true
  end = true.
Proof.
  intros [[] [] [] [] [] [] [] []]; vm_compute; reflexivity.
Qed.

Lemma hex_value_bounds : forall s acc,
  0 <= acc ->
  0 <= Py.hex_value acc s < (acc + 1) * 16 ^ Z.of_nat (String.length s).
Proof.
  induction s as [|c s IH]; intros acc Hacc.
  - simpl. lia.
  - cbn [Py.hex_value String.length]. rewrite Nat2Z.inj_succ, Z.pow_succ_r by lia.
    set (P := 16 ^ Z.of_nat (String.length s)) in *.
    assert (0 < P) as Hpow by (apply Z.pow_pos_nonneg; lia).
    pose proof (hex_digit_range c) as Hd.
    destruct (Py.hex_digit c) as [d|].
    + apply andb_prop in Hd. destruct Hd as [Hlo Hhi].
      apply Z.leb_le in Hlo. apply Z.ltb_lt in Hhi.
      specialize (IH (16 * acc + d) ltac:(lia)).
      assert ((16 * acc + d + 1) * P <= (16 * acc + 16) * P) as Hle
          by (apply Z.mul_le_mono_nonneg_r; lia).
      replace ((acc + 1) * (16 * P)) with ((16 * acc + 16) * P) by ring.
      lia.
    + replace ((acc + 1) * (16 * P)) with (acc * (16 * P) + 16 * P) by ring.
      assert (0 <= acc * (16 * P)) by (apply Z.mul_nonneg_nonneg; lia).
      assert (acc <= acc * (16 * P)) by nia.
      lia.
Qed.

(** X1: in a payload made of 64-digit hex words after the [0x] prefix,
    [decode_word] reads the word of the given index and gives the number
    it denotes; the three scripts decode alike. *)
Theorem decode_word_reads_nth_word : forall (words : list string) (i : nat) (w : string),
  (forall x, In x words -> String.length x = 64%nat /\ Py.all_hex x = true) ->
  nth_error words i = Some w ->
  Tracker.decode_word ("0x" ++ String.concat "" words)%string i = Ok (Py.hex_value 0 w)
  /\ TopStakers.decode_word ("0x" ++ String.concat "" words)%string i
     = Ok (Py.hex_value 0 w)
  /\ Dashboard.decode_word ("0x" ++ String.concat "" words)%string i
     = Ok (Py.hex_value 0 w).
Proof.
  intros words i w Hwords Hnth.
  assert (Tracker.decode_word ("0x" ++ String.concat "" words)%string i
          = Ok (Py.hex_value 0 w)) as H.
  { unfold Tracker.decode_word, Py.slice.
    replace (2 + i * 64 + 64 - (2 + i * 64))%nat with 64%nat by lia.
    change ("0x" ++ String.concat "" words)%string
      with (String "0" (String "x" (String.concat "" words))).
    change (2 + i * 64)%nat with (S (S (i * 64))).
    cbn [substring].
    rewrite (substring_nth_word words i w); [|intros x Hx; apply Hwords; exact Hx | exact Hnth].
    apply nth_error_In in Hnth. destruct (Hwords w Hnth) as [Hlen Hhex].
    apply int16_hex; [|exact Hhex]. intros ->. discriminate Hlen. }
  repeat split; exact H.
Qed.

Lemma decode_word_reads_nth_word_witness :
  Tracker.decode_word
    ("0x" ++ String.concat "" [Fixture.encode_word 5; Fixture.encode_word 255])%string 1
  = Ok (Py.hex_value 0 (Fixture.encode_word 255)).
Proof.
  apply (decode_word_reads_nth_word
           [Fixture.encode_word 5; Fixture.encode_word 255] 1 (Fixture.encode_word 255)).
  - intros x [<-|[<-|[]]]; split; reflexivity.
  - reflexivity.
Defined.

Lemma decode_word_hex_bounds : forall (data_ : string) (index : nat) (v : Z),
  Py.all_hex (Py.slice data_ (2 + index * 64) (2 + index * 64 + 64)) = true ->
  Tracker.decode_word data_ index = Ok v ->
  0 <= v < 2 ^ 256.
Proof.
  intros data_ index v Hhex Hdec. unfold Tracker.decode_word in Hdec.
  set (w := Py.slice data_ (2 + index * 64) (2 + index * 64 + 64)) in *.
  destruct w as [|c r] eqn:Ew; [discriminate Hdec|].
  rewrite int16_hex in Hdec by (congruence || exact Hhex).
  assert (v = Py.hex_value 0 (String c r)) as -> by congruence. clear Hdec.
  pose proof (hex_value_bounds (String c r) 0 ltac:(lia)) as Hb.
  remember (Py.hex_value 0 (String c r)) as v eqn:Ev. clear Ev.
  assert (String.length (String c r) <= 64)%nat as Hlen.
  { rewrite <- Ew. unfold w, Py.slice.
    replace (2 + index * 64 + 64 - (2 + index * 64))%nat with 64%nat by lia.
    apply substring_length_le. }
  assert (16 ^ Z.of_nat (String.length (String c r)) <= 16 ^ 64) as Hpow
      by (apply Z.pow_le_mono_r; lia).
  change (2 ^ 256) with (16 ^ 64). lia.
Qed.

(** X2: whatever hex digits [decode_word] finds at the offset of a word,
    the number it returns is an unsigned 256-bit integer, in each of the
    three scripts. *)
Theorem decode_word_is_uint256 : forall (data_ : string) (index : nat) (v : Z),
  Py.all_hex (Py.slice data_ (2 + index * 64) (2 + index * 64 + 64)) = true ->
  Tracker.decode_word data_ index = Ok v
  \/ TopStakers.decode_word data_ index = Ok v
  \/ Dashboard.decode_word data_ index = Ok v ->
  0 <= v < 2 ^ 256.
Proof.
  intros data_ index v Hhex [H|[H|H]];
    exact (decode_word_hex_bounds data_ index v Hhex H).
Qed.

Lemma decode_word_is_uint256_witness :
  0 <= 42 < 2 ^ 256.
Proof.
  apply (decode_word_is_uint256 "0x2a" 0 42); [reflexivity | left; reflexivity].
Defined.

Lemma int16_0x_hex : forall s,
  s <> EmptyString -> Py.all_hex s = true ->
  Py.int16 ("0x" ++ s)%string = Ok (Py.hex_value 0 s).
Proof.
  intros [|c r] Hne Hhex; [congruence|]. clear Hne.
  pose proof Hhex as Hall. cbn [Py.all_hex] in Hhex.
  destruct (Py.hex_digit c) as [d|] eqn:Hc; [|discriminate].
  destruct (hex_char_facts c d Hc) as (_ & _ & _ & Hus & _).
  unfold Py.int16.
  change ("0x" ++ String c r)%string with (String "0" (String "x" (String c r))).
  change (Py.lstrip (String "0" (String "x" (String c r))))
    with (String "0" (String "x" (String c r))).
  change (Py.strip_sign (String "0" (String "x" (String c r))))
    with (false, String "0" (String "x" (String c r))).
  cbv beta iota.
  assert (Py.strip_0x (String "0" (String "x" (String c r))) = String c r) as ->.
  { cbn [Py.strip_0x]. change (Ascii.eqb "0" "0") with true.
    change (Ascii.eqb "x" "x") with true. cbn [andb orb]. rewrite Hus. reflexivity. }
  cbn [Py.starts_with_underscore]. rewrite Hus.
  rewrite scan_digits_hex by exact Hall.
  cbn [orb String.length Nat.add Nat.eqb Py.all_space negb]. reflexivity.
Qed.

(** X3: [h] and [hex_to_int] read a non-empty string of hex digits as the
    number it denotes, with or without the [0x] prefix; the number is
    never negative; the empty string and a bare prefix raise ValueError. *)
Theorem h_reads_hex : forall s,
  s <> EmptyString -> Py.all_hex s = true ->
  Tracker.hex_to_int ("0x" ++ s)%string = Ok (Py.hex_value 0 s)
  /\ TopStakers.h ("0x" ++ s)%string = Ok (Py.hex_value 0 s)
  /\ Dashboard.h ("0x" ++ s)%string = Ok (Py.hex_value 0 s)
  /\ Dashboard.h s = Dashboard.h ("0x" ++ s)%string
  /\ 0 <= Py.hex_value 0 s < 16 ^ Z.of_nat (String.length s)
  /\ Dashboard.h "" = Raise ValueError
  /\ Dashboard.h "0x" = Raise ValueError.
Proof.
  intros s Hne Hhex.
  pose proof (int16_0x_hex s Hne Hhex) as H0x.
  pose proof (int16_hex s Hne Hhex) as Hplain.
  pose proof (hex_value_bounds s 0 ltac:(lia)) as Hb.
  unfold Tracker.hex_to_int, TopStakers.h, Dashboard.h.
  repeat split; try assumption; try reflexivity; try lia.
  congruence.
Qed.

Lemma h_reads_hex_witness :
  Tracker.hex_to_int "0x1f" = Ok 31.
Proof.
  exact (proj1 (h_reads_hex "1f" ltac:(discriminate) eq_refl)).
Defined.

Lemma slice_last_whole : forall (s : string) (n : nat),
  (String.length s <= n)%nat -> Py.slice_last s n = s.
Proof.
  intros s n Hle. unfold Py.slice_last, Py.slice_from.
  replace (String.length s - n)%nat with 0%nat by lia.
  rewrite Nat.sub_0_r. apply substring_whole.
Qed.

Lemma slice_last_append : forall (pad x : string),
  Py.slice_last (pad ++ x) (String.length x) = x.
Proof.
  intros pad x. unfold Py.slice_last, Py.slice_from.
  rewrite append_length.
  replace (String.length pad + String.length x - String.length x)%nat
    with (String.length pad + 0)%nat by lia.
  rewrite substring_skip.
  replace (String.length pad + String.length x - (String.length pad + 0))%nat
    with (String.length x) by lia.
  apply substring_whole.
Qed.

(** X4: [addr_from_topic] keeps the last 40 characters of a topic behind a
    [0x] prefix, whatever precedes them; a topic of 40 characters or fewer
    is kept whole, and nothing raises.  The report passes the same string
    to the checksum routine. *)
Theorem addr_from_topic_keeps_last_40 :
  forall (to_checksum_address : string -> outcome string) (pad addr : string),
  String.length addr = 40%nat ->
  Dashboard.addr_from_topic (pad ++ addr) = ("0x" ++ addr)%string
  /\ TopStakers.addr_from_topic to_checksum_address (pad ++ addr)
     = to_checksum_address ("0x" ++ addr)%string
  /\ (forall topic, (String.length topic <= 40)%nat ->
        Dashboard.addr_from_topic topic = ("0x" ++ topic)%string).
Proof.
  intros tca pad addr Hlen.
  unfold Dashboard.addr_from_topic, TopStakers.addr_from_topic.
  split; [|split].
  - rewrite <- Hlen, slice_last_append. reflexivity.
  - rewrite <- Hlen, slice_last_append. reflexivity.
  - intros topic Hle. rewrite slice_last_whole by exact Hle. reflexivity.
Qed.

Lemma addr_from_topic_keeps_last_40_witness :
  Dashboard.addr_from_topic
    ("0x000000000000000000000000" ++ "00000000000000000000000000000000000000a1")
  = ("0x" ++ "00000000000000000000000000000000000000a1")%string.
Proof.
  exact (proj1 (addr_from_topic_keeps_last_40 (fun s => Ok s)
                  "0x000000000000000000000000"
                  "00000000000000000000000000000000000000a1" eq_refl)).
Defined.

(** X5: [short_addr] keeps the first six and the last four characters of
    an address around three dots: 13 characters for any address of six
    characters or more; shorter input is not rejected. *)
Theorem short_addr_shape : forall (head_ mid tail_ : string),
  String.length head_ = 6%nat -> String.length tail_ = 4%nat ->
  Dashboard.short_addr (head_ ++ mid ++ tail_) = (head_ ++ "..." ++ tail_)%string
  /\ String.length (Dashboard.short_addr (head_ ++ mid ++ tail_)) = 13%nat.
Proof.
  intros head_ mid tail_ Hh Ht.
  assert (Dashboard.short_addr (head_ ++ mid ++ tail_) = (head_ ++ "..." ++ tail_)%string) as E.
  { unfold Dashboard.short_addr. f_equal.
    - unfold Py.slice. rewrite Nat.sub_0_r, <- Hh. apply substring_prefix.
    - f_equal. rewrite <- Ht.
      replace (head_ ++ mid ++ tail_)%string with ((head_ ++ mid) ++ tail_)%string.
      + apply slice_last_append.
      + clear. induction head_ as [|c x IH]; simpl; [reflexivity | f_equal; exact IH]. }
  split; [exact E|].
  rewrite E, !append_length, Hh, Ht. reflexivity.
Qed.

Lemma short_addr_shape_witness :
  Dashboard.short_addr ("0x22Ad" ++ "2a46d317C5eDF6c01fea16d4399C912E" ++ "9A01")
  = ("0x22Ad" ++ "..." ++ "9A01")%string.
Proof.
  exact (proj1 (short_addr_shape "0x22Ad" "2a46d317C5eDF6c01fea16d4399C912E" "9A01"
                  eq_refl eq_refl)).
Defined.

(** ** Unlock timers *)

Lemma str_head : forall n : Z,
  exists c r, str n = String c r /\ c <> "U"%char.
Proof.
  intro n. unfold str, NilZero.string_of_int.
  destruct (Z.to_int n) as [d|d].
  - destruct d; cbn; eexists; eexists; (split; [reflexivity | discriminate]).
  - cbn. eexists; eexists; (split; [reflexivity | discriminate]).
Qed.

Lemma str_append_not_unlocked : forall (n : Z) (rest : string),
  (str n ++ rest)%string <> "UNLOCKED".
Proof.
  intros n rest H. destruct (str_head n) as (c & r & E & Hc).
  rewrite E in H. cbn in H. inversion H. contradiction.
Qed.

(** X6: [format_unlock] answers UNLOCKED exactly when the expiry is not
    after the clock, the instant of expiry included; the report's
    function is the dashboard's at the clock read at import. *)
Theorem format_unlock_unlocked_iff : forall expiry_ts now : Z,
  (Dashboard.format_unlock expiry_ts now = "UNLOCKED" <-> expiry_ts <= now)
  /\ TopStakers.format_unlock now expiry_ts = Dashboard.format_unlock expiry_ts now.
Proof.
  intros e now. split; [|reflexivity].
  unfold Dashboard.format_unlock.
  destruct (e <=? now) eqn:E.
  - apply Z.leb_le in E. split; [intro; exact E | reflexivity].
  - apply Z.leb_gt in E. split; [|lia].
    destruct (0 <? (e - now) / 86400); intro H;
      exfalso; exact (str_append_not_unlocked _ _ H).
Qed.

(** X7: for an expiry after the clock the text gives whole days and whole
    hours, rounded down: the hours lie between 0 and 23, the time left is
    at least the time shown and less than an hour more, and the day part
    is left out when less than a day remains; under an hour reads [0h]. *)
Theorem format_unlock_rounds_down : forall expiry_ts now : Z,
  now < expiry_ts ->
  (exists days hours,
      0 <= days /\ 0 <= hours < 24
      /\ days * 86400 + hours * 3600 <= expiry_ts - now
         < days * 86400 + hours * 3600 + 3600
      /\ Dashboard.format_unlock expiry_ts now
         = if 0 <? days then (str days ++ "d " ++ str hours ++ "h")%string
           else (str hours ++ "h")%string)
  /\ (expiry_ts - now < 3600 -> Dashboard.format_unlock expiry_ts now = "0h").
Proof.
  intros e now Hlt.
  assert ((e <=? now) = false) as E by (apply Z.leb_gt; exact Hlt).
  pose proof (Z.div_mod (e - now) 86400 ltac:(lia)) as Hdm.
  pose proof (Z.mod_pos_bound (e - now) 86400 ltac:(lia)) as Hmod.
  pose proof (Z.div_mod ((e - now) mod 86400) 3600 ltac:(lia)) as Hdm2.
  pose proof (Z.mod_pos_bound ((e - now) mod 86400) 3600 ltac:(lia)) as Hmod2.
  assert (0 <= (e - now) / 86400) as Hd by (apply Z.div_pos; lia).
  assert (0 <= ((e - now) mod 86400) / 3600 < 24) as Hh.
  { split; [apply Z.div_pos; lia|]. apply Z.div_lt_upper_bound; lia. }
  split.
  - exists ((e - now) / 86400), (((e - now) mod 86400) / 3600).
    unfold Dashboard.format_unlock. rewrite E.
    repeat split; try lia. 
  - intro Hshort. unfold Dashboard.format_unlock. rewrite E.
    rewrite (Z.div_small (e - now) 86400) by lia.
    rewrite (Z.mod_small (e - now) 86400) by lia.
    rewrite (Z.div_small (e - now) 3600) by lia.
    reflexivity.
Qed.

Lemma format_unlock_rounds_down_witness :
  Dashboard.format_unlock 1700003000 1700000000 = "0h".
Proof.
  apply (format_unlock_rounds_down 1700003000 1700000000); lia.
Defined.

Lemma map_outcome_In_inv : forall (A B : Type) (f : A -> outcome B) (xs : list A)
                                  (ys : list B) (y : B),
  map_outcome f xs = Ok ys -> In y ys -> exists x, In x xs /\ f x = Ok y.
Proof.
  intros A B f xs. induction xs as [|x0 xs IH]; intros ys y Hmap Hin; simpl in *.
  - inversion Hmap. subst ys. contradiction.
  - apply bind_Ok in Hmap. destruct Hmap as (y0 & Hy0 & Hmap).
    apply bind_Ok in Hmap. destruct Hmap as (ys0 & Hys0 & Hmap).
    inversion Hmap. subst ys. destruct Hin as [<-|Hin].
    + exists x0. split; [left; reflexivity | exact Hy0].
    + destruct (IH ys0 y Hys0 Hin) as (x & Hx & Hfx).
      exists x. split; [right; exact Hx | exact Hfx].
Qed.

Lemma column_Ok : forall (A : Type) (rows rows' : list A),
  Pandas.column rows = Ok rows' -> rows' = rows /\ rows <> [].
Proof.
  intros A [|r rows] rows' H; simpl in H; [discriminate H|].
  inversion H. split; [reflexivity | discriminate].
Qed.

(** X8: in the dashboard's positions frame every row is a value of the
    positions dict, and its two lock columns agree: [is_locked] holds
    exactly when [unlock_remaining] is not UNLOCKED, that is when the
    expiry is after the clock. *)
Theorem pos_df_lock_columns :
  forall (now : Z) (to_datetime : Z -> outcome string)
         (positions : Dict.t Dashboard.position) (frame : list Dashboard.pos_row)
         (r : Dashboard.pos_row),
  Dashboard.pos_df now to_datetime positions = Ok frame ->
  In r frame ->
  In (Dashboard.base r) (Dict.values positions)
  /\ (Dashboard.is_locked r = true <-> Dashboard.unlock_remaining r <> "UNLOCKED")
  /\ (Dashboard.is_locked r = true <-> now < Dashboard.expiry_ts (Dashboard.base r)).
Proof.
  intros now to_datetime positions frame r Hdf Hin.
  unfold Dashboard.pos_df in Hdf.
  apply bind_Ok in Hdf. destruct Hdf as (rows & Hcol & Hmap).
  apply column_Ok in Hcol. destruct Hcol as [-> _].
  destruct (map_outcome_In_inv _ _ _ _ _ r Hmap Hin) as (p & Hp & Hrow).
  apply bind_Ok in Hrow. destruct Hrow as (utc & _ & Hrow).
  inversion Hrow. subst r. cbn.
  split; [exact Hp|].
  assert (Dashboard.format_unlock (Dashboard.expiry_ts p) now = "UNLOCKED"
          <-> Dashboard.expiry_ts p <= now) as Hu.
  { unfold Dashboard.format_unlock.
    destruct (Dashboard.expiry_ts p <=? now) eqn:E.
    - apply Z.leb_le in E. split; [intro; exact E | reflexivity].
    - apply Z.leb_gt in E. split; [|lia].
      destruct (0 <? (Dashboard.expiry_ts p - now) / 86400); intro H;
        exfalso; exact (str_append_not_unlocked _ _ H). }
  rewrite Z.ltb_lt. split; [|reflexivity].
  split.
  - intros Hlt Hun. apply Hu in Hun. lia.
  - intro Hnot. destruct (Z.lt_ge_cases now (Dashboard.expiry_ts p)) as [H|H]; [exact H|].
    exfalso. apply Hnot. apply Hu. exact H.
Qed.

(** ** Scaled amounts *)

Lemma shr_1_nonneg : forall mrs, 0 <= shr_m mrs -> 0 <= shr_m (shr_1 mrs).
Proof.
  intros [m r s] H. cbn in H. unfold shr_1.
  destruct m as [|[p|p|]|p]; cbn; lia.
Qed.

Lemma iter_pos_shr_1_nonneg : forall p mrs,
  0 <= shr_m mrs -> 0 <= shr_m (iter_pos shr_1 p mrs).
Proof.
  induction p as [p IH|p IH|]; intros mrs H; cbn [iter_pos].
  - apply IH, IH, shr_1_nonneg, H.
  - apply IH, IH, H.
  - apply shr_1_nonneg, H.
Qed.

Lemma shr_fexp_nonneg : forall m e l,
  0 <= m -> 0 <= shr_m (fst (shr_fexp 53 1024 m e l)).
Proof.
  intros m e l H. unfold shr_fexp, shr.
  assert (0 <= shr_m (shr_record_of_loc m l)) as H0
      by (destruct l as [|[]]; cbn; exact H).
  destruct (fexp 53 1024 (Zdigits2 m + e) - e) as [|p|p]; cbn [fst];
    [exact H0 | apply iter_pos_shr_1_nonneg; exact H0 | exact H0].
Qed.

Lemma round_nearest_even_nonneg : forall m l, 0 <= m -> 0 <= round_nearest_even m l.
Proof.
  intros m l H. unfold round_nearest_even.
  destruct l as [|[]]; try destruct (Z.even m); lia.
Qed.

(** Rounding a non-negative mantissa with a positive sign gives a zero, a
    positive finite number or the positive infinity. *)
Lemma binary_round_aux_nonneg : forall m e l,
  0 <= m ->
  match binary_round_aux 53 1024 false m e l with
  | S754_nan => False
  | S754_zero _ => True
  | S754_finite s _ _ => s = false
  | S754_infinity s => s = false
  end.
Proof.
  intros m e l H. unfold binary_round_aux.
  pose proof (shr_fexp_nonneg m e l H) as H1.
  destruct (shr_fexp 53 1024 m e l) as [mrs' e']. cbn [fst] in H1.
  pose proof (shr_fexp_nonneg _ e' loc_Exact
                (round_nearest_even_nonneg _ (loc_of_shr_record mrs') H1)) as H2.
  destruct (shr_fexp 53 1024 (round_nearest_even (shr_m mrs') (loc_of_shr_record mrs'))
                     e' loc_Exact) as [mrs'' e'']. cbn [fst] in H2.
  destruct (shr_m mrs'') as [|p|p]; [exact I | | lia].
  destruct (e'' <=? 1024 - 53); reflexivity.
Qed.

Lemma truediv_nonneg : forall (a b : Z) (q : Py.float),
  0 <= a -> 0 < b -> Py.truediv a b = Ok q -> nonneg_finite q = true.
Proof.
  intros a b q Ha Hb Hq. unfold Py.truediv in Hq.
  destruct b as [|pb|pb]; try lia.
  destruct a as [|pa|pa]; try lia.
  - inversion Hq. reflexivity.
  - cbn [Z.ltb Z.compare Z.abs Z.to_pos] in Hq.
    unfold SFdiv in Hq. cbn [xorb] in Hq.
    destruct (SFdiv_core_binary 53 1024 (Z.pos pa) 0 (Z.pos pb) 0) as [[mz ez] lz] eqn:Ecore.
    assert (0 <= mz) as Hmz.
    { unfold SFdiv_core_binary in Ecore.
      set (s := 0 - 0 - Z.min (fexp 53 1024 (Zdigits2 (Z.pos pa) + 0 - (Zdigits2 (Z.pos pb) + 0)))
                              (0 - 0)) in *.
      set (m' := match s with
                 | 0 => Z.pos pa
                 | Z.pos _ => Z.shiftl (Z.pos pa) s
                 | Z.neg _ => 0
                 end) in *.
      assert (0 <= m') as Hm'.
      { unfold m'. destruct s; [lia | apply Z.shiftl_nonneg; lia | lia]. }
      pose proof (Z_div_mod m' (Z.pos pb) ltac:(lia)) as Hdiv.
      destruct (Z.div_eucl m' (Z.pos pb)) as [q0 r0].
      inversion Ecore. subst mz. destruct Hdiv as [Heq Hr]. nia. }
    pose proof (binary_round_aux_nonneg mz ez lz Hmz) as Hround.
    destruct (binary_round_aux 53 1024 false mz ez lz) as [sz|sz| |sz m e];
      try discriminate Hq; inversion Hq; subst q; cbn.
    + reflexivity.
    + contradiction.
    + subst sz. reflexivity.
Qed.

(** X9: an integer division of a non-negative amount by a positive scale
    either raises OverflowError or gives a float that is zero or positive
    and finite: never NaN, never an infinity, never negative. *)
Theorem truediv_is_nonneg_finite : forall (a b : Z),
  0 <= a -> 0 < b ->
  Py.truediv a b = Raise OverflowError
  \/ exists q, Py.truediv a b = Ok q /\ nonneg_finite q = true.
Proof.
  intros a b Ha Hb.
  destruct (Py.truediv a b) as [q|e] eqn:E.
  - right. exists q. split; [reflexivity | exact (truediv_nonneg a b q Ha Hb E)].
  - left. unfold Py.truediv in E.
    destruct b as [|pb|pb]; try lia.
    destruct a as [|pa|pa]; try lia; [discriminate E|].
    destruct (SFdiv 53 1024 _ _); inversion E; reflexivity.
Qed.

Lemma truediv_is_nonneg_finite_witness :
  Py.truediv 7 (10 ^ DECIMALS) = Raise OverflowError
  \/ exists q, Py.truediv 7 (10 ^ DECIMALS) = Ok q /\ nonneg_finite q = true.
Proof.
  apply (truediv_is_nonneg_finite 7 (10 ^ DECIMALS)); [lia | reflexivity].
Defined.

(** X10: a flow row built from a log whose first word is made of hex
    digits carries a non-negative finite amount; its net flow is that
    amount for a deposit, its opposite for a withdrawal, hence never
    positive, and zero for a reward. *)
Theorem flow_amounts_signed : forall (l : log) (name : string)
                                     (sign : Py.float -> Py.float) (r : Dashboard.flow_row),
  Py.all_hex (Py.slice (data l) 2 66) = true ->
  Dashboard.flow_of name sign l = Ok r ->
  nonneg_finite (Dashboard.amount r) = true
  /\ Dashboard.net_flow r = sign (Dashboard.amount r)
  /\ Py.flt Py.fzero (Py.fneg (Dashboard.amount r)) = false.
Proof.
  intros l name sign r Hhex Hrow. unfold Dashboard.flow_of in Hrow.
  apply bind_Ok in Hrow. destruct Hrow as (w & Hw & Hrow).
  apply bind_Ok in Hrow. destruct Hrow as (funds & Hfunds & Hrow).
  apply bind_Ok in Hrow. destruct Hrow as (blk & _ & Hrow).
  apply bind_Ok in Hrow. destruct Hrow as (ts & _ & Hrow).
  inversion Hrow. subst r. cbn.
  pose proof (decode_word_hex_bounds (data l) 0 w Hhex Hw) as Hrange.
  assert (nonneg_finite funds = true) as Hnn.
  { apply (truediv_nonneg w (10 ^ DECIMALS)); [lia | reflexivity | exact Hfunds]. }
  repeat split; [exact Hnn|].
  destruct funds as [[]|[]| |[] m e]; try discriminate Hnn; reflexivity.
Qed.

Lemma flow_amounts_signed_witness :
  nonneg_finite (S754_finite false 4503599627370496 (-52)) = true
  /\ S754_finite true 4503599627370496 (-52)
     = Py.fneg (S754_finite false 4503599627370496 (-52))
  /\ Py.flt Py.fzero (Py.fneg (S754_finite false 4503599627370496 (-52))) = false.
Proof.
  assert (Py.all_hex (Py.slice (data (Fixture.withdrawal_log 1 (10 ^ 18))) 2 66) = true)
    as Hhex by (vm_compute; reflexivity).
  assert (Dashboard.flow_of "Withdrawal" Py.fneg (Fixture.withdrawal_log 1 (10 ^ 18))
          = Ok {| Dashboard.block := 16; Dashboard.timestamp := 1694498816;
                  Dashboard.event := "Withdrawal";
                  Dashboard.amount := S754_finite false 4503599627370496 (-52);
                  Dashboard.net_flow := S754_finite true 4503599627370496 (-52) |})
    as Hrow by (vm_compute; reflexivity).
  exact (flow_amounts_signed _ _ _ _ Hhex Hrow).
Defined.

Lemma pos_df_lock_columns_witness :
  Dashboard.is_locked (Fixture.pos_row_of 1 None Fixture.one) = true
  <-> Dashboard.unlock_remaining (Fixture.pos_row_of 1 None Fixture.one) <> "UNLOCKED".
Proof.
  assert (Dashboard.pos_df Fixture.NOW Fixture.to_datetime_stub
            [(1, Dashboard.base (Fixture.pos_row_of 1 None Fixture.one))]
          = Ok [Fixture.pos_row_of 1 None Fixture.one])
    as Hdf by (vm_compute; reflexivity).
  exact (proj1 (proj2 (pos_df_lock_columns _ _ _ _ (Fixture.pos_row_of 1 None Fixture.one)
                         Hdf (or_introl eq_refl)))).
Defined.

(** ** What each loop of the projection changes *)

Lemma tables_rel_trans : forall (V : Type) (R : V -> V -> Prop) (t1 t2 t3 : Dict.t V),
  (forall x y z, R x y -> R y z -> R x z) ->
  tables_rel R t1 t2 -> tables_rel R t2 t3 -> tables_rel R t1 t3.
Proof.
  intros V R t1 t2 t3 Htrans H12. revert t3. unfold tables_rel in *.
  induction H12 as [|a b l1 l2 [Hk Hab] _ IH]; intros t3 H23; inversion H23; subst.
  - constructor.
  - constructor.
    + match goal with H : _ /\ _ |- _ => destruct H as [Hk' Hbc] end.
      split; [congruence | eapply Htrans; eassumption].
    + apply IH. assumption.
Qed.

Lemma loop_rel : forall (V : Type) (R : V -> V -> Prop)
                        (body : Dict.t V -> log -> outcome (Dict.t V)),
  (forall x, R x x) ->
  (forall x y z, R x y -> R y z -> R x z) ->
  (forall t l t', body t l = Ok t' -> tables_rel R t' t) ->
  forall logs t t', for_each body logs t = Ok t' -> tables_rel R t' t.
Proof.
  intros V R body Hrefl Htrans Hstep logs t t' Hrun.
  refine (for_each_invariant _ _ body (fun s => tables_rel R s t) logs _ t t' _ Hrun).
  - intros s x s' _ Hs Hone.
    eapply tables_rel_trans; [exact Htrans | apply (Hstep _ _ _ Hone) | exact Hs].
  - apply tables_rel_refl. exact Hrefl.
Qed.

Lemma tables_rel_lookup : forall (V1 V2 : Type) (R : V1 -> V2 -> Prop)
                                  (t' : Dict.t V1) (t : Dict.t V2) k p',
  tables_rel R t' t -> Dict.get k t' = Some p' ->
  exists p, Dict.get k t = Some p /\ R p' p.
Proof.
  intros V1 V2 R t' t k p' Hrel Hget.
  pose proof (tables_rel_get R t' t k Hrel) as H. rewrite Hget in H.
  destruct (Dict.get k t) as [p|]; [|contradiction].
  exists p. split; [reflexivity | exact H].
Qed.

Lemma tables_rel_lookup_back : forall (V1 V2 : Type) (R : V1 -> V2 -> Prop)
                                       (t' : Dict.t V1) (t : Dict.t V2) k p,
  tables_rel R t' t -> Dict.get k t = Some p ->
  exists p', Dict.get k t' = Some p' /\ R p' p.
Proof.
  intros V1 V2 R t' t k p Hrel Hget.
  pose proof (tables_rel_get R t' t k Hrel) as H. rewrite Hget in H.
  destruct (Dict.get k t') as [p'|]; [|contradiction].
  exists p'. split; [reflexivity | exact H].
Qed.

Section Loops.
Variable NOW : Z.
Variable to_checksum_address : string -> outcome string.
Variable strftime_utc : string -> Z -> outcome string.
Variable decode_utf8_replace : list Byte.byte -> string.

Lemma dashboard_transfer_rel : forall (R : Dashboard.position -> Dashboard.position -> Prop),
  (forall x, R x x) ->
  (forall p o, R (Dashboard.set_owner p o) p) ->
  forall t l t', Dashboard.on_transfer t l = Ok t' -> tables_rel R t' t.
Proof.
  intros R Hrefl Hset t l t' Hstep. unfold Dashboard.on_transfer in Hstep.
  apply bind_Ok in Hstep. destruct Hstep as (t2x & _ & Hstep).
  apply bind_Ok in Hstep. destruct Hstep as (t3x & _ & Hstep).
  apply bind_Ok in Hstep. destruct Hstep as (id & _ & Hstep).
  destruct (Dict.get id t) as [p|] eqn:E; inversion Hstep; subst t'.
  - eapply tables_rel_set_present; [exact Hrefl | exact E | apply Hset].
  - apply tables_rel_refl. exact Hrefl.
Qed.

Lemma dashboard_deposited_rel : forall (R : Dashboard.position -> Dashboard.position -> Prop),
  (forall x, R x x) ->
  (forall p x y, R (Dashboard.set_stake (Dashboard.set_net_deposited p x) y) p) ->
  forall t l t', Dashboard.on_funds_deposited t l = Ok t' -> tables_rel R t' t.
Proof.
  intros R Hrefl Hset t l t' Hstep. unfold Dashboard.on_funds_deposited in Hstep.
  apply bind_Ok in Hstep. destruct Hstep as (t1x & _ & Hstep).
  apply bind_Ok in Hstep. destruct Hstep as (id & _ & Hstep).
  destruct (Dict.get id t) as [p|] eqn:E.
  - apply bind_Ok in Hstep. destruct Hstep as (w0 & _ & Hstep).
    apply bind_Ok in Hstep. destruct Hstep as (f & _ & Hstep).
    apply bind_Ok in Hstep. destruct Hstep as (w1 & _ & Hstep).
    apply bind_Ok in Hstep. destruct Hstep as (sa & _ & Hstep).
    inversion Hstep. subst t'.
    eapply tables_rel_set_present; [exact Hrefl | exact E | apply Hset].
  - inversion Hstep. apply tables_rel_refl. exact Hrefl.
Qed.

Lemma dashboard_withdrawn_rel : forall (R : Dashboard.position -> Dashboard.position -> Prop),
  (forall x, R x x) ->
  (forall p x, R (Dashboard.set_net_deposited p x) p) ->
  forall t l t', Dashboard.on_funds_withdrawn t l = Ok t' -> tables_rel R t' t.
Proof.
  intros R Hrefl Hset t l t' Hstep. unfold Dashboard.on_funds_withdrawn in Hstep.
  apply bind_Ok in Hstep. destruct Hstep as (t1x & _ & Hstep).
  apply bind_Ok in Hstep. destruct Hstep as (id & _ & Hstep).
  destruct (Dict.get id t) as [p|] eqn:E.
  - apply bind_Ok in Hstep. destruct Hstep as (w0 & _ & Hstep).
    apply bind_Ok in Hstep. destruct Hstep as (f & _ & Hstep).
    inversion Hstep. subst t'.
    eapply tables_rel_set_present; [exact Hrefl | exact E | apply Hset].
  - inversion Hstep. apply tables_rel_refl. exact Hrefl.
Qed.

Lemma report_transfer_rel : forall (R : TopStakers.position -> TopStakers.position -> Prop),
  (forall x, R x x) ->
  (forall p o, R (TopStakers.set_owner p o) p) ->
  forall t l t', TopStakers.on_transfer to_checksum_address t l = Ok t' -> tables_rel R t' t.
Proof.
  intros R Hrefl Hset t l t' Hstep. unfold TopStakers.on_transfer in Hstep.
  apply bind_Ok in Hstep. destruct Hstep as (t2x & _ & Hstep).
  apply bind_Ok in Hstep. destruct Hstep as (addr & _ & Hstep).
  apply bind_Ok in Hstep. destruct Hstep as (t3x & _ & Hstep).
  apply bind_Ok in Hstep. destruct Hstep as (id & _ & Hstep).
  destruct (Dict.get id t) as [p|] eqn:E; inversion Hstep; subst t'.
  - eapply tables_rel_set_present; [exact Hrefl | exact E | apply Hset].
  - apply tables_rel_refl. exact Hrefl.
Qed.

Lemma report_deposited_rel : forall (R : TopStakers.position -> TopStakers.position -> Prop),
  (forall x, R x x) ->
  (forall p x y, R (TopStakers.set_stake (TopStakers.set_net_deposited p x) y) p) ->
  forall t l t', TopStakers.on_funds_deposited t l = Ok t' -> tables_rel R t' t.
Proof.
  intros R Hrefl Hset t l t' Hstep. unfold TopStakers.on_funds_deposited in Hstep.
  apply bind_Ok in Hstep. destruct Hstep as (t1x & _ & Hstep).
  apply bind_Ok in Hstep. destruct Hstep as (id & _ & Hstep).
  apply bind_Ok in Hstep. destruct Hstep as (w0 & _ & Hstep).
  apply bind_Ok in Hstep. destruct Hstep as (f & _ & Hstep).
  apply bind_Ok in Hstep. destruct Hstep as (w1 & _ & Hstep).
  apply bind_Ok in Hstep. destruct Hstep as (sa & _ & Hstep).
  destruct (Dict.get id t) as [p|] eqn:E; inversion Hstep; subst t'.
  - eapply tables_rel_set_present; [exact Hrefl | exact E | apply Hset].
  - apply tables_rel_refl. exact Hrefl.
Qed.

Lemma report_withdrawn_rel : forall (R : TopStakers.position -> TopStakers.position -> Prop),
  (forall x, R x x) ->
  (forall p x, R (TopStakers.set_net_deposited p x) p) ->
  forall t l t', TopStakers.on_funds_withdrawn t l = Ok t' -> tables_rel R t' t.
Proof.
  intros R Hrefl Hset t l t' Hstep. unfold TopStakers.on_funds_withdrawn in Hstep.
  apply bind_Ok in Hstep. destruct Hstep as (t1x & _ & Hstep).
  apply bind_Ok in Hstep. destruct Hstep as (id & _ & Hstep).
  apply bind_Ok in Hstep. destruct Hstep as (w0 & _ & Hstep).
  apply bind_Ok in Hstep. destruct Hstep as (f & _ & Hstep).
  destruct (Dict.get id t) as [p|] eqn:E; inversion Hstep; subst t'.
  - eapply tables_rel_set_present; [exact Hrefl | exact E | apply Hset].
  - apply tables_rel_refl. exact Hrefl.
Qed.


Lemma dashboard_positions_of_steps : forall pc tr dep wth T,
  Dashboard.positions_of decode_utf8_replace pc tr dep wth = Ok T ->
  exists T0 T1 T2,
    for_each (Dashboard.on_position_created decode_utf8_replace) pc [] = Ok T0
    /\ for_each Dashboard.on_transfer tr T0 = Ok T1
    /\ for_each Dashboard.on_funds_deposited dep T1 = Ok T2
    /\ for_each Dashboard.on_funds_withdrawn wth T2 = Ok T.
Proof.
  intros pc tr dep wth T Hrun. unfold Dashboard.positions_of in Hrun.
  apply bind_Ok in Hrun. destruct Hrun as (T0 & H0 & Hrun).
  apply bind_Ok in Hrun. destruct Hrun as (T1 & H1 & Hrun).
  apply bind_Ok in Hrun. destruct Hrun as (T2 & H2 & Hrun).
  exists T0, T1, T2. repeat split; assumption.
Qed.

Lemma report_positions_of_steps : forall pc tr dep wth T,
  TopStakers.positions_of NOW to_checksum_address strftime_utc decode_utf8_replace
                          pc tr dep wth = Ok T ->
  exists T0 T1 T2,
    for_each (TopStakers.on_position_created NOW strftime_utc decode_utf8_replace) pc []
    = Ok T0
    /\ for_each (TopStakers.on_transfer to_checksum_address) tr T0 = Ok T1
    /\ for_each TopStakers.on_funds_deposited dep T1 = Ok T2
    /\ for_each TopStakers.on_funds_withdrawn wth T2 = Ok T.
Proof.
  intros pc tr dep wth T Hrun. unfold TopStakers.positions_of in Hrun.
  apply bind_Ok in Hrun. destruct Hrun as (T0 & H0 & Hrun).
  apply bind_Ok in Hrun. destruct Hrun as (T1 & H1 & Hrun).
  apply bind_Ok in Hrun. destruct Hrun as (T2 & H2 & Hrun).
  exists T0, T1, T2. repeat split; assumption.
Qed.

(** Whatever relation the three setters respect holds between the final
    table and the table the creation loop left. *)
Lemma dashboard_run_rel : forall (R : Dashboard.position -> Dashboard.position -> Prop),
  (forall x, R x x) ->
  (forall x y z, R x y -> R y z -> R x z) ->
  (forall p o, R (Dashboard.set_owner p o) p) ->
  (forall p x, R (Dashboard.set_net_deposited p x) p) ->
  (forall p x, R (Dashboard.set_stake p x) p) ->
  forall pc tr dep wth T,
    Dashboard.positions_of decode_utf8_replace pc tr dep wth = Ok T ->
    exists T0,
      for_each (Dashboard.on_position_created decode_utf8_replace) pc [] = Ok T0
      /\ tables_rel R T T0.
Proof.
  intros R Hrefl Htrans Ho Hn Hs pc tr dep wth T Hrun.
  destruct (dashboard_positions_of_steps _ _ _ _ _ Hrun) as (T0 & T1 & T2 & H0 & H1 & H2 & H3).
  exists T0. split; [exact H0|].
  apply (tables_rel_trans _ R T T2 T0 Htrans).
  - apply (loop_rel _ R _ Hrefl Htrans (dashboard_withdrawn_rel R Hrefl Hn) _ _ _ H3).
  - apply (tables_rel_trans _ R T2 T1 T0 Htrans).
    + refine (loop_rel _ R _ Hrefl Htrans (dashboard_deposited_rel R Hrefl _) _ _ _ H2).
      intros p x y. eapply Htrans; [apply Hs | apply Hn].
    + apply (loop_rel _ R _ Hrefl Htrans (dashboard_transfer_rel R Hrefl Ho) _ _ _ H1).
Qed.

Lemma report_run_rel : forall (R : TopStakers.position -> TopStakers.position -> Prop),
  (forall x, R x x) ->
  (forall x y z, R x y -> R y z -> R x z) ->
  (forall p o, R (TopStakers.set_owner p o) p) ->
  (forall p x, R (TopStakers.set_net_deposited p x) p) ->
  (forall p x, R (TopStakers.set_stake p x) p) ->
  forall pc tr dep wth T,
    TopStakers.positions_of NOW to_checksum_address strftime_utc decode_utf8_replace
                            pc tr dep wth = Ok T ->
    exists T0,
      for_each (TopStakers.on_position_created NOW strftime_utc decode_utf8_replace) pc []
      = Ok T0
      /\ tables_rel R T T0.
Proof.
  intros R Hrefl Htrans Ho Hn Hs pc tr dep wth T Hrun.
  destruct (report_positions_of_steps _ _ _ _ _ Hrun) as (T0 & T1 & T2 & H0 & H1 & H2 & H3).
  exists T0. split; [exact H0|].
  apply (tables_rel_trans _ R T T2 T0 Htrans).
  - apply (loop_rel _ R _ Hrefl Htrans (report_withdrawn_rel R Hrefl Hn) _ _ _ H3).
  - apply (tables_rel_trans _ R T2 T1 T0 Htrans).
    + refine (loop_rel _ R _ Hrefl Htrans (report_deposited_rel R Hrefl _) _ _ _ H2).
      intros p x y. eapply Htrans; [apply Hs | apply Hn].
    + apply (loop_rel _ R _ Hrefl Htrans (report_transfer_rel R Hrefl Ho) _ _ _ H1).
Qed.

(** What the creation loop writes under a key. *)
Lemma dashboard_creation_loop_ids : forall logs t,
  for_each (Dashboard.on_position_created decode_utf8_replace) logs [] = Ok t ->
  forall k p, Dict.get k t = Some p -> Dashboard.position_id p = k.
Proof.
  intros logs t Hrun.
  refine (for_each_invariant _ _ _
            (fun t => forall k p, Dict.get k t = Some p -> Dashboard.position_id p = k)
            logs _ [] t _ Hrun); [| intros k p H; discriminate H].
  intros s x s' _ Hs Hstep k p Hget. unfold Dashboard.on_position_created in Hstep.
  apply bind_Ok in Hstep. destruct Hstep as (t1x & _ & Hstep).
  apply bind_Ok in Hstep. destruct Hstep as (pid & _ & Hstep).
  apply bind_Ok in Hstep. destruct Hstep as (expiry & _ & Hstep).
  apply bind_Ok in Hstep. destruct Hstep as (t2x & _ & Hstep).
  apply bind_Ok in Hstep. destruct Hstep as (raw & _ & Hstep).
  inversion Hstep. subst s'. clear Hstep.
  destruct (Z.eq_dec pid k) as [->|Hne].
  - rewrite dict_get_set_eq in Hget. inversion Hget. reflexivity.
  - rewrite dict_get_set_neq in Hget by exact Hne. eapply Hs. exact Hget.
Qed.

Lemma report_creation_loop_ids : forall logs t,
  for_each (TopStakers.on_position_created NOW strftime_utc decode_utf8_replace) logs []
  = Ok t ->
  forall k p, Dict.get k t = Some p ->
    TopStakers.position_id p = k
    /\ TopStakers.unlock_remaining p = TopStakers.format_unlock NOW (TopStakers.expiry_ts p)
    /\ strftime_utc "%Y-%m-%d %H:%M" (TopStakers.expiry_ts p) = Ok (TopStakers.expiry_utc p).
Proof.
  intros logs t Hrun.
  refine (for_each_invariant _ _ _
            (fun t => forall k p, Dict.get k t = Some p ->
               TopStakers.position_id p = k
               /\ TopStakers.unlock_remaining p
                  = TopStakers.format_unlock NOW (TopStakers.expiry_ts p)
               /\ strftime_utc "%Y-%m-%d %H:%M" (TopStakers.expiry_ts p)
                  = Ok (TopStakers.expiry_utc p))
            logs _ [] t _ Hrun); [| intros k p H; discriminate H].
  intros s x s' _ Hs Hstep k p Hget. unfold TopStakers.on_position_created in Hstep.
  apply bind_Ok in Hstep. destruct Hstep as (t1x & _ & Hstep).
  apply bind_Ok in Hstep. destruct Hstep as (pid & _ & Hstep).
  apply bind_Ok in Hstep. destruct Hstep as (expiry & _ & Hstep).
  apply bind_Ok in Hstep. destruct Hstep as (t2x & _ & Hstep).
  apply bind_Ok in Hstep. destruct Hstep as (raw & _ & Hstep).
  apply bind_Ok in Hstep. destruct Hstep as (utc & Hutc & Hstep).
  inversion Hstep. subst s'. clear Hstep.
  destruct (Z.eq_dec pid k) as [->|Hne].
  - rewrite dict_get_set_eq in Hget. inversion Hget. cbn.
    repeat split; try reflexivity. exact Hutc.
  - rewrite dict_get_set_neq in Hget by exact Hne. eapply Hs. exact Hget.
Qed.

(** One transfer: the named position takes the new owner, every other
    position is left as it was. *)
Lemma dashboard_transfer_named : forall t l t' t2 pid p,
  Dashboard.on_transfer t l = Ok t' ->
  Py.index (topics l) 2 = Ok t2 ->
  topic_id 3 l = Ok pid ->
  Dict.get pid t = Some p ->
  t' = Dict.set pid (Dashboard.set_owner p (Some (Dashboard.addr_from_topic t2))) t.
Proof.
  intros t l t' t2 pid p Hstep H2 H3 Hget.
  unfold Dashboard.on_transfer in Hstep. unfold topic_id in H3.
  rewrite H2 in Hstep. cbn [bind] in Hstep.
  apply bind_Ok in H3. destruct H3 as (t3 & Ht3 & Hid).
  rewrite Ht3 in Hstep. cbn [bind] in Hstep.
  unfold Dashboard.h in Hstep. rewrite Hid in Hstep. cbn [bind] in Hstep.
  rewrite Hget in Hstep. inversion Hstep. reflexivity.
Qed.

Lemma dashboard_transfer_other : forall t l t' pid,
  Dashboard.on_transfer t l = Ok t' ->
  topic_id 3 l <> Ok pid ->
  Dict.get pid t' = Dict.get pid t.
Proof.
  intros t l t' pid Hstep Hother.
  unfold Dashboard.on_transfer in Hstep. unfold topic_id in Hother.
  apply bind_Ok in Hstep. destruct Hstep as (t2x & _ & Hstep).
  apply bind_Ok in Hstep. destruct Hstep as (t3x & Ht3 & Hstep).
  apply bind_Ok in Hstep. destruct Hstep as (id & Hid & Hstep).
  rewrite Ht3 in Hother. cbn [bind] in Hother. unfold Dashboard.h in Hid.
  assert (id <> pid) as Hne by (intros ->; apply Hother; exact Hid).
  destruct (Dict.get id t) as [q|]; inversion Hstep; subst t'.
  - apply dict_get_set_neq. exact Hne.
  - reflexivity.
Qed.

Lemma dashboard_last_transfer : forall pc earlier l later dep wth T t2 pid p,
  Py.index (topics l) 2 = Ok t2 ->
  topic_id 3 l = Ok pid ->
  names_no 3 pid later ->
  Dashboard.positions_of decode_utf8_replace pc (earlier ++ l :: later) dep wth = Ok T ->
  Dict.get pid T = Some p ->
  Dashboard.owner p = Some (Dashboard.addr_from_topic t2).
Proof.
  intros pc earlier l later dep wth T t2 pid p H2 H3 Hlater Hrun Hget.
  destruct (dashboard_positions_of_steps _ _ _ _ _ Hrun) as (T0 & T1 & T2 & _ & H1 & Hd & Hw).
  set (R := fun p' q : Dashboard.position => Dashboard.owner p' = Dashboard.owner q).
  assert (forall x, R x x) as Hrefl by (intro; reflexivity).
  assert (forall x y z, R x y -> R y z -> R x z) as Htrans
      by (unfold R; intros; congruence).
  assert (tables_rel R T T1) as Hrel.
  { apply (tables_rel_trans _ R T T2 T1 Htrans).
    - refine (loop_rel _ R _ Hrefl Htrans (dashboard_withdrawn_rel R Hrefl _) _ _ _ Hw).
      intros; reflexivity.
    - refine (loop_rel _ R _ Hrefl Htrans (dashboard_deposited_rel R Hrefl _) _ _ _ Hd).
      intros; reflexivity. }
  destruct (tables_rel_lookup _ _ R T T1 pid p Hrel Hget) as (p1 & Hget1 & Hown).
  unfold R in Hown. rewrite Hown. clear Hrel Hown Hget Hd Hw.
  rewrite for_each_app in H1.
  apply bind_Ok in H1. destruct H1 as (Te & _ & H1). cbn [for_each] in H1.
  apply bind_Ok in H1. destruct H1 as (Tl & Hl & H1).
  assert (exists q, Dict.get pid Tl = Some q
                    /\ Dashboard.owner q = Some (Dashboard.addr_from_topic t2)) as Hafter.
  { destruct (Dict.get pid Te) as [pe|] eqn:Ee.
    - rewrite (dashboard_transfer_named _ _ _ _ _ _ Hl H2 H3 Ee).
      rewrite dict_get_set_eq. eexists. split; reflexivity.
    - exfalso.
      assert (Dict.keys T1 = Dict.keys Te) as Hkeys.
      { rewrite (loop_keeps_keys _ _ dashboard_transfer_keys _ _ _ H1).
        apply (dashboard_transfer_keys _ _ _ Hl). }
      rewrite (get_None_keys _ Te T1 pid Hkeys Ee) in Hget1. discriminate Hget1. }
  assert (exists q, Dict.get pid T1 = Some q
                    /\ Dashboard.owner q = Some (Dashboard.addr_from_topic t2)) as Hend.
  { refine (for_each_invariant _ _ _
              (fun s => exists q, Dict.get pid s = Some q
                                  /\ Dashboard.owner q = Some (Dashboard.addr_from_topic t2))
              later _ Tl T1 Hafter H1).
    intros s x s' Hin Hs Hone.
    rewrite (dashboard_transfer_other _ _ _ pid Hone (Hlater x Hin)). exact Hs. }
  destruct Hend as (q & Hq & Hown). rewrite Hq in Hget1. inversion Hget1. subst q. exact Hown.
Qed.
End Loops.

(** X11: the last Transfer naming a position decides its owner: when no
    later Transfer carries its id, the position ends up, if it is in the
    table at all, with the address taken from that Transfer's third
    topic, whatever the earlier Transfers, deposits and withdrawals; the
    report keeps the checksummed form of the same address. *)
Theorem last_transfer_wins :
  forall NOW to_checksum_address strftime_utc decode_utf8_replace
         pc earlier l later dep wth t2 pid,
  Py.index (topics l) 2 = Ok t2 ->
  topic_id 3 l = Ok pid ->
  names_no 3 pid later ->
  (forall T p,
      Dashboard.positions_of decode_utf8_replace pc (earlier ++ l :: later) dep wth = Ok T ->
      Dict.get pid T = Some p ->
      Dashboard.owner p = Some (Dashboard.addr_from_topic t2))
  /\ (forall T p,
      TopStakers.positions_of NOW to_checksum_address strftime_utc decode_utf8_replace
                              pc (earlier ++ l :: later) dep wth = Ok T ->
      Dict.get pid T = Some p ->
      exists a, TopStakers.addr_from_topic to_checksum_address t2 = Ok a
                /\ TopStakers.owner p = Some a).
Proof.
  intros NOW tca strf dec pc earlier l later dep wth t2 pid H2 H3 Hlater. split.
  - intros T p Hrun Hget.
    exact (dashboard_last_transfer dec pc earlier l later dep wth T t2 pid p
                                   H2 H3 Hlater Hrun Hget).
  - intros T p Hrun Hget.
    destruct (positions_of_related NOW tca strf dec _ _ _ _ T Hrun) as (T' & Hrun' & Hrel).
    destruct (tables_rel_lookup _ _ _ T T' pid p Hrel Hget) as (p' & Hget' & Hagree).
    pose proof (dashboard_last_transfer dec pc earlier l later dep wth T' t2 pid p'
                                        H2 H3 Hlater Hrun' Hget') as Hown.
    destruct Hagree as (_ & _ & _ & _ & _ & Ho). rewrite Hown in Ho.
    unfold owner_agree in Ho. destruct (TopStakers.owner p) as [a|]; [|contradiction].
    exists a. split; [exact Ho | reflexivity].
Qed.

Lemma last_transfer_wins_witness :
  Dashboard.owner
    (Dashboard.base
       (Fixture.pos_row_of 1 (Some "0x000000000000000000000000000000000000000b") Fixture.one))
  = Some (Dashboard.addr_from_topic
            "0x000000000000000000000000000000000000000000000000000000000000000b").
Proof.
  assert (Py.index (topics (Fixture.transfer_log 11 1)) 2
          = Ok "0x000000000000000000000000000000000000000000000000000000000000000b")
    as H2 by (vm_compute; reflexivity).
  assert (topic_id 3 (Fixture.transfer_log 11 1) = Ok 1) as H3 by (vm_compute; reflexivity).
  assert (names_no 3 1 [Fixture.transfer_log 12 2]) as Hlater.
  { intros x [<-|[]]. vm_compute. discriminate. }
  assert (Dashboard.positions_of Fixture.decode_stub
            [Fixture.created_log 1 1700000100 Fixture.label_v1]
            ([Fixture.transfer_log 10 1]
               ++ Fixture.transfer_log 11 1 :: [Fixture.transfer_log 12 2])
            [Fixture.deposit_log 1 (10 ^ 18) (10 ^ 18)] []
          = Ok [(1, Dashboard.base
                      (Fixture.pos_row_of
                         1 (Some "0x000000000000000000000000000000000000000b")
                         Fixture.one))])
    as Hrun by (vm_compute; reflexivity).
  exact (proj1 (last_transfer_wins Fixture.NOW Fixture.checksum_stub Fixture.strftime_stub
                  Fixture.decode_stub _ _ _ _ _ _ _ _ H2 H3 Hlater)
               _ _ Hrun eq_refl).
Defined.

(** X12: in the dashboard's table nothing but the creation loop writes a
    position's id, expiry and validator: after the four loops the keys
    are those the creation loop left, in the same order, every position
    is stored under its own id, and its expiry and validator are the
    ones the creation loop gave it. *)
Theorem dashboard_created_fields_fixed :
  forall decode_utf8_replace pc tr dep wth T,
  Dashboard.positions_of decode_utf8_replace pc tr dep wth = Ok T ->
  exists T0,
    for_each (Dashboard.on_position_created decode_utf8_replace) pc [] = Ok T0
    /\ Dict.keys T = Dict.keys T0
    /\ forall pid p,
        Dict.get pid T = Some p ->
        Dashboard.position_id p = pid
        /\ exists p0,
            Dict.get pid T0 = Some p0
            /\ Dashboard.expiry_ts p = Dashboard.expiry_ts p0
            /\ Dashboard.validator p = Dashboard.validator p0.
Proof.
  intros dec pc tr dep wth T Hrun.
  set (R := fun p' p : Dashboard.position =>
              Dashboard.position_id p' = Dashboard.position_id p
              /\ Dashboard.expiry_ts p' = Dashboard.expiry_ts p
              /\ Dashboard.validator p' = Dashboard.validator p).
  destruct (dashboard_run_rel dec R) with (6 := Hrun) as (T0 & H0 & Hrel);
    try (unfold R; intros; repeat split; reflexivity).
  { unfold R. intros x y z (A1 & A2 & A3) (B1 & B2 & B3). repeat split; congruence. }
  exists T0. split; [exact H0|]. split; [exact (tables_rel_keys _ _ _ Hrel)|].
  intros pid p Hget.
  destruct (tables_rel_lookup _ _ R T T0 pid p Hrel Hget) as (p0 & Hget0 & Hid & Hexp & Hval).
  split.
  - rewrite Hid. exact (dashboard_creation_loop_ids dec pc T0 H0 pid p0 Hget0).
  - exists p0. repeat split; assumption.
Qed.

Lemma dashboard_created_fields_fixed_witness :
  exists T0,
    for_each (Dashboard.on_position_created Fixture.decode_stub)
             [Fixture.created_log 1 1700000100 Fixture.label_v1] [] = Ok T0
    /\ Dict.keys [(1, Dashboard.base
                        (Fixture.pos_row_of
                           1 (Some "0x000000000000000000000000000000000000000b")
                           Fixture.one))]
       = Dict.keys T0.
Proof.
  assert (Dashboard.positions_of Fixture.decode_stub
            [Fixture.created_log 1 1700000100 Fixture.label_v1]
            [Fixture.transfer_log 11 1]
            [Fixture.deposit_log 1 (10 ^ 18) (10 ^ 18)] []
          = Ok [(1, Dashboard.base
                      (Fixture.pos_row_of
                         1 (Some "0x000000000000000000000000000000000000000b")
                         Fixture.one))])
    as Hrun by (vm_compute; reflexivity).
  destruct (dashboard_created_fields_fixed _ _ _ _ _ _ Hrun) as (T0 & H0 & Hkeys & _).
  exists T0. split; [exact H0 | exact Hkeys].
Defined.

(** X13: in the report's table nothing but the creation loop writes a
    position's id, expiry and validator: after the four loops the keys
    are those the creation loop left, every position is stored under its
    own id with the expiry and validator the creation loop gave it, and
    the two texts derived from the expiry still fit it:
    [unlock_remaining] is [format_unlock] of the position's expiry and
    [expiry_utc] is the formatted expiry, whatever Transfers and fund
    events followed. *)
Theorem report_created_fields_fixed :
  forall NOW to_checksum_address strftime_utc decode_utf8_replace pc tr dep wth T,
  TopStakers.positions_of NOW to_checksum_address strftime_utc decode_utf8_replace
                          pc tr dep wth = Ok T ->
  exists T0,
    for_each (TopStakers.on_position_created NOW strftime_utc decode_utf8_replace) pc []
    = Ok T0
    /\ Dict.keys T = Dict.keys T0
    /\ forall pid p,
        Dict.get pid T = Some p ->
        TopStakers.position_id p = pid
        /\ TopStakers.unlock_remaining p
           = TopStakers.format_unlock NOW (TopStakers.expiry_ts p)
        /\ strftime_utc "%Y-%m-%d %H:%M" (TopStakers.expiry_ts p)
           = Ok (TopStakers.expiry_utc p)
        /\ exists p0,
            Dict.get pid T0 = Some p0
            /\ TopStakers.expiry_ts p = TopStakers.expiry_ts p0
            /\ TopStakers.validator p = TopStakers.validator p0.
Proof.
  intros NOW tca strf dec pc tr dep wth T Hrun.
  set (R := fun p' p : TopStakers.position =>
              TopStakers.position_id p' = TopStakers.position_id p
              /\ TopStakers.expiry_ts p' = TopStakers.expiry_ts p
              /\ TopStakers.expiry_utc p' = TopStakers.expiry_utc p
              /\ TopStakers.unlock_remaining p' = TopStakers.unlock_remaining p
              /\ TopStakers.validator p' = TopStakers.validator p).
  destruct (report_run_rel NOW tca strf dec R) with (6 := Hrun) as (T0 & H0 & Hrel);
    try (unfold R; intros; repeat split; reflexivity).
  { unfold R. intros x y z (A1 & A2 & A3 & A4 & A5) (B1 & B2 & B3 & B4 & B5).
    repeat split; congruence. }
  exists T0. split; [exact H0|]. split; [exact (tables_rel_keys _ _ _ Hrel)|].
  intros pid p Hget.
  destruct (tables_rel_lookup _ _ R T T0 pid p Hrel Hget)
    as (p0 & Hget0 & Hid & Hexp & Hutc & Hunl & Hval).
  destruct (report_creation_loop_ids NOW strf dec pc T0 H0 pid p0 Hget0) as (I1 & I2 & I3).
  split; [congruence|]. split; [congruence|]. split; [congruence|].
  exists p0. repeat split; assumption.
Qed.

Lemma report_created_fields_fixed_witness :
  exists T0,
    for_each (TopStakers.on_position_created Fixture.NOW Fixture.strftime_stub
                                             Fixture.decode_stub)
             [Fixture.created_log 1 1700000100 Fixture.label_v1] [] = Ok T0
    /\ Dict.keys [(1, Fixture.position_of
                        1 (Some "0x000000000000000000000000000000000000000b") Fixture.one)]
       = Dict.keys T0.
Proof.
  assert (TopStakers.positions_of Fixture.NOW Fixture.checksum_stub Fixture.strftime_stub
            Fixture.decode_stub
            [Fixture.created_log 1 1700000100 Fixture.label_v1]
            [Fixture.transfer_log 11 1]
            [Fixture.deposit_log 1 (10 ^ 18) (10 ^ 18)] []
          = Ok [(1, Fixture.position_of
                      1 (Some "0x000000000000000000000000000000000000000b") Fixture.one)])
    as Hrun by (vm_compute; reflexivity).
  destruct (report_created_fields_fixed _ _ _ _ _ _ _ _ _ Hrun) as (T0 & H0 & Hkeys & _).
  exists T0. split; [exact H0 | exact Hkeys].
Defined.

(** ** Balances *)

Lemma dashboard_deposit_loop : forall logs t t' pid p,
  for_each Dashboard.on_funds_deposited logs t = Ok t' ->
  Dict.get pid t = Some p ->
  exists funds stakes p',
    amounts_for 0 pid logs = Ok funds
    /\ amounts_for 1 pid logs = Ok stakes
    /\ Dict.get pid t' = Some p'
    /\ Dashboard.net_deposited p' = fold_left Py.fadd funds (Dashboard.net_deposited p)
    /\ Dashboard.stake p' = fold_left Py.fadd stakes (Dashboard.stake p).
Proof.
  induction logs as [|l rest IH]; intros t t' pid p Hrun Hget.
  - inversion Hrun. subst t'. exists [], [], p. repeat split; assumption.
  - cbn [for_each] in Hrun. apply bind_Ok in Hrun. destruct Hrun as (tm & Hstep & Hrest).
    unfold Dashboard.on_funds_deposited in Hstep.
    apply bind_Ok in Hstep. destruct Hstep as (t1x & Ht1 & Hstep).
    apply bind_Ok in Hstep. destruct Hstep as (id & Hid & Hstep).
    assert (topic_id 1 l = Ok id) as Hk by (unfold topic_id; rewrite Ht1; exact Hid).
    cbn [amounts_for]. rewrite Hk. cbn [bind].
    destruct (Dict.get id t) as [q|] eqn:E.
    + apply bind_Ok in Hstep. destruct Hstep as (w0 & Hw0 & Hstep).
      apply bind_Ok in Hstep. destruct Hstep as (f & Hf & Hstep).
      apply bind_Ok in Hstep. destruct Hstep as (w1 & Hw1 & Hstep).
      apply bind_Ok in Hstep. destruct Hstep as (sa & Hsa & Hstep).
      inversion Hstep. subst tm. clear Hstep.
      destruct (Z.eq_dec id pid) as [->|Hne].
      * rewrite Hget in E. inversion E. subst q. rewrite Z.eqb_refl.
        assert (scaled_word 0 l = Ok f) as S0
            by (unfold scaled_word; change Tracker.decode_word with Dashboard.decode_word;
                rewrite Hw0; exact Hf).
        assert (scaled_word 1 l = Ok sa) as S1
            by (unfold scaled_word; change Tracker.decode_word with Dashboard.decode_word;
                rewrite Hw1; exact Hsa).
        rewrite S0, S1. cbn [bind].
        destruct (IH _ _ pid _ Hrest (dict_get_set_eq _ _ _))
          as (funds & stakes & p' & Hfu & Hst & Hget' & Hnet & Hstake).
        rewrite Hfu, Hst. cbn [bind].
        exists (f :: funds), (sa :: stakes), p'.
        repeat split; try assumption.
      * apply Z.eqb_neq in Hne as Hneb. rewrite Hneb.
        apply (IH _ _ pid p Hrest). rewrite dict_get_set_neq by exact Hne. exact Hget.
    + inversion Hstep. subst tm.
      assert (id <> pid) as Hne by (intros ->; congruence).
      apply Z.eqb_neq in Hne as Hneb. rewrite Hneb.
      apply (IH _ _ pid p Hrest Hget).
Qed.

Lemma dashboard_withdraw_loop : forall logs t t' pid p,
  for_each Dashboard.on_funds_withdrawn logs t = Ok t' ->
  Dict.get pid t = Some p ->
  exists removed p',
    amounts_for 0 pid logs = Ok removed
    /\ Dict.get pid t' = Some p'
    /\ Dashboard.net_deposited p' = fold_left Py.fsub removed (Dashboard.net_deposited p)
    /\ Dashboard.stake p' = Dashboard.stake p.
Proof.
  induction logs as [|l rest IH]; intros t t' pid p Hrun Hget.
  - inversion Hrun. subst t'. exists [], p. repeat split; assumption.
  - cbn [for_each] in Hrun. apply bind_Ok in Hrun. destruct Hrun as (tm & Hstep & Hrest).
    unfold Dashboard.on_funds_withdrawn in Hstep.
    apply bind_Ok in Hstep. destruct Hstep as (t1x & Ht1 & Hstep).
    apply bind_Ok in Hstep. destruct Hstep as (id & Hid & Hstep).
    assert (topic_id 1 l = Ok id) as Hk by (unfold topic_id; rewrite Ht1; exact Hid).
    cbn [amounts_for]. rewrite Hk. cbn [bind].
    destruct (Dict.get id t) as [q|] eqn:E.
    + apply bind_Ok in Hstep. destruct Hstep as (w0 & Hw0 & Hstep).
      apply bind_Ok in Hstep. destruct Hstep as (f & Hf & Hstep).
      inversion Hstep. subst tm. clear Hstep.
      destruct (Z.eq_dec id pid) as [->|Hne].
      * rewrite Hget in E. inversion E. subst q. rewrite Z.eqb_refl.
        assert (scaled_word 0 l = Ok f) as S0
            by (unfold scaled_word; change Tracker.decode_word with Dashboard.decode_word;
                rewrite Hw0; exact Hf).
        rewrite S0. cbn [bind].
        destruct (IH _ _ pid _ Hrest (dict_get_set_eq _ _ _))
          as (removed & p' & Hre & Hget' & Hnet & Hstake).
        rewrite Hre. cbn [bind].
        exists (f :: removed), p'.
        repeat split; assumption.
      * apply Z.eqb_neq in Hne as Hneb. rewrite Hneb.
        apply (IH _ _ pid p Hrest). rewrite dict_get_set_neq by exact Hne. exact Hget.
    + inversion Hstep. subst tm.
      assert (id <> pid) as Hne by (intros ->; congruence).
      apply Z.eqb_neq in Hne as Hneb. rewrite Hneb.
      apply (IH _ _ pid p Hrest Hget).
Qed.

Lemma dashboard_balances : forall decode_utf8_replace pc tr dep wth T pid p,
  Dashboard.positions_of decode_utf8_replace pc tr dep wth = Ok T ->
  Dict.get pid T = Some p ->
  exists funds stakes removed,
    amounts_for 0 pid dep = Ok funds
    /\ amounts_for 1 pid dep = Ok stakes
    /\ amounts_for 0 pid wth = Ok removed
    /\ Dashboard.net_deposited p
       = fold_left Py.fsub removed (fold_left Py.fadd funds Py.fzero)
    /\ Dashboard.stake p = fold_left Py.fadd stakes Py.fzero.
Proof.
  intros dec pc tr dep wth T pid p Hrun Hget.
  destruct (dashboard_positions_of_steps dec _ _ _ _ _ Hrun)
    as (T0 & T1 & T2 & H0 & H1 & Hd & Hw).
  assert (Dict.keys T = Dict.keys T1) as Hkeys.
  { rewrite (loop_keeps_keys _ _ dashboard_withdrawn_keys _ _ _ Hw).
    apply (loop_keeps_keys _ _ dashboard_deposited_keys _ _ _ Hd). }
  destruct (Dict.get pid T1) as [p1|] eqn:E1;
    [| rewrite (get_None_keys _ T1 T pid Hkeys E1) in Hget; discriminate Hget].
  set (R := fun p' q : Dashboard.position =>
              Dashboard.net_deposited p' = Dashboard.net_deposited q
              /\ Dashboard.stake p' = Dashboard.stake q).
  assert (tables_rel R T1 T0) as Hrel.
  { refine (loop_rel _ R _ _ _ (dashboard_transfer_rel R _ _) _ _ _ H1);
      unfold R; try (intros; split; reflexivity).
    intros x y z [A1 A2] [B1 B2]. split; congruence. }
  destruct (tables_rel_lookup _ _ R T1 T0 pid p1 Hrel E1) as (p0 & Hget0 & Hn0 & Hs0).
  destruct (creation_loop_untouched_dashboard dec pc T0 H0 pid p0 Hget0) as (_ & Hz1 & Hz2).
  destruct (dashboard_deposit_loop _ _ _ pid p1 Hd E1)
    as (funds & stakes & p2 & Hfu & Hst & Hget2 & Hnet2 & Hstake2).
  destruct (dashboard_withdraw_loop _ _ _ pid p2 Hw Hget2)
    as (removed & p3 & Hre & Hget3 & Hnet3 & Hstake3).
  rewrite Hget in Hget3. inversion Hget3. subst p3.
  exists funds, stakes, removed. repeat split; try assumption; congruence.
Qed.

(** X14: a position's balances are running float sums in log order: its
    [net_deposited] is zero plus the scaled first words of the deposits
    that name it, one after the other, minus the scaled first words of
    the withdrawals that name it, and its [stake] is zero plus the scaled
    second words of those deposits; Transfers and the events of other
    positions have no part in it.  The dashboard and the report agree. *)
Theorem balances_are_running_sums :
  forall NOW to_checksum_address strftime_utc decode_utf8_replace pc tr dep wth pid,
  (forall T p,
      Dashboard.positions_of decode_utf8_replace pc tr dep wth = Ok T ->
      Dict.get pid T = Some p ->
      exists funds stakes removed,
        amounts_for 0 pid dep = Ok funds
        /\ amounts_for 1 pid dep = Ok stakes
        /\ amounts_for 0 pid wth = Ok removed
        /\ Dashboard.net_deposited p
           = fold_left Py.fsub removed (fold_left Py.fadd funds Py.fzero)
        /\ Dashboard.stake p = fold_left Py.fadd stakes Py.fzero)
  /\ (forall T p,
      TopStakers.positions_of NOW to_checksum_address strftime_utc decode_utf8_replace
                              pc tr dep wth = Ok T ->
      Dict.get pid T = Some p ->
      exists funds stakes removed,
        amounts_for 0 pid dep = Ok funds
        /\ amounts_for 1 pid dep = Ok stakes
        /\ amounts_for 0 pid wth = Ok removed
        /\ TopStakers.net_deposited p
           = fold_left Py.fsub removed (fold_left Py.fadd funds Py.fzero)
        /\ TopStakers.stake p = fold_left Py.fadd stakes Py.fzero).
Proof.
  intros NOW tca strf dec pc tr dep wth pid. split.
  - intros T p Hrun Hget. exact (dashboard_balances dec pc tr dep wth T pid p Hrun Hget).
  - intros T p Hrun Hget.
    destruct (positions_of_related NOW tca strf dec _ _ _ _ T Hrun) as (T' & Hrun' & Hrel).
    destruct (tables_rel_lookup _ _ _ T T' pid p Hrel Hget) as (p' & Hget' & Hagree).
    destruct (dashboard_balances dec pc tr dep wth T' pid p' Hrun' Hget')
      as (funds & stakes & removed & Hfu & Hst & Hre & Hnet & Hstake).
    destruct Hagree as (_ & _ & _ & Hn & Hs & _).
    exists funds, stakes, removed. repeat split; try assumption; congruence.
Qed.

Lemma balances_are_running_sums_witness :
  exists funds stakes removed,
    amounts_for 0 1 [Fixture.deposit_log 1 (3 * 10 ^ 18) (10 ^ 18);
                     Fixture.deposit_log 2 (10 ^ 18) (10 ^ 18);
                     Fixture.deposit_log 1 (10 ^ 18) (10 ^ 18)] = Ok funds
    /\ amounts_for 1 1 [Fixture.deposit_log 1 (3 * 10 ^ 18) (10 ^ 18);
                        Fixture.deposit_log 2 (10 ^ 18) (10 ^ 18);
                        Fixture.deposit_log 1 (10 ^ 18) (10 ^ 18)] = Ok stakes
    /\ amounts_for 0 1 [Fixture.withdrawal_log 1 (2 * 10 ^ 18)] = Ok removed
    /\ S754_finite false 4503599627370496 (-51)
       = fold_left Py.fsub removed (fold_left Py.fadd funds Py.fzero)
    /\ S754_finite false 4503599627370496 (-51) = fold_left Py.fadd stakes Py.fzero.
Proof.
  assert (Dashboard.positions_of Fixture.decode_stub
            [Fixture.created_log 1 1700000100 Fixture.label_v1] []
            [Fixture.deposit_log 1 (3 * 10 ^ 18) (10 ^ 18);
             Fixture.deposit_log 2 (10 ^ 18) (10 ^ 18);
             Fixture.deposit_log 1 (10 ^ 18) (10 ^ 18)]
            [Fixture.withdrawal_log 1 (2 * 10 ^ 18)]
          = Ok [(1, Dashboard.base
                      (Fixture.pos_row_of 1 None
                         (S754_finite false 4503599627370496 (-51))))])
    as Hrun by (vm_compute; reflexivity).
  exact (proj1 (balances_are_running_sums Fixture.NOW Fixture.checksum_stub
                  Fixture.strftime_stub Fixture.decode_stub _ _ _ _ 1)
               _ _ Hrun eq_refl).
Defined.

(** ** Sorted frames and running sums *)

Section SortBy.
Context {A : Type}.
Variable after : A -> A -> bool.
Hypothesis after_asym : forall x y, after x y = true -> after y x = false.

Lemma insert_by_HdRel : forall (y x : A) (rest : list A),
  HdRel (fun a b => after a b = false) y rest ->
  after y x = false ->
  HdRel (fun a b => after a b = false) y (Pandas.insert_by after x rest).
Proof.
  intros y x [|z rest] Hhd Hyx; simpl.
  - constructor. exact Hyx.
  - destruct (after x z); constructor; [|exact Hyx].
    inversion Hhd. assumption.
Qed.

Lemma insert_by_Sorted : forall (x : A) (l : list A),
  Sorted (fun a b => after a b = false) l ->
  Sorted (fun a b => after a b = false) (Pandas.insert_by after x l).
Proof.
  intros x l Hs. induction Hs as [|y rest Hrest IH Hhd]; simpl.
  - constructor; constructor.
  - destruct (after x y) eqn:E.
    + constructor; [exact IH|]. apply insert_by_HdRel; [exact Hhd|].
      apply after_asym. exact E.
    + constructor; [constructor; assumption|]. constructor. exact E.
Qed.

(** After sorting no row is directly followed by one that had to come
    before it. *)
Lemma sort_by_Sorted : forall l : list A,
  Sorted (fun a b => after a b = false) (Pandas.sort_by after l).
Proof.
  induction l as [|x l IH]; simpl; [constructor | apply insert_by_Sorted; exact IH].
Qed.
End SortBy.

Lemma sort_values_asc_sorted : forall (A : Type) (col : A -> Z) (rows : list A),
  StronglySorted (fun a b => col a <= col b) (Pandas.sort_values_asc col rows).
Proof.
  intros A col rows. apply Sorted_StronglySorted.
  - intros x y z Hxy Hyz. lia.
  - unfold Pandas.sort_values_asc.
    pose proof (sort_by_Sorted (fun x y : A => col y <? col x)) as Hs.
    eapply Sorted_ind with (P := fun l => Sorted (fun a b => col a <= col b) l);
      [constructor | | apply Hs].
    + intros a l _ IH Hhd. constructor; [exact IH|].
      destruct Hhd as [|b l' Hab]; constructor. apply Z.ltb_ge in Hab. exact Hab.
    + intros x y Hxy. apply Z.ltb_lt in Hxy. apply Z.ltb_ge. lia.
Qed.

Lemma compare_cont_Eq_antisym : forall p q,
  Pos.compare_cont Eq q p = CompOpp (Pos.compare_cont Eq p q).
Proof.
  intros p q. change (Pos.compare_cont Eq q p) with (Pos.compare q p).
  change (Pos.compare_cont Eq p q) with (Pos.compare p q).
  apply Pos.compare_antisym.
Qed.

Lemma SFcompare_Lt_antisym : forall x y,
  SFcompare x y = Some Lt -> SFcompare y x = Some Gt.
Proof.
  intros [sx|sx| |sx mx ex] [sy|sy| |sy my ey] H; cbn in *;
    try discriminate H;
    try (destruct sx; try destruct sy; cbn in *; congruence).
  destruct sx, sy; try congruence.
  - rewrite (Z.compare_antisym ex ey). destruct (ex ?= ey); cbn in *; try congruence.
    rewrite compare_cont_Eq_antisym. destruct (Pos.compare_cont Eq mx my); cbn in *; congruence.
  - rewrite (Z.compare_antisym ex ey). destruct (ex ?= ey); cbn in *; try congruence.
    rewrite compare_cont_Eq_antisym. destruct (Pos.compare_cont Eq mx my); cbn in *; congruence.
Qed.

Lemma SFcompare_None : forall x y,
  SFcompare x y = None -> Pandas.isnan x = true \/ Pandas.isnan y = true.
Proof.
  intros [sx|sx| |sx mx ex] [sy|sy| |sy my ey] H; cbn in *;
    try discriminate H; auto.
Qed.

Lemma SFcompare_nan_r : forall x y, Pandas.isnan y = true -> SFcompare x y = None.
Proof.
  intros [sx|sx| |sx mx ex] [sy|sy| |sy my ey] H; cbn in *; congruence.
Qed.

Lemma after_desc_asym : forall x y,
  Pandas.after_desc x y = true -> Pandas.after_desc y x = false.
Proof.
  intros x y H. unfold Pandas.after_desc in *.
  destruct (SFcompare x y) as [[]|] eqn:E; try discriminate H.
  - rewrite (SFcompare_Lt_antisym _ _ E). reflexivity.
  - apply andb_prop in H. destruct H as [Hx Hy].
    rewrite (SFcompare_nan_r y x Hx). apply negb_true_iff in Hy. rewrite Hy. reflexivity.
Qed.

Lemma sort_values_desc_sorted : forall (A : Type) (col : A -> Py.float) (rows : list A),
  Sorted (fun a b => Pandas.after_desc (col a) (col b) = false)
         (Pandas.sort_values_desc col rows).
Proof.
  intros A col rows. unfold Pandas.sort_values_desc.
  apply (sort_by_Sorted (fun x y => Pandas.after_desc (col x) (col y))).
  intros x y. apply after_desc_asym.
Qed.

Lemma cumsum_from_nth : forall xs acc n v,
  nth_error (Pandas.cumsum_from acc xs) n = Some v ->
  v = fold_left Py.fadd (firstn (S n) xs) acc.
Proof.
  induction xs as [|x xs IH]; intros acc n v H.
  - destruct n; discriminate H.
  - destruct n as [|n]; cbn in H.
    + inversion H. reflexivity.
    + apply IH in H. exact H.
Qed.

(** The entry of index [n] of a running sum is the left-to-right sum of
    the first [n + 1] values. *)
Lemma cumsum_nth : forall xs n v,
  nth_error (Pandas.cumsum xs) n = Some v ->
  v = Pandas.seq_sum (firstn (S n) xs).
Proof.
  intros [|x xs] n v H.
  - destruct n; discriminate H.
  - destruct n as [|n]; cbn in H.
    + inversion H. reflexivity.
    + apply cumsum_from_nth in H. exact H.
Qed.

Lemma cumsum_from_last : forall xs acc d,
  last (acc :: Pandas.cumsum_from acc xs) d = fold_left Py.fadd xs acc.
Proof.
  induction xs as [|x xs IH]; intros acc d; [reflexivity|].
  cbn [Pandas.cumsum_from fold_left].
  rewrite <- (IH (Py.fadd acc x) d). reflexivity.
Qed.

Lemma cumsum_last : forall xs d,
  xs <> [] -> last (Pandas.cumsum xs) d = Pandas.seq_sum xs.
Proof.
  intros [|x xs] d Hne; [congruence|]. apply cumsum_from_last.
Qed.

Lemma map_combine_fst : forall (A B : Type) (xs : list A) (ys : list B),
  List.length xs = List.length ys -> map fst (combine xs ys) = xs.
Proof.
  intros A B xs. induction xs as [|x xs IH]; intros [|y ys] H; simpl in *;
    try discriminate; [reflexivity | f_equal; apply IH; lia].
Qed.

Lemma map_combine_snd : forall (A B : Type) (xs : list A) (ys : list B),
  List.length xs = List.length ys -> map snd (combine xs ys) = ys.
Proof.
  intros A B xs. induction xs as [|x xs IH]; intros [|y ys] H; simpl in *;
    try discriminate; [reflexivity | f_equal; apply IH; lia].
Qed.

Lemma StronglySorted_map : forall (A B : Type) (f : A -> B) (R : B -> B -> Prop) (l : list A),
  StronglySorted R (map f l) <-> StronglySorted (fun a b => R (f a) (f b)) l.
Proof.
  intros A B f R l. induction l as [|x l IH]; simpl.
  - split; constructor.
  - split; intro H; inversion H; subst; constructor;
      try (apply IH; assumption);
      rewrite Forall_forall in *; intros.
    + match goal with H : forall _, In _ (map f l) -> _ |- _ =>
        apply H; apply in_map; assumption end.
    + match goal with H : In _ (map f l) |- _ =>
        apply in_map_iff in H; destruct H as (a & <- & Ha) end. auto.
Qed.

(** The shape of the dashboard's flow frame. *)
Lemma flow_df_shape : forall to_datetime rows flows,
  Dashboard.flow_df to_datetime rows = Ok flows ->
  exists dates,
    map_outcome (fun r => to_datetime (Dashboard.timestamp r)) rows = Ok dates
    /\ map (fun fr => (Dashboard.flow fr, Dashboard.datetime fr)) flows
       = Pandas.sort_values_asc (fun rd => Dashboard.block (fst rd)) (combine rows dates)
    /\ map Dashboard.cumulative_net_staked flows
       = Pandas.cumsum (map (fun fr => Dashboard.net_flow (Dashboard.flow fr)) flows).
Proof.
  intros to_datetime rows flows Hdf. unfold Dashboard.flow_df in Hdf.
  apply bind_Ok in Hdf. destruct Hdf as (rows' & Hcol & Hdf).
  apply column_Ok in Hcol. destruct Hcol as [-> _].
  apply bind_Ok in Hdf. destruct Hdf as (dates & Hdates & Hdf).
  exists dates. split; [exact Hdates|].
  inversion Hdf. clear Hdf.
  set (sorted := Pandas.sort_values_asc _ (combine rows dates)).
  set (sums := Pandas.cumsum _).
  assert (List.length sorted = List.length sums) as Hlen
      by (unfold sums; rewrite cumsum_length, length_map; reflexivity).
  assert (map (fun fr => (Dashboard.flow fr, Dashboard.datetime fr))
              (map (fun rds : Dashboard.flow_row * string * Py.float =>
                      {| Dashboard.flow := fst (fst rds);
                         Dashboard.datetime := snd (fst rds);
                         Dashboard.cumulative_net_staked := snd rds |})
                   (combine sorted sums)) = sorted) as Hfst.
  { rewrite map_map. cbn.
    rewrite <- (map_combine_fst _ _ sorted sums Hlen) at 2.
    apply map_ext. intros [[r d] s]. reflexivity. }
  split; [exact Hfst|].
  rewrite map_map. cbn.
  rewrite (map_ext _ snd) by (intros [[r d] s]; reflexivity).
  rewrite (map_combine_snd _ _ sorted sums Hlen).
  unfold sums. f_equal. rewrite map_map. cbn.
  rewrite <- (map_combine_fst _ _ sorted sums Hlen) at 1.
  rewrite map_map. apply map_ext. intros [[r d] s]. reflexivity.
Qed.

(** X15: the dashboard's flow frame holds the flow rows, each once, in
    ascending block order, every row dated from its own time stamp; the
    frame of no rows at all raises KeyError. *)
Theorem flow_df_sorted_complete : forall to_datetime rows flows,
  Dashboard.flow_df to_datetime rows = Ok flows ->
  Permutation (map Dashboard.flow flows) rows
  /\ StronglySorted
       (fun a b => Dashboard.block (Dashboard.flow a) <= Dashboard.block (Dashboard.flow b))
       flows
  /\ (forall fr, In fr flows ->
        to_datetime (Dashboard.timestamp (Dashboard.flow fr)) = Ok (Dashboard.datetime fr))
  /\ rows <> []
  /\ Dashboard.flow_df to_datetime [] = Raise KeyError.
Proof.
  intros to_datetime rows flows Hdf.
  destruct (flow_df_shape _ _ _ Hdf) as (dates & Hdates & Hsorted & _).
  pose proof (map_outcome_length _ _ _ _ _ Hdates) as Hlen.
  assert (Permutation (map (fun fr => (Dashboard.flow fr, Dashboard.datetime fr)) flows)
                      (combine rows dates)) as Hperm
      by (rewrite Hsorted; apply sort_by_perm).
  split.
  - rewrite <- (map_combine_fst _ _ rows dates (eq_sym Hlen)).
    rewrite <- (map_map (fun fr => (Dashboard.flow fr, Dashboard.datetime fr)) fst).
    apply Permutation_map. exact Hperm.
  - split.
    + apply (StronglySorted_map _ _ (fun fr => (Dashboard.flow fr, Dashboard.datetime fr))
               (fun a b => Dashboard.block (fst a) <= Dashboard.block (fst b))).
      rewrite Hsorted. apply sort_values_asc_sorted.
    + split; [|split; [|reflexivity]].
      * intros fr Hin.
        assert (In (Dashboard.flow fr, Dashboard.datetime fr) (combine rows dates)) as Hpair.
        { eapply Permutation_in; [exact Hperm|].
          apply (in_map (fun fr => (Dashboard.flow fr, Dashboard.datetime fr))). exact Hin. }
        clear - Hpair Hdates. revert dates Hdates Hpair.
        induction rows as [|r rows IH]; intros dates Hdates Hpair; [destruct Hpair|].
        cbn in Hdates. apply bind_Ok in Hdates. destruct Hdates as (d & Hd & Hdates).
        apply bind_Ok in Hdates. destruct Hdates as (ds & Hds & Hdates).
        inversion Hdates. subst dates. destruct Hpair as [Heq|Hpair].
        -- inversion Heq. subst. exact Hd.
        -- exact (IH ds Hds Hpair).
      * intros ->. unfold Dashboard.flow_df in Hdf. discriminate Hdf.
Qed.

Lemma flow_df_sorted_complete_witness :
  exists flows,
    Dashboard.flow_df Fixture.to_datetime_stub Sample.flow_rows = Ok flows
    /\ Permutation (map Dashboard.flow flows) Sample.flow_rows.
Proof.
  destruct (Dashboard.flow_df Fixture.to_datetime_stub Sample.flow_rows) as [flows|e] eqn:E.
  - exists flows. split; [reflexivity|].
    exact (proj1 (flow_df_sorted_complete Fixture.to_datetime_stub Sample.flow_rows flows E)).
  - exfalso. vm_compute in E. discriminate E.
Defined.

(** X16: in the dashboard's flow frame the cumulative column is the
    running float sum of the net flows in block order: the entry of a row
    is the left-to-right sum of the net flows of the rows up to it, and
    the last entry is that sum over the whole frame. *)
Theorem cumulative_is_prefix_sum : forall to_datetime rows flows,
  Dashboard.flow_df to_datetime rows = Ok flows ->
  (forall n fr,
      nth_error flows n = Some fr ->
      Dashboard.cumulative_net_staked fr
      = Pandas.seq_sum (map (fun r => Dashboard.net_flow (Dashboard.flow r))
                            (firstn (S n) flows)))
  /\ last (map Dashboard.cumulative_net_staked flows) Py.fzero
     = Pandas.seq_sum (map (fun r => Dashboard.net_flow (Dashboard.flow r)) flows).
Proof.
  intros to_datetime rows flows Hdf.
  destruct (flow_df_shape _ _ _ Hdf) as (dates & Hdates & Hsorted & Hcum).
  split.
  - intros n fr Hnth.
    apply (map_nth_error Dashboard.cumulative_net_staked) in Hnth.
    rewrite Hcum in Hnth. apply cumsum_nth in Hnth.
    rewrite firstn_map in Hnth. exact Hnth.
  - rewrite Hcum. apply cumsum_last.
    destruct flows as [|fr flows]; [|discriminate].
    exfalso. cbn in Hsorted.
    pose proof (Permutation_length
                  (sort_by_perm _ (fun x y : Dashboard.flow_row * string =>
                                     Dashboard.block (fst y) <? Dashboard.block (fst x))
                                (combine rows dates))) as Hp.
    unfold Pandas.sort_values_asc in Hsorted. rewrite <- Hsorted in Hp.
    apply map_outcome_length in Hdates.
    rewrite length_combine, Hdates, Nat.min_id in Hp.
    destruct rows; [discriminate Hdf | discriminate Hp].
Qed.

Lemma cumulative_is_prefix_sum_witness :
  exists flows,
    Dashboard.flow_df Fixture.to_datetime_stub Sample.flow_rows = Ok flows
    /\ last (map Dashboard.cumulative_net_staked flows) Py.fzero
       = Pandas.seq_sum (map (fun r => Dashboard.net_flow (Dashboard.flow r)) flows).
Proof.
  destruct (Dashboard.flow_df Fixture.to_datetime_stub Sample.flow_rows) as [flows|e] eqn:E.
  - exists flows. split; [reflexivity|].
    exact (proj2 (cumulative_is_prefix_sum Fixture.to_datetime_stub Sample.flow_rows flows E)).
  - exfalso. vm_compute in E. discriminate E.
Defined.

(** ** The tracker's frame and summary *)

Lemma all_rows_length : forall dep wth rew_i rew_w rows,
  Tracker.all_rows dep wth rew_i rew_w = Ok rows ->
  List.length rows
  = (List.length dep + List.length wth + List.length rew_i + List.length rew_w)%nat.
Proof.
  intros dep wth rew_i rew_w rows H. unfold Tracker.all_rows in H.
  apply bind_Ok in H. destruct H as (a & Ha & H).
  apply bind_Ok in H. destruct H as (b & Hb & H).
  apply bind_Ok in H. destruct H as (c & Hc & H).
  apply bind_Ok in H. destruct H as (d & Hd & H).
  inversion H. rewrite !length_app.
  rewrite (map_outcome_length _ _ _ _ _ Ha), (map_outcome_length _ _ _ _ _ Hb),
          (map_outcome_length _ _ _ _ _ Hc), (map_outcome_length _ _ _ _ _ Hd).
  lia.
Qed.

(** X17: the tracker leaves through [sys.exit] exactly when the four
    fetched lists are all empty; with any log at all it either builds a
    frame or raises. *)
Theorem tracker_exits_iff_no_logs :
  forall to_datetime fsum dep wth rew_i rew_w,
  TrackerFrame.main to_datetime fsum dep wth rew_i rew_w = Ok TrackerFrame.Exited
  <-> dep = [] /\ wth = [] /\ rew_i = [] /\ rew_w = [].
Proof.
  intros to_datetime fsum dep wth rew_i rew_w. split.
  - intro H. unfold TrackerFrame.main in H.
    apply bind_Ok in H. destruct H as (rows & Hrows & H).
    destruct rows as [|r rows].
    + apply all_rows_length in Hrows. cbn in Hrows.
      destruct dep, wth, rew_i, rew_w; cbn in Hrows; try lia. repeat split.
    + apply bind_Ok in H. destruct H as (df & _ & H). discriminate H.
  - intros (-> & -> & -> & ->). reflexivity.
Qed.

Lemma tracker_frame_shape : forall to_datetime rows df,
  TrackerFrame.frame to_datetime rows = Ok df ->
  exists dates,
    map_outcome (fun r => to_datetime (Tracker.timestamp r)) rows = Ok dates
    /\ map (fun fr => (TrackerFrame.base fr, TrackerFrame.datetime fr)) df
       = Pandas.sort_values_asc (fun rd => Tracker.block (fst rd)) (combine rows dates)
    /\ map TrackerFrame.cumulative_net_staked df
       = Pandas.cumsum (map (fun fr => Tracker.net_flow (TrackerFrame.base fr)) df).
Proof.
  intros to_datetime rows df Hdf. unfold TrackerFrame.frame in Hdf.
  apply bind_Ok in Hdf. destruct Hdf as (dates & Hdates & Hdf).
  exists dates. split; [exact Hdates|].
  inversion Hdf. clear Hdf.
  set (sorted := Pandas.sort_values_asc _ (combine rows dates)).
  set (sums := Pandas.cumsum _).
  assert (List.length sorted = List.length sums) as Hlen
      by (unfold sums; rewrite cumsum_length, length_map; reflexivity).
  assert (map (fun fr => (TrackerFrame.base fr, TrackerFrame.datetime fr))
              (map (fun rds : Tracker.row * string * Py.float =>
                      {| TrackerFrame.base := fst (fst rds);
                         TrackerFrame.datetime := snd (fst rds);
                         TrackerFrame.cumulative_net_staked := snd rds |})
                   (combine sorted sums)) = sorted) as Hfst.
  { rewrite map_map. cbn.
    rewrite <- (map_combine_fst _ _ sorted sums Hlen) at 2.
    apply map_ext. intros [[r d] s]. reflexivity. }
  split; [exact Hfst|].
  rewrite map_map. cbn.
  rewrite (map_ext _ snd) by (intros [[r d] s]; reflexivity).
  rewrite (map_combine_snd _ _ sorted sums Hlen).
  unfold sums. f_equal. rewrite map_map. cbn.
  rewrite <- (map_combine_fst _ _ sorted sums Hlen) at 1.
  rewrite map_map. apply map_ext. intros [[r d] s]. reflexivity.
Qed.

Lemma parse_deposit_event : forall l r,
  Tracker.parse_deposit l = Ok r -> Tracker.event r = "FundsDeposited".
Proof.
  intros l r H. unfold Tracker.parse_deposit in H.
  repeat (apply bind_Ok in H; destruct H as (? & _ & H)).
  inversion H. reflexivity.
Qed.

Lemma parse_withdrawal_event : forall l r,
  Tracker.parse_withdrawal l = Ok r -> Tracker.event r = "FundsWithdrawn".
Proof.
  intros l r H. unfold Tracker.parse_withdrawal in H.
  repeat (apply bind_Ok in H; destruct H as (? & _ & H)).
  inversion H. reflexivity.
Qed.

Lemma parse_reward_issued_event : forall l r,
  Tracker.parse_reward_issued l = Ok r -> Tracker.event r = "RewardsIssued".
Proof.
  intros l r H. unfold Tracker.parse_reward_issued in H.
  repeat (apply bind_Ok in H; destruct H as (? & _ & H)).
  inversion H. reflexivity.
Qed.

Lemma parse_reward_withdrawn_event : forall l r,
  Tracker.parse_reward_withdrawn l = Ok r -> Tracker.event r = "RewardsWithdrawn".
Proof.
  intros l r H. unfold Tracker.parse_reward_withdrawn in H.
  repeat (apply bind_Ok in H; destruct H as (? & _ & H)).
  inversion H. reflexivity.
Qed.

Lemma parsed_events : forall (parse : log -> outcome Tracker.row) (name : string) logs rows,
  (forall l r, parse l = Ok r -> Tracker.event r = name) ->
  map_outcome parse logs = Ok rows ->
  forall r, In r rows -> Tracker.event r = name.
Proof.
  intros parse name logs rows Hname Hmap r Hin.
  destruct (map_outcome_In_inv _ _ _ _ _ r Hmap Hin) as (l & _ & Hl).
  exact (Hname l r Hl).
Qed.

Lemma filter_length_all : forall (A : Type) (p : A -> bool) (l : list A),
  (forall x, In x l -> p x = true) -> List.length (filter p l) = List.length l.
Proof.
  intros A p l. induction l as [|x l IH]; intro H; simpl; [reflexivity|].
  rewrite (H x (or_introl eq_refl)). simpl. f_equal. apply IH.
  intros y Hy. apply H. right. exact Hy.
Qed.

Lemma filter_length_none : forall (A : Type) (p : A -> bool) (l : list A),
  (forall x, In x l -> p x = false) -> List.length (filter p l) = 0%nat.
Proof.
  intros A p l. induction l as [|x l IH]; intro H; simpl; [reflexivity|].
  rewrite (H x (or_introl eq_refl)). apply IH.
  intros y Hy. apply H. right. exact Hy.
Qed.

Lemma filter_length_perm : forall (A : Type) (p : A -> bool) (l l' : list A),
  Permutation l l' -> List.length (filter p l) = List.length (filter p l').
Proof.
  intros A p l l' H. induction H; simpl.
  - reflexivity.
  - destruct (p x); simpl; congruence.
  - destruct (p x), (p y); reflexivity.
  - congruence.
Qed.

Lemma filter_length_map : forall (A B : Type) (f : A -> B) (p : B -> bool) (l : list A),
  List.length (filter (fun x => p (f x)) l) = List.length (filter p (map f l)).
Proof.
  intros A B f p l. induction l as [|x l IH]; simpl; [reflexivity|].
  destruct (p (f x)); simpl; congruence.
Qed.

(** X18: when the tracker goes to its end, its frame holds the parsed
    rows of the four kinds, each once, in ascending block order; the net
    staked figure it prints is the left-to-right float sum of the net
    flows in that order; and the two counts it prints are the numbers of
    FundsDeposited and FundsWithdrawn logs fetched. *)
Theorem tracker_frame_and_summary :
  forall to_datetime fsum dep wth rew_i rew_w df s,
  TrackerFrame.main to_datetime fsum dep wth rew_i rew_w
  = Ok (TrackerFrame.Completed (df, s)) ->
  exists rows,
    Tracker.all_rows dep wth rew_i rew_w = Ok rows
    /\ Permutation (map TrackerFrame.base df) rows
    /\ StronglySorted
         (fun a b => Tracker.block (TrackerFrame.base a) <= Tracker.block (TrackerFrame.base b))
         df
    /\ TrackerFrame.net_staked s
       = Pandas.seq_sum (map (fun fr => Tracker.net_flow (TrackerFrame.base fr)) df)
    /\ TrackerFrame.n_deposits s = List.length dep
    /\ TrackerFrame.n_withdrawals s = List.length wth.
Proof.
  intros to_datetime fsum dep wth rew_i rew_w df s H. unfold TrackerFrame.main in H.
  apply bind_Ok in H. destruct H as (rows & Hrows & H).
  exists rows. split; [exact Hrows|].
  destruct rows as [|r0 rows0] eqn:Erows; [discriminate H|]. rewrite <- Erows in *.
  assert (rows <> []) as Hne by (rewrite Erows; discriminate).
  replace (match rows with [] => Ok TrackerFrame.Exited | _ :: _ =>
             df0 <- TrackerFrame.frame to_datetime rows ;;
             Ok (TrackerFrame.Completed (df0, TrackerFrame.summarize fsum df0)) end)
    with (df0 <- TrackerFrame.frame to_datetime rows ;;
          Ok (TrackerFrame.Completed (df0, TrackerFrame.summarize fsum df0))) in H
    by (rewrite Erows; reflexivity).
  clear Erows r0 rows0.
  apply bind_Ok in H. destruct H as (df0 & Hdf & H). inversion H. subst df0 s. clear H.
  destruct (tracker_frame_shape _ _ _ Hdf) as (dates & Hdates & Hsorted & Hcum).
  pose proof (map_outcome_length _ _ _ _ _ Hdates) as Hlen.
  assert (Permutation (map (fun fr => (TrackerFrame.base fr, TrackerFrame.datetime fr)) df)
                      (combine rows dates)) as Hperm
      by (rewrite Hsorted; apply sort_by_perm).
  assert (Permutation (map TrackerFrame.base df) rows) as Hbase.
  { rewrite <- (map_combine_fst _ _ rows dates (eq_sym Hlen)).
    rewrite <- (map_map (fun fr => (TrackerFrame.base fr, TrackerFrame.datetime fr)) fst).
    apply Permutation_map. exact Hperm. }
  split; [exact Hbase|]. split.
  { apply (StronglySorted_map _ _
             (fun fr => (TrackerFrame.base fr, TrackerFrame.datetime fr))
             (fun a b => Tracker.block (fst a) <= Tracker.block (fst b))).
    rewrite Hsorted. apply sort_values_asc_sorted. }
  split.
  { cbn [TrackerFrame.summarize TrackerFrame.net_staked]. rewrite Hcum.
    apply cumsum_last. intro Hnil. apply map_eq_nil in Hnil. subst df.
    apply Permutation_nil in Hbase. exact (Hne Hbase). }
  unfold Tracker.all_rows in Hrows.
  apply bind_Ok in Hrows. destruct Hrows as (a & Ha & Hrows).
  apply bind_Ok in Hrows. destruct Hrows as (b & Hb & Hrows).
  apply bind_Ok in Hrows. destruct Hrows as (c & Hc & Hrows).
  apply bind_Ok in Hrows. destruct Hrows as (d & Hd & Hrows).
  inversion Hrows as [Heq]. clear Hrows.
  pose proof (parsed_events _ _ _ _ parse_deposit_event Ha) as Ea.
  pose proof (parsed_events _ _ _ _ parse_withdrawal_event Hb) as Eb.
  pose proof (parsed_events _ _ _ _ parse_reward_issued_event Hc) as Ec.
  pose proof (parsed_events _ _ _ _ parse_reward_withdrawn_event Hd) as Ed.
  cbn [TrackerFrame.summarize TrackerFrame.n_deposits TrackerFrame.n_withdrawals].
  unfold TrackerFrame.of_event.
  rewrite (filter_length_map _ _ TrackerFrame.base (fun r => String.eqb (Tracker.event r) _)).
  rewrite (filter_length_map _ _ TrackerFrame.base (fun r => String.eqb (Tracker.event r) _)).
  rewrite !(filter_length_perm _ _ _ _ Hbase).
  rewrite <- Heq, !filter_app, !length_app.
  split.
  - rewrite (filter_length_all _ _ a), (filter_length_none _ _ b),
            (filter_length_none _ _ c), (filter_length_none _ _ d).
    + rewrite (map_outcome_length _ _ _ _ _ Ha). lia.
    + intros x Hx. rewrite (Ed x Hx). reflexivity.
    + intros x Hx. rewrite (Ec x Hx). reflexivity.
    + intros x Hx. rewrite (Eb x Hx). reflexivity.
    + intros x Hx. rewrite (Ea x Hx). reflexivity.
  - rewrite (filter_length_none _ _ a), (filter_length_all _ _ b),
            (filter_length_none _ _ c), (filter_length_none _ _ d).
    + rewrite (map_outcome_length _ _ _ _ _ Hb). lia.
    + intros x Hx. rewrite (Ed x Hx). reflexivity.
    + intros x Hx. rewrite (Ec x Hx). reflexivity.
    + intros x Hx. rewrite (Eb x Hx). reflexivity.
    + intros x Hx. rewrite (Ea x Hx). reflexivity.
Qed.

Lemma tracker_frame_and_summary_witness :
  exists df s,
    TrackerFrame.main Fixture.to_datetime_stub Pandas.seq_sum
                      Sample.dep_logs Sample.wth_logs [] []
    = Ok (TrackerFrame.Completed (df, s))
    /\ TrackerFrame.n_deposits s = List.length Sample.dep_logs
    /\ TrackerFrame.n_withdrawals s = List.length Sample.wth_logs.
Proof.
  destruct (TrackerFrame.main Fixture.to_datetime_stub Pandas.seq_sum
                              Sample.dep_logs Sample.wth_logs [] [])
    as [[|[df s]]|e] eqn:E.
  - exfalso. vm_compute in E. discriminate E.
  - exists df, s. split; [reflexivity|].
    destruct (tracker_frame_and_summary _ _ _ _ _ _ df s E)
      as (rows & _ & _ & _ & _ & Hd & Hw).
    split; [exact Hd | exact Hw].
  - exfalso. vm_compute in E. discriminate E.
Defined.

(** ** The owner table *)

Lemma Sorted_map : forall (A B : Type) (f : A -> B) (R : B -> B -> Prop) (l : list A),
  Sorted R (map f l) -> Sorted (fun a b => R (f a) (f b)) l.
Proof.
  intros A B f R l. induction l as [|x l IH]; simpl; intro H; [constructor|].
  inversion H as [|? ? Hs Hhd]; subst. constructor; [apply IH; exact Hs|].
  destruct l as [|y l]; constructor. inversion Hhd. assumption.
Qed.

Lemma ranked_ranks : forall (B : Type) (rows : list B),
  map fst (Pandas.ranked rows) = seq 1 (List.length (Pandas.ranked rows))
  /\ List.length (Pandas.ranked rows) = List.length rows.
Proof.
  intros B rows. unfold Pandas.ranked.
  assert (List.length (combine (seq 1 (List.length rows)) rows) = List.length rows) as Hlen
      by (rewrite length_combine, length_seq, Nat.min_id; reflexivity).
  split; [|exact Hlen].
  rewrite Hlen. apply map_combine_fst. apply length_seq.
Qed.

Lemma fold_min_le : forall l x,
  fold_left Z.min l x <= x /\ forall y, In y l -> fold_left Z.min l x <= y.
Proof.
  induction l as [|z l IH]; intro x; simpl.
  - split; [lia | intros y []].
  - destruct (IH (Z.min x z)) as [H1 H2]. split; [lia|].
    intros y [<-|Hy]; [lia | apply H2; exact Hy].
Qed.

Lemma fold_max_ge : forall l x,
  x <= fold_left Z.max l x /\ forall y, In y l -> y <= fold_left Z.max l x.
Proof.
  induction l as [|z l IH]; intro x; simpl.
  - split; [lia | intros y []].
  - destruct (IH (Z.max x z)) as [H1 H2]. split; [lia|].
    intros y [<-|Hy]; [lia | apply H2; exact Hy].
Qed.

Lemma fold_min_In : forall l x, In (fold_left Z.min l x) (x :: l).
Proof.
  induction l as [|z l IH]; intro x; simpl; [left; reflexivity|].
  destruct (IH (Z.min x z)) as [H|H].
  - destruct (Z.min_spec x z) as [[_ E]|[_ E]]; [left | right; left]; congruence.
  - right. right. exact H.
Qed.

Lemma fold_max_In : forall l x, In (fold_left Z.max l x) (x :: l).
Proof.
  induction l as [|z l IH]; intro x; simpl; [left; reflexivity|].
  destruct (IH (Z.max x z)) as [H|H].
  - destruct (Z.max_spec x z) as [[_ E]|[_ E]]; [right; left | left]; congruence.
  - right. right. exact H.
Qed.

Lemma min_spec : forall xs,
  xs <> [] -> In (Pandas.min_ xs) xs /\ forall y, In y xs -> Pandas.min_ xs <= y.
Proof.
  intros [|x l] Hne; [congruence|]. unfold Pandas.min_. split; [apply fold_min_In|].
  destruct (fold_min_le l x) as [H1 H2]. intros y [<-|Hy]; [exact H1 | apply H2; exact Hy].
Qed.

Lemma max_spec : forall xs,
  xs <> [] -> In (Pandas.max_ xs) xs /\ forall y, In y xs -> y <= Pandas.max_ xs.
Proof.
  intros [|x l] Hne; [congruence|]. unfold Pandas.max_. split; [apply fold_max_In|].
  destruct (fold_max_ge l x) as [H1 H2]. intros y [<-|Hy]; [exact H1 | apply H2; exact Hy].
Qed.

Section OwnerTable.
Context {A : Type}.
Variable owner : A -> option string.
Variable expiry : A -> Z.
Variable agg : string * list A -> owner_summary.
Hypothesis agg_key : forall g, owner_key (agg g) = fst g.
Hypothesis agg_count : forall g, num_positions (agg g) = List.length (snd g).
Hypothesis agg_min : forall g, earliest_unlock (agg g) = Pandas.min_ (map expiry (snd g)).
Hypothesis agg_max : forall g, latest_unlock (agg g) = Pandas.max_ (map expiry (snd g)).

Abbreviation table_of rows :=
  (Pandas.ranked (Pandas.sort_values_desc total_staked (map agg (Pandas.groupby owner rows)))).

Lemma table_keys_perm : forall rows,
  Permutation (map (fun o => owner_key (snd o)) (table_of rows))
              (Pandas.group_keys owner rows).
Proof.
  intro rows.
  rewrite <- (map_map snd owner_key), ranked_rows.
  eapply perm_trans; [apply Permutation_map; apply sort_by_perm|].
  unfold Pandas.groupby. rewrite !map_map.
  rewrite (map_ext _ (fun k => k)) by (intro k; rewrite agg_key; reflexivity).
  rewrite map_id. apply Permutation_refl.
Qed.

Lemma table_row_group : forall rows o,
  In o (table_of rows) ->
  In (owner_key (snd o)) (Pandas.group_keys owner rows)
  /\ snd o = agg (owner_key (snd o), filter (Pandas.has_key owner (owner_key (snd o))) rows).
Proof.
  intros rows o Hin.
  assert (In (snd o) (map agg (Pandas.groupby owner rows))) as Hs.
  { pose proof (in_map snd _ _ Hin) as Hs. rewrite ranked_rows in Hs.
    unfold Pandas.sort_values_desc in Hs.
    exact (Permutation_in _ (sort_by_perm _ _ _) Hs). }
  apply in_map_iff in Hs. destruct Hs as (g & Hagg & Hg).
  unfold Pandas.groupby in Hg. apply in_map_iff in Hg. destruct Hg as (k & <- & Hk).
  rewrite <- Hagg, agg_key. cbn [fst]. split; [exact Hk | reflexivity].
Qed.

Lemma table_structure : forall rows,
  NoDup (map (fun o => owner_key (snd o)) (table_of rows))
  /\ (forall k, In k (map (fun o => owner_key (snd o)) (table_of rows))
                <-> exists r, In r rows /\ owner r = Some k)
  /\ map fst (table_of rows) = seq 1 (List.length (table_of rows))
  /\ (forall o, In o (table_of rows) -> (1 <= num_positions (snd o))%nat)
  /\ Sorted (fun a b => Pandas.after_desc (total_staked (snd a)) (total_staked (snd b))
                        = false)
            (table_of rows).
Proof.
  intro rows. split; [|split; [|split; [|split]]].
  - eapply Permutation_NoDup; [apply Permutation_sym; apply table_keys_perm|].
    apply group_keys_NoDup.
  - intro k. rewrite <- (group_keys_In owner rows k). split; intro H.
    + eapply Permutation_in; [apply table_keys_perm | exact H].
    + eapply Permutation_in; [apply Permutation_sym; apply table_keys_perm | exact H].
  - apply ranked_ranks.
  - intros o Hin. destruct (table_row_group rows o Hin) as [Hk Ho].
    rewrite Ho, agg_count. cbn [snd].
    apply group_keys_In in Hk. destruct Hk as (r & Hr & Hkey).
    assert (In r (filter (Pandas.has_key owner (owner_key (snd o))) rows)) as Hf
        by (apply filter_In; split; [exact Hr | apply has_key_iff; exact Hkey]).
    destruct (filter _ rows); [destruct Hf | simpl; lia].
  - apply (Sorted_map _ _ snd
             (fun a b => Pandas.after_desc (total_staked a) (total_staked b) = false)).
    rewrite ranked_rows. apply sort_values_desc_sorted.
Qed.

Lemma table_unlock_bounds : forall rows o r,
  In o (table_of rows) ->
  In r rows ->
  owner r = Some (owner_key (snd o)) ->
  earliest_unlock (snd o) <= expiry r <= latest_unlock (snd o)
  /\ (exists r1, In r1 rows /\ owner r1 = Some (owner_key (snd o))
                 /\ expiry r1 = earliest_unlock (snd o))
  /\ (exists r2, In r2 rows /\ owner r2 = Some (owner_key (snd o))
                 /\ expiry r2 = latest_unlock (snd o)).
Proof.
  intros rows o r Hin Hr Hown.
  destruct (table_row_group rows o Hin) as [_ Ho].
  set (k := owner_key (snd o)) in *.
  set (members := filter (Pandas.has_key owner k) rows) in *.
  assert (In r members) as Hmem
      by (apply filter_In; split; [exact Hr | apply has_key_iff; exact Hown]).
  assert (map expiry members <> []) as Hne
      by (destruct members; [destruct Hmem | discriminate]).
  destruct (min_spec _ Hne) as [Hmin_in Hmin_le].
  destruct (max_spec _ Hne) as [Hmax_in Hmax_le].
  rewrite Ho, agg_min, agg_max. cbn [snd].
  split; [split; [apply Hmin_le | apply Hmax_le]; apply in_map; exact Hmem|].
  split.
  - apply in_map_iff in Hmin_in. destruct Hmin_in as (r1 & E1 & H1).
    apply filter_In in H1. destruct H1 as [H1 K1]. apply has_key_iff in K1.
    exists r1. repeat split; assumption.
  - apply in_map_iff in Hmax_in. destruct Hmax_in as (r2 & E2 & H2).
    apply filter_In in H2. destruct H2 as [H2 K2]. apply has_key_iff in K2.
    exists r2. repeat split; assumption.
Qed.
End OwnerTable.

(** X19: the owner table has one row per owner: the owners of its rows
    are distinct and are exactly the owners recorded on the rows it is
    built from; the ranks run from 1 to the number of rows; every row
    counts at least one position; and no row is directly followed by a
    row with a larger total.  This holds for the dashboard and for the
    report. *)
Theorem owner_table_structure : forall fsum,
  (forall active,
      let table := Dashboard.owner_df fsum active in
      NoDup (map (fun o => owner_key (snd o)) table)
      /\ (forall k, In k (map (fun o => owner_key (snd o)) table)
                    <-> exists r, In r active /\ Dashboard.row_owner r = Some k)
      /\ map fst table = seq 1 (List.length table)
      /\ (forall o, In o table -> (1 <= num_positions (snd o))%nat)
      /\ Sorted (fun a b => Pandas.after_desc (total_staked (snd a)) (total_staked (snd b))
                            = false) table)
  /\ (forall pos_df,
      let table := TopStakers.owner_df fsum pos_df in
      NoDup (map (fun o => owner_key (snd o)) table)
      /\ (forall k, In k (map (fun o => owner_key (snd o)) table)
                    <-> exists r, In r pos_df /\ TopStakers.owner r = Some k)
      /\ map fst table = seq 1 (List.length table)
      /\ (forall o, In o table -> (1 <= num_positions (snd o))%nat)
      /\ Sorted (fun a b => Pandas.after_desc (total_staked (snd a)) (total_staked (snd b))
                            = false) table).
Proof.
  intro fsum. split.
  - intro active.
    exact (table_structure Dashboard.row_owner (Dashboard.agg fsum)
                           (fun g => eq_refl) (fun g => eq_refl) active).
  - intro pos_df.
    exact (table_structure TopStakers.owner (TopStakers.agg fsum)
                           (fun g => eq_refl) (fun g => eq_refl) pos_df).
Qed.

(** X20: in a row of the dashboard's owner table the earliest and the
    latest unlock bracket the expiry of every position of that owner in
    the active frame, and each is the expiry of one of them. *)
Theorem dashboard_unlock_bounds : forall fsum active o r,
  In o (Dashboard.owner_df fsum active) ->
  In r active ->
  Dashboard.row_owner r = Some (owner_key (snd o)) ->
  earliest_unlock (snd o) <= Dashboard.expiry_ts (Dashboard.base r) <= latest_unlock (snd o)
  /\ (exists r1, In r1 active /\ Dashboard.row_owner r1 = Some (owner_key (snd o))
                 /\ Dashboard.expiry_ts (Dashboard.base r1) = earliest_unlock (snd o))
  /\ (exists r2, In r2 active /\ Dashboard.row_owner r2 = Some (owner_key (snd o))
                 /\ Dashboard.expiry_ts (Dashboard.base r2) = latest_unlock (snd o)).
Proof.
  intros fsum active o r.
  exact (table_unlock_bounds Dashboard.row_owner
           (fun r => Dashboard.expiry_ts (Dashboard.base r)) (Dashboard.agg fsum)
           (fun g => eq_refl) (fun g => eq_refl) (fun g => eq_refl) active o r).
Qed.

(** X21: in a row of the report's owner table the earliest and the
    latest unlock bracket the expiry of every position of that owner in
    the positions frame, and each is the expiry of one of them. *)
Theorem report_unlock_bounds : forall fsum pos_df o p,
  In o (TopStakers.owner_df fsum pos_df) ->
  In p pos_df ->
  TopStakers.owner p = Some (owner_key (snd o)) ->
  earliest_unlock (snd o) <= TopStakers.expiry_ts p <= latest_unlock (snd o)
  /\ (exists p1, In p1 pos_df /\ TopStakers.owner p1 = Some (owner_key (snd o))
                 /\ TopStakers.expiry_ts p1 = earliest_unlock (snd o))
  /\ (exists p2, In p2 pos_df /\ TopStakers.owner p2 = Some (owner_key (snd o))
                 /\ TopStakers.expiry_ts p2 = latest_unlock (snd o)).
Proof.
  intros fsum pos_df o p.
  exact (table_unlock_bounds TopStakers.owner TopStakers.expiry_ts (TopStakers.agg fsum)
           (fun g => eq_refl) (fun g => eq_refl) (fun g => eq_refl) pos_df o p).
Qed.

Lemma dashboard_unlock_bounds_witness :
  earliest_unlock (Fixture.summary_of_one "0xa")
  <= Dashboard.expiry_ts (Dashboard.base (Fixture.pos_row_of 2 (Some "0xa") Fixture.one))
  <= latest_unlock (Fixture.summary_of_one "0xa").
Proof.
  assert (In (1%nat, Fixture.summary_of_one "0xa")
             (Dashboard.owner_df Pandas.seq_sum Fixture.active_rows)) as Hin
      by (vm_compute; left; reflexivity).
  assert (In (Fixture.pos_row_of 2 (Some "0xa") Fixture.one) Fixture.active_rows) as Hr
      by (right; left; reflexivity).
  exact (proj1 (dashboard_unlock_bounds Pandas.seq_sum Fixture.active_rows _ _
                                        Hin Hr eq_refl)).
Defined.

Lemma report_unlock_bounds_witness :
  earliest_unlock (Fixture.summary_of_one "0xa")
  <= TopStakers.expiry_ts (Fixture.position_of 2 (Some "0xa") Fixture.one)
  <= latest_unlock (Fixture.summary_of_one "0xa").
Proof.
  assert (In (1%nat, Fixture.summary_of_one "0xa")
             (TopStakers.owner_df Pandas.seq_sum Fixture.active_positions)) as Hin
      by (vm_compute; left; reflexivity).
  assert (In (Fixture.position_of 2 (Some "0xa") Fixture.one) Fixture.active_positions) as Hr
      by (right; left; reflexivity).
  exact (proj1 (report_unlock_bounds Pandas.seq_sum Fixture.active_positions _ _
                                     Hin Hr eq_refl)).
Defined.

Lemma format_unlock_unlocked_iff_witness :
  Dashboard.format_unlock 1700000000 1700000000 = "UNLOCKED".
Proof.
  apply (proj1 (format_unlock_unlocked_iff 1700000000 1700000000)). lia.
Defined.

Lemma tracker_exits_iff_no_logs_witness :
  TrackerFrame.main Fixture.to_datetime_stub Pandas.seq_sum [] [] [] []
  = Ok TrackerFrame.Exited.
Proof.
  apply (proj2 (tracker_exits_iff_no_logs Fixture.to_datetime_stub Pandas.seq_sum
                                          [] [] [] [])).
  repeat split.
Defined.

Lemma owner_table_structure_witness :
  NoDup (map (fun o => owner_key (snd o))
             (Dashboard.owner_df Pandas.seq_sum Fixture.active_rows)).
Proof.
  exact (proj1 (proj1 (owner_table_structure Pandas.seq_sum) Fixture.active_rows)).
Defined.

(** ** Empty inputs *)

Lemma keys_nil : forall (V : Type) (t : Dict.t V), Dict.keys t = [] -> t = [].
Proof. intros V [|kv t] H; [reflexivity | discriminate H]. Qed.

(** X22: without data nothing is produced: with no flow log at all
    [load_data] raises KeyError; with no PositionCreated log neither
    [load_data] nor the report's [main] ever returns a result, and when
    the report's loops go through, what it raises is KeyError. *)
Theorem no_positions_no_output :
  forall now NOW to_checksum_address strftime_utc to_datetime decode_utf8_replace fsum,
  (forall pc tr,
      Dashboard.load_data now to_datetime decode_utf8_replace fsum [] [] [] [] pc tr
      = Raise KeyError)
  /\ (forall dep wth rew_i rew_w tr r,
      Dashboard.load_data now to_datetime decode_utf8_replace fsum dep wth rew_i rew_w [] tr
      <> Ok r)
  /\ (forall tr dep wth r,
      TopStakers.main NOW to_checksum_address strftime_utc decode_utf8_replace fsum
                      [] tr dep wth <> Ok r)
  /\ (forall tr dep wth T,
      TopStakers.positions_of NOW to_checksum_address strftime_utc decode_utf8_replace
                              [] tr dep wth = Ok T ->
      TopStakers.main NOW to_checksum_address strftime_utc decode_utf8_replace fsum
                      [] tr dep wth = Raise KeyError).
Proof.
  intros now NOW tca strf td dec fsum.
  assert (forall tr dep wth T,
             TopStakers.positions_of NOW tca strf dec [] tr dep wth = Ok T -> T = []) as Hrep.
  { intros tr dep wth T HT.
    destruct (report_keys_from_creation NOW tca strf dec _ _ _ _ T HT) as (T0 & H0 & Hk).
    inversion H0. subst T0. apply keys_nil. exact Hk. }
  split; [reflexivity|]. split; [|split].
  - intros dep wth rew_i rew_w tr r H. unfold Dashboard.load_data in H.
    apply bind_Ok in H. destruct H as (rows & _ & H).
    apply bind_Ok in H. destruct H as (flows & _ & H).
    apply bind_Ok in H. destruct H as (T & HT & H).
    apply bind_Ok in H. destruct H as (frame & Hframe & _).
    destruct (dashboard_keys_from_creation dec _ _ _ _ T HT) as (T0 & H0 & Hk).
    inversion H0. subst T0. apply keys_nil in Hk. subst T. discriminate Hframe.
  - intros tr dep wth r H. unfold TopStakers.main in H.
    apply bind_Ok in H. destruct H as (T & HT & H).
    apply bind_Ok in H. destruct H as (active & Hactive & _).
    rewrite (Hrep _ _ _ _ HT) in Hactive. discriminate Hactive.
  - intros tr dep wth T HT. unfold TopStakers.main. rewrite HT.
    rewrite (Hrep _ _ _ _ HT). reflexivity.
Qed.

Lemma no_positions_no_output_witness :
  TopStakers.main Fixture.NOW Fixture.checksum_stub Fixture.strftime_stub
                  Fixture.decode_stub Pandas.seq_sum
                  [] [Fixture.transfer_log 11 1] [] []
  = Raise KeyError.
Proof.
  assert (TopStakers.positions_of Fixture.NOW Fixture.checksum_stub Fixture.strftime_stub
                                  Fixture.decode_stub [] [Fixture.transfer_log 11 1] [] []
          = Ok []) as H by (vm_compute; reflexivity).
  exact (proj2 (proj2 (proj2 (no_positions_no_output
                                0 Fixture.NOW Fixture.checksum_stub Fixture.strftime_stub
                                Fixture.to_datetime_stub Fixture.decode_stub Pandas.seq_sum)))
               _ _ _ _ H).
Defined.

(** ** What a fetch returns *)

(** X23: whatever [fetch_logs] returns was served by the source: the
    result is the records gathered before, followed by records that each
    lie on a page answered with status 1; nothing is made up, reordered
    within what was gathered, or dropped from it. *)
Theorem fetched_records_come_from_pages : forall fuel src k acc fb logs,
  Tracker.fetch_loop fuel src k acc fb = Some (Ok logs) ->
  exists more,
    logs = acc ++ more
    /\ forall l, In l more ->
         exists k' fb' resp,
           src k' fb' = Reply resp /\ status_is_1 resp = true /\ In l (page resp).
Proof.
  induction fuel as [|fuel IH]; intros src k acc fb logs H; [discriminate H|].
  rewrite fetch_loop_S in H.
  destruct (src k fb) as [resp|e] eqn:Esrc; [|discriminate H].
  destruct (negb (status_is_1 resp) || falsy (page resp)) eqn:Estop.
  - inversion H. subst logs. exists []. split; [symmetry; apply app_nil_r | intros l []].
  - apply orb_false_elim in Estop. destruct Estop as [Est _].
    apply negb_false_iff in Est.
    assert (forall l, In l (page resp) ->
              exists k' fb' resp',
                src k' fb' = Reply resp' /\ status_is_1 resp' = true /\ In l (page resp'))
      as Hpage by (intros l Hl; exists k, fb, resp; repeat split; assumption).
    destruct (1000 <=? List.length (page resp))%nat.
    + destruct (l <- Py.index (page resp) (List.length (page resp) - 1) ;;
                Py.int16 (blockNumber l)) as [b|e]; [|discriminate H].
      destruct (IH _ _ _ _ _ H) as (more & -> & Hmore).
      exists (page resp ++ more). split; [symmetry; apply app_assoc|].
      intros l Hl. apply in_app_or in Hl. destruct Hl as [Hl|Hl]; [apply Hpage | apply Hmore];
        exact Hl.
    + inversion H. subst logs. exists (page resp). split; [reflexivity | exact Hpage].
Qed.

Lemma fetched_records_come_from_pages_witness :
  exists more,
    [Fixture.mk_log 5 0; Fixture.mk_log 6 1] = [] ++ more
    /\ forall l, In l more ->
         exists k' fb' resp,
           Fixture.capped_source [Fixture.mk_log 5 0; Fixture.mk_log 6 1] k' fb' = Reply resp
           /\ status_is_1 resp = true /\ In l (page resp).
Proof.
  assert (Tracker.fetch_loop 1 (Fixture.capped_source [Fixture.mk_log 5 0; Fixture.mk_log 6 1])
                             0 [] 0
          = Some (Ok [Fixture.mk_log 5 0; Fixture.mk_log 6 1])) as H
      by (vm_compute; reflexivity).
  exact (fetched_records_come_from_pages _ _ _ _ _ _ H).
Defined.

(** X24: what a failure costs depends on its form.  After a full page,
    an error body or an empty answer to the next request ends the fetch
    quietly with the records of the pages before it, so the result is
    silently short; a request that raises, or a last record whose block
    number is not a hex number, loses every record gathered. *)
Theorem failure_after_full_page : forall fuel src k acc fb resp l,
  src k fb = Reply resp ->
  status_is_1 resp = true ->
  (1000 <= List.length (page resp))%nat ->
  Py.index (page resp) (List.length (page resp) - 1) = Ok l ->
  (forall b resp',
      Py.int16 (blockNumber l) = Ok b ->
      src (S k) (b + 1) = Reply resp' ->
      status_is_1 resp' = false \/ page resp' = [] ->
      Tracker.fetch_loop (S (S fuel)) src k acc fb = Some (Ok (acc ++ page resp)))
  /\ (forall b e,
      Py.int16 (blockNumber l) = Ok b ->
      src (S k) (b + 1) = Throws e ->
      Tracker.fetch_loop (S (S fuel)) src k acc fb = Some (Raise e))
  /\ (forall e,
      Py.int16 (blockNumber l) = Raise e ->
      Tracker.fetch_loop (S (S fuel)) src k acc fb = Some (Raise e)).
Proof.
  intros fuel src k acc fb resp l Hsrc Hst Hlen Hidx. split; [|split].
  - intros b resp' Hb Hnext Hend.
    rewrite (fetch_loop_full_page _ _ _ _ _ _ _ _ Hsrc Hst Hlen Hidx Hb).
    rewrite fetch_loop_S, Hnext. destruct Hend as [Hs|Hp].
    + rewrite Hs. reflexivity.
    + rewrite Hp. cbn [falsy]. rewrite orb_true_r. reflexivity.
  - intros b e Hb Hnext.
    rewrite (fetch_loop_full_page _ _ _ _ _ _ _ _ Hsrc Hst Hlen Hidx Hb).
    rewrite fetch_loop_S, Hnext. reflexivity.
  - intros e He. rewrite fetch_loop_S, Hsrc, Hst.
    destruct (falsy (page resp)) eqn:Hf.
    + apply falsy_nil in Hf. rewrite Hf in Hlen. simpl in Hlen. lia.
    + apply Nat.leb_le in Hlen. rewrite Hlen, Hidx. cbn [negb orb bind]. rewrite He.
      reflexivity.
Qed.

Lemma failure_after_full_page_witness :
  Tracker.fetch_loop 2 (Sample.cut_source (Reply {| status := Some "0"; result := None |}))
                     0 [] 0
  = Some (Ok ([] ++ page Sample.full_page))
  /\ Tracker.fetch_loop 2 (Sample.cut_source (Throws RequestException)) 0 [] 0
     = Some (Raise RequestException).
Proof.
  assert (status_is_1 Sample.full_page = true) as Hst by reflexivity.
  assert (1000 <= List.length (page Sample.full_page))%nat as Hlen
      by (apply Nat.leb_le; vm_compute; reflexivity).
  assert (Py.index (page Sample.full_page) (List.length (page Sample.full_page) - 1)
          = Ok (Fixture.mk_log 500 999)) as Hidx by (vm_compute; reflexivity).
  assert (Py.int16 (blockNumber (Fixture.mk_log 500 999)) = Ok 500) as Hb
      by (vm_compute; reflexivity).
  split.
  - exact (proj1 (failure_after_full_page
                    0 (Sample.cut_source (Reply {| status := Some "0"; result := None |}))
                    0 [] 0 Sample.full_page (Fixture.mk_log 500 999)
                    eq_refl Hst Hlen Hidx)
                 500 {| status := Some "0"; result := None |} Hb eq_refl
                 (or_introl eq_refl)).
  - exact (proj1 (proj2 (failure_after_full_page
                           0 (Sample.cut_source (Throws RequestException))
                           0 [] 0 Sample.full_page (Fixture.mk_log 500 999)
                           eq_refl Hst Hlen Hidx))
                 500 RequestException Hb eq_refl).
Defined.

(** ** The frames of positions *)

(** X25: the report's positions frame holds exactly the positions of the
    dict whose net deposit is above zero, each once, and no row is
    directly followed by one with a larger net deposit; a position with a
    zero, negative or NaN balance is left out; an empty dict raises
    KeyError. *)
Theorem report_pos_df_active : forall positions rows,
  TopStakers.pos_df positions = Ok rows ->
  Permutation rows (filter TopStakers.is_active (Dict.values positions))
  /\ (forall p, In p rows <->
                In p (Dict.values positions)
                /\ Py.flt Py.fzero (TopStakers.net_deposited p) = true)
  /\ Sorted (fun a b => Pandas.after_desc (TopStakers.net_deposited a)
                                          (TopStakers.net_deposited b) = false) rows
  /\ positions <> []
  /\ TopStakers.pos_df [] = Raise KeyError.
Proof.
  intros positions rows H. unfold TopStakers.pos_df in H.
  apply bind_Ok in H. destruct H as (vals & Hcol & H).
  apply column_Ok in Hcol. destruct Hcol as [-> Hne].
  inversion H. clear H.
  assert (Permutation (Pandas.sort_values_desc TopStakers.net_deposited
                         (filter TopStakers.is_active (Dict.values positions)))
                      (filter TopStakers.is_active (Dict.values positions))) as Hperm
      by apply sort_by_perm.
  split; [exact Hperm|]. split; [|split; [|split]].
  - intro p. split; intro Hp.
    + apply (Permutation_in _ Hperm) in Hp. apply filter_In in Hp. exact Hp.
    + apply (Permutation_in _ (Permutation_sym Hperm)). apply filter_In. exact Hp.
  - apply sort_values_desc_sorted.
  - intros ->. apply Hne. reflexivity.
  - reflexivity.
Qed.

Lemma report_pos_df_active_witness :
  Permutation [Fixture.position_of 1 None Fixture.one]
              (filter TopStakers.is_active
                      (Dict.values [(1, Fixture.position_of 1 None Fixture.one);
                                    (2, Fixture.position_of 2 None Py.fzero)])).
Proof.
  assert (TopStakers.pos_df [(1, Fixture.position_of 1 None Fixture.one);
                             (2, Fixture.position_of 2 None Py.fzero)]
          = Ok [Fixture.position_of 1 None Fixture.one]) as H by (vm_compute; reflexivity).
  exact (proj1 (report_pos_df_active _ _ H)).
Defined.

Lemma pos_df_bases : forall now to_datetime positions frame,
  Dashboard.pos_df now to_datetime positions = Ok frame ->
  map Dashboard.base frame = Dict.values positions.
Proof.
  intros now to_datetime positions frame H. unfold Dashboard.pos_df in H.
  apply bind_Ok in H. destruct H as (vals & Hcol & H).
  apply column_Ok in Hcol. destruct Hcol as [-> _].
  revert frame H. induction (Dict.values positions) as [|p ps IH]; intros frame H; cbn in H.
  - inversion H. reflexivity.
  - apply bind_Ok in H. destruct H as (r & Hr & H).
    apply bind_Ok in H. destruct H as (rs & Hrs & H).
    inversion H. subst frame. cbn. f_equal; [|apply IH; exact Hrs].
    apply bind_Ok in Hr. destruct Hr as (utc & _ & Hr). inversion Hr. reflexivity.
Qed.

Lemma map_filter_comm : forall (A B : Type) (f : A -> B) (p : B -> bool) (l : list A),
  map f (filter (fun x => p (f x)) l) = filter p (map f l).
Proof.
  intros A B f p l. induction l as [|x l IH]; simpl; [reflexivity|].
  destruct (p (f x)); simpl; congruence.
Qed.

(** X26: what [load_data] returns, in terms of its parts: the flow frame
    is built from the flow rows of the four kinds and has one row per
    fetched flow log; the active frame lists, in the order of the
    positions dict, the positions whose net deposit is above zero; and
    the owner table is the aggregation of that active frame. *)
Theorem load_data_frames :
  forall now to_datetime decode_utf8_replace fsum dep wth rew_i rew_w pc tr
         flows active owners,
  Dashboard.load_data now to_datetime decode_utf8_replace fsum dep wth rew_i rew_w pc tr
  = Ok (flows, active, owners) ->
  exists rows T,
    Dashboard.flow_rows dep wth rew_i rew_w = Ok rows
    /\ Dashboard.flow_df to_datetime rows = Ok flows
    /\ List.length flows
       = (List.length dep + List.length wth + List.length rew_i + List.length rew_w)%nat
    /\ Dashboard.positions_of decode_utf8_replace pc tr dep wth = Ok T
    /\ map Dashboard.base active
       = filter (fun p => Py.flt Py.fzero (Dashboard.net_deposited p)) (Dict.values T)
    /\ owners = Dashboard.owner_df fsum active.
Proof.
  intros now td dec fsum dep wth rew_i rew_w pc tr flows active owners H.
  unfold Dashboard.load_data in H.
  apply bind_Ok in H. destruct H as (rows & Hrows & H).
  apply bind_Ok in H. destruct H as (flows0 & Hflows & H).
  apply bind_Ok in H. destruct H as (T & HT & H).
  apply bind_Ok in H. destruct H as (frame & Hframe & H).
  inversion H. subst flows0 active owners. clear H.
  exists rows, T. split; [exact Hrows|]. split; [exact Hflows|]. split.
  - destruct (flow_df_shape _ _ _ Hflows) as (dates & Hdates & Hsorted & _).
    apply (f_equal (@List.length _)) in Hsorted.
    rewrite length_map in Hsorted. rewrite Hsorted.
    unfold Pandas.sort_values_asc. rewrite (Permutation_length (sort_by_perm _ _ _)).
    rewrite length_combine, (map_outcome_length _ _ _ _ _ Hdates), Nat.min_id.
    clear - Hrows. unfold Dashboard.flow_rows in Hrows.
    apply bind_Ok in Hrows. destruct Hrows as (a & Ha & Hrows).
    apply bind_Ok in Hrows. destruct Hrows as (b & Hb & Hrows).
    apply bind_Ok in Hrows. destruct Hrows as (c & Hc & Hrows).
    apply bind_Ok in Hrows. destruct Hrows as (d & Hd & Hrows).
    inversion Hrows. rewrite !length_app.
    rewrite (map_outcome_length _ _ _ _ _ Ha), (map_outcome_length _ _ _ _ _ Hb),
            (map_outcome_length _ _ _ _ _ Hc), (map_outcome_length _ _ _ _ _ Hd).
    lia.
  - split; [exact HT|]. split; [|reflexivity].
    unfold Dashboard.active_df, Dashboard.is_active.
    rewrite (map_filter_comm _ _ Dashboard.base
               (fun p => Py.flt Py.fzero (Dashboard.net_deposited p))).
    rewrite (pos_df_bases _ _ _ _ Hframe). reflexivity.
Qed.

Lemma load_data_frames_witness :
  exists flows active owners,
    Dashboard.load_data Fixture.NOW Fixture.to_datetime_stub Fixture.decode_stub
                        Pandas.seq_sum Sample.dep_logs Sample.wth_logs [] []
                        [Fixture.created_log 1 1700000100 Fixture.label_v1]
                        [Fixture.transfer_log 11 1]
    = Ok (flows, active, owners)
    /\ List.length flows = 2%nat.
Proof.
  destruct (Dashboard.load_data Fixture.NOW Fixture.to_datetime_stub Fixture.decode_stub
                                Pandas.seq_sum Sample.dep_logs Sample.wth_logs [] []
                                [Fixture.created_log 1 1700000100 Fixture.label_v1]
                                [Fixture.transfer_log 11 1])
    as [[[flows active] owners]|e] eqn:E.
  - exists flows, active, owners. split; [reflexivity|].
    destruct (load_data_frames _ _ _ _ _ _ _ _ _ _ _ _ _ E) as (rows & T & _ & _ & Hlen & _).
    exact Hlen.
  - exfalso. vm_compute in E. discriminate E.
Defined.

(** ** The tracker and the dashboard chart the same series *)

Lemma map_outcome_rel : forall (A B C : Type) (f : A -> outcome B) (g : A -> outcome C)
                               (R : B -> C -> Prop) (xs : list A) (ys : list B),
  (forall x y, f x = Ok y -> exists z, g x = Ok z /\ R y z) ->
  map_outcome f xs = Ok ys ->
  exists zs, map_outcome g xs = Ok zs /\ Forall2 R ys zs.
Proof.
  intros A B C f g R xs. induction xs as [|x xs IH]; intros ys Hstep H; cbn in H.
  - inversion H. exists []. split; [reflexivity | constructor].
  - apply bind_Ok in H. destruct H as (y & Hy & H).
    apply bind_Ok in H. destruct H as (ys0 & Hys0 & H). inversion H. subst ys.
    destruct (Hstep x y Hy) as (z & Hz & Hr).
    destruct (IH ys0 Hstep Hys0) as (zs & Hzs & Hrs).
    exists (z :: zs). cbn. rewrite Hz. cbn. rewrite Hzs. cbn.
    split; [reflexivity | constructor; assumption].
Qed.

Lemma flow_of_deposit : forall l r,
  Tracker.parse_deposit l = Ok r ->
  exists f, Dashboard.flow_of "Deposit" (fun funds => funds) l = Ok f /\ same_flow r f.
Proof.
  intros l r H. unfold Tracker.parse_deposit in H.
  apply bind_Ok in H. destruct H as (t1 & _ & H).
  apply bind_Ok in H. destruct H as (pid & _ & H).
  apply bind_Ok in H. destruct H as (w0 & Hw0 & H).
  apply bind_Ok in H. destruct H as (w1 & _ & H).
  apply bind_Ok in H. destruct H as (blk & Hblk & H).
  apply bind_Ok in H. destruct H as (ts & Hts & H).
  apply bind_Ok in H. destruct H as (amt & Hamt & H).
  apply bind_Ok in H. destruct H as (stk & _ & H).
  apply bind_Ok in H. destruct H as (flow & Hflow & H).
  inversion H. subst r. clear H.
  unfold Dashboard.flow_of, Dashboard.decode_word, Dashboard.h.
  unfold Tracker.decode_word in Hw0. unfold Tracker.hex_to_int in Hblk, Hts.
  rewrite Hw0. cbn [bind]. rewrite Hamt. cbn [bind].
  rewrite Hblk. cbn [bind]. rewrite Hts. cbn [bind].
  eexists. split; [reflexivity|].
  unfold same_flow. cbn. repeat split. congruence.
Qed.

Lemma flow_of_withdrawal : forall l r,
  Tracker.parse_withdrawal l = Ok r ->
  exists f, Dashboard.flow_of "Withdrawal" Py.fneg l = Ok f /\ same_flow r f.
Proof.
  intros l r H. unfold Tracker.parse_withdrawal in H.
  apply bind_Ok in H. destruct H as (t1 & _ & H).
  apply bind_Ok in H. destruct H as (pid & _ & H).
  apply bind_Ok in H. destruct H as (w0 & Hw0 & H).
  apply bind_Ok in H. destruct H as (blk & Hblk & H).
  apply bind_Ok in H. destruct H as (ts & Hts & H).
  apply bind_Ok in H. destruct H as (amt & Hamt & H).
  apply bind_Ok in H. destruct H as (flow & Hflow & H).
  inversion H. subst r. clear H.
  unfold Dashboard.flow_of, Dashboard.decode_word, Dashboard.h.
  unfold Tracker.decode_word in Hw0. unfold Tracker.hex_to_int in Hblk, Hts.
  rewrite Hw0. cbn [bind]. rewrite Hamt. cbn [bind].
  rewrite Hblk. cbn [bind]. rewrite Hts. cbn [bind].
  eexists. split; [reflexivity|].
  unfold same_flow. cbn. repeat split. congruence.
Qed.

Lemma flow_of_reward_issued : forall l r,
  Tracker.parse_reward_issued l = Ok r ->
  exists f, Dashboard.flow_of "Rewards Issued" (fun _ => Py.fzero) l = Ok f /\ same_flow r f.
Proof.
  intros l r H. unfold Tracker.parse_reward_issued in H.
  apply bind_Ok in H. destruct H as (t1 & _ & H).
  apply bind_Ok in H. destruct H as (w0 & Hw0 & H).
  apply bind_Ok in H. destruct H as (blk & Hblk & H).
  apply bind_Ok in H. destruct H as (ts & Hts & H).
  apply bind_Ok in H. destruct H as (amt & Hamt & H).
  inversion H. subst r. clear H.
  unfold Dashboard.flow_of, Dashboard.decode_word, Dashboard.h.
  unfold Tracker.decode_word in Hw0. unfold Tracker.hex_to_int in Hblk, Hts.
  rewrite Hw0. cbn [bind]. rewrite Hamt. cbn [bind].
  rewrite Hblk. cbn [bind]. rewrite Hts. cbn [bind].
  eexists. split; [reflexivity|].
  unfold same_flow. cbn. repeat split.
Qed.

Lemma flow_of_reward_withdrawn : forall l r,
  Tracker.parse_reward_withdrawn l = Ok r ->
  exists f, Dashboard.flow_of "Rewards Withdrawn" (fun _ => Py.fzero) l = Ok f
            /\ same_flow r f.
Proof.
  intros l r H. unfold Tracker.parse_reward_withdrawn in H.
  apply bind_Ok in H. destruct H as (t1 & _ & H).
  apply bind_Ok in H. destruct H as (w0 & Hw0 & H).
  apply bind_Ok in H. destruct H as (blk & Hblk & H).
  apply bind_Ok in H. destruct H as (ts & Hts & H).
  apply bind_Ok in H. destruct H as (amt & Hamt & H).
  inversion H. subst r. clear H.
  unfold Dashboard.flow_of, Dashboard.decode_word, Dashboard.h.
  unfold Tracker.decode_word in Hw0. unfold Tracker.hex_to_int in Hblk, Hts.
  rewrite Hw0. cbn [bind]. rewrite Hamt. cbn [bind].
  rewrite Hblk. cbn [bind]. rewrite Hts. cbn [bind].
  eexists. split; [reflexivity|].
  unfold same_flow. cbn. repeat split.
Qed.

Lemma flow_rows_agree : forall dep wth rew_i rew_w rows,
  Tracker.all_rows dep wth rew_i rew_w = Ok rows ->
  exists frows,
    Dashboard.flow_rows dep wth rew_i rew_w = Ok frows /\ Forall2 same_flow rows frows.
Proof.
  intros dep wth rew_i rew_w rows H. unfold Tracker.all_rows in H.
  apply bind_Ok in H. destruct H as (a & Ha & H).
  apply bind_Ok in H. destruct H as (b & Hb & H).
  apply bind_Ok in H. destruct H as (c & Hc & H).
  apply bind_Ok in H. destruct H as (d & Hd & H).
  inversion H. subst rows. clear H.
  destruct (map_outcome_rel _ _ _ _ _ same_flow _ _ flow_of_deposit Ha) as (a' & Ha' & Ra).
  destruct (map_outcome_rel _ _ _ _ _ same_flow _ _ flow_of_withdrawal Hb) as (b' & Hb' & Rb).
  destruct (map_outcome_rel _ _ _ _ _ same_flow _ _ flow_of_reward_issued Hc)
    as (c' & Hc' & Rc).
  destruct (map_outcome_rel _ _ _ _ _ same_flow _ _ flow_of_reward_withdrawn Hd)
    as (d' & Hd' & Rd).
  exists (a' ++ b' ++ c' ++ d'). unfold Dashboard.flow_rows.
  rewrite Ha'. cbn [bind]. rewrite Hb'. cbn [bind]. rewrite Hc'. cbn [bind].
  rewrite Hd'. cbn [bind]. split; [reflexivity|].
  repeat apply Forall2_app; assumption.
Qed.

Section SortRel.
Context {A B : Type}.
Variable R : A -> B -> Prop.
Variable after1 : A -> A -> bool.
Variable after2 : B -> B -> bool.
Hypothesis after_agree : forall a a' b b', R a a' -> R b b' -> after1 a b = after2 a' b'.

Lemma insert_by_rel : forall x x' l l',
  R x x' -> Forall2 R l l' ->
  Forall2 R (Pandas.insert_by after1 x l) (Pandas.insert_by after2 x' l').
Proof.
  intros x x' l l' Hx Hl. induction Hl as [|y y' l l' Hy Hl IH]; cbn.
  - constructor; [exact Hx | constructor].
  - rewrite <- (after_agree x x' y y' Hx Hy).
    destruct (after1 x y); constructor; try assumption.
    constructor; assumption.
Qed.

Lemma sort_by_rel : forall l l',
  Forall2 R l l' -> Forall2 R (Pandas.sort_by after1 l) (Pandas.sort_by after2 l').
Proof.
  intros l l' Hl. induction Hl as [|y y' l l' Hy Hl IH]; cbn; [constructor|].
  apply insert_by_rel; assumption.
Qed.
End SortRel.

Lemma Forall2_combine_same : forall (A B C : Type) (R : A -> B -> Prop)
                                    (xs : list A) (ys : list B) (zs : list C),
  Forall2 R xs ys ->
  Forall2 (fun a b => R (fst a) (fst b) /\ snd a = snd b) (combine xs zs) (combine ys zs).
Proof.
  intros A B C R xs ys zs H. revert zs.
  induction H as [|x y xs ys Hxy H IH]; intros [|z zs]; cbn; constructor.
  - split; [exact Hxy | reflexivity].
  - apply IH.
Qed.

Lemma Forall2_map_both : forall (A B A' B' : Type) (f : A -> A') (g : B -> B')
                                (R : A' -> B' -> Prop) (xs : list A) (ys : list B),
  Forall2 (fun a b => R (f a) (g b)) xs ys -> Forall2 R (map f xs) (map g ys).
Proof.
  intros A B A' B' f g R xs ys H. induction H; cbn; constructor; assumption.
Qed.

Lemma Forall2_map_eq : forall (A B C : Type) (f : A -> C) (g : B -> C)
                              (xs : list A) (ys : list B),
  Forall2 (fun a b => f a = g b) xs ys -> map f xs = map g ys.
Proof.
  intros A B C f g xs ys H. induction H; cbn; [reflexivity | f_equal; assumption].
Qed.

Lemma Forall2_weaken : forall (A B : Type) (R R' : A -> B -> Prop) (xs : list A) (ys : list B),
  (forall a b, R a b -> R' a b) -> Forall2 R xs ys -> Forall2 R' xs ys.
Proof.
  intros A B R R' xs ys Himp H. induction H; constructor; auto.
Qed.

Lemma column_nonempty : forall (A : Type) (rows : list A),
  rows <> [] -> Pandas.column rows = Ok rows.
Proof. intros A [|r rows] H; [congruence | reflexivity]. Qed.

Lemma dates_agree : forall (to_datetime : Z -> outcome string) rows frows dates,
  Forall2 same_flow rows frows ->
  map_outcome (fun r => to_datetime (Tracker.timestamp r)) rows = Ok dates ->
  map_outcome (fun r => to_datetime (Dashboard.timestamp r)) frows = Ok dates.
Proof.
  intros to_datetime rows frows dates H. revert dates.
  induction H as [|r f rows frows Hrf H IH]; intros dates Hd; cbn in *; [exact Hd|].
  apply bind_Ok in Hd. destruct Hd as (d & Hd1 & Hd).
  apply bind_Ok in Hd. destruct Hd as (ds & Hds & Hd). inversion Hd. subst dates.
  destruct Hrf as (_ & Hts & _). rewrite <- Hts, Hd1. cbn. rewrite (IH ds Hds). reflexivity.
Qed.

(** X27: the tracker and the dashboard chart the same series.  Whenever
    the tracker parses the four fetched lists, the dashboard builds its
    flow rows from them, row for row with the same block, time stamp,
    amount and net flow; and when the tracker goes to its end, the
    dashboard's flow frame has, row for row, the same order, dates and
    cumulative net staked as the tracker's frame. *)
Theorem tracker_and_dashboard_series_agree :
  forall to_datetime fsum dep wth rew_i rew_w df s,
  TrackerFrame.main to_datetime fsum dep wth rew_i rew_w
  = Ok (TrackerFrame.Completed (df, s)) ->
  exists rows frows flows,
    Tracker.all_rows dep wth rew_i rew_w = Ok rows
    /\ Dashboard.flow_rows dep wth rew_i rew_w = Ok frows
    /\ Forall2 same_flow rows frows
    /\ Dashboard.flow_df to_datetime frows = Ok flows
    /\ Forall2 same_frame_row df flows
    /\ map TrackerFrame.cumulative_net_staked df
       = map Dashboard.cumulative_net_staked flows.
Proof.
  intros td fsum dep wth rew_i rew_w df s H. unfold TrackerFrame.main in H.
  apply bind_Ok in H. destruct H as (rows & Hrows & H).
  destruct (flow_rows_agree _ _ _ _ _ Hrows) as (frows & Hfrows & Hrel).
  exists rows, frows.
  destruct rows as [|r0 rows0] eqn:Erows; [discriminate H|]. rewrite <- Erows in *.
  replace (match rows with [] => Ok TrackerFrame.Exited | _ :: _ =>
             df0 <- TrackerFrame.frame td rows ;;
             Ok (TrackerFrame.Completed (df0, TrackerFrame.summarize fsum df0)) end)
    with (df0 <- TrackerFrame.frame td rows ;;
          Ok (TrackerFrame.Completed (df0, TrackerFrame.summarize fsum df0))) in H
    by (rewrite Erows; reflexivity).
  assert (frows <> []) as Hne
      by (rewrite Erows in Hrel; inversion Hrel; discriminate).
  clear Erows r0 rows0.
  apply bind_Ok in H. destruct H as (df0 & Hdf & H). inversion H. subst df0 s. clear H.
  unfold TrackerFrame.frame in Hdf.
  apply bind_Ok in Hdf. destruct Hdf as (dates & Hdates & Hdf). inversion Hdf. subst df.
  clear Hdf.
  pose proof (dates_agree _ _ _ _ Hrel Hdates) as Hdates'.
  set (R := fun (a : Tracker.row * string) (b : Dashboard.flow_row * string) =>
              same_flow (fst a) (fst b) /\ snd a = snd b).
  assert (Forall2 R (combine rows dates) (combine frows dates)) as Hcomb
      by (apply Forall2_combine_same; exact Hrel).
  set (sorted1 := Pandas.sort_values_asc (fun rd => Tracker.block (fst rd))
                                         (combine rows dates)) in *.
  set (sorted2 := Pandas.sort_values_asc (fun rd => Dashboard.block (fst rd))
                                         (combine frows dates)).
  assert (Forall2 R sorted1 sorted2) as Hsorted.
  { apply (sort_by_rel R); [|exact Hcomb].
    intros a a' b b' (Ha & _) (Hb & _). destruct Ha as (Ha & _). destruct Hb as (Hb & _).
    rewrite Ha, Hb. reflexivity. }
  assert (map (fun rd => Tracker.net_flow (fst rd)) sorted1
          = map (fun rd => Dashboard.net_flow (fst rd)) sorted2) as Hnet.
  { apply Forall2_map_eq. eapply Forall2_weaken; [|exact Hsorted].
    intros a b ((_ & _ & _ & Hn) & _). exact Hn. }
  set (sums := Pandas.cumsum (map (fun rd => Tracker.net_flow (fst rd)) sorted1)) in *.
  exists (map (fun rds : Dashboard.flow_row * string * Py.float =>
                 {| Dashboard.flow := fst (fst rds);
                    Dashboard.datetime := snd (fst rds);
                    Dashboard.cumulative_net_staked := snd rds |})
              (combine sorted2 sums)).
  split; [exact Hrows|]. split; [exact Hfrows|]. split; [exact Hrel|].
  split.
  { unfold Dashboard.flow_df. rewrite (column_nonempty _ _ Hne).
    cbn [bind]. rewrite Hdates'. cbn [bind]. unfold sums. rewrite Hnet. reflexivity. }
  assert (Forall2 same_frame_row
            (map (fun rds : Tracker.row * string * Py.float =>
                    {| TrackerFrame.base := fst (fst rds);
                       TrackerFrame.datetime := snd (fst rds);
                       TrackerFrame.cumulative_net_staked := snd rds |})
                 (combine sorted1 sums))
            (map (fun rds : Dashboard.flow_row * string * Py.float =>
                    {| Dashboard.flow := fst (fst rds);
                       Dashboard.datetime := snd (fst rds);
                       Dashboard.cumulative_net_staked := snd rds |})
                 (combine sorted2 sums))) as Hframes.
  { apply Forall2_map_both.
    eapply Forall2_weaken; [|apply (Forall2_combine_same _ _ _ R _ _ sums Hsorted)].
    intros a b ((Hf & Hd) & Hs). unfold same_frame_row. cbn.
    split; [exact Hf | split; [exact Hd | exact Hs]]. }
  split; [exact Hframes|].
  apply Forall2_map_eq. eapply Forall2_weaken; [|exact Hframes].
  intros a b (_ & _ & Hc). exact Hc.
Qed.

Lemma tracker_and_dashboard_series_agree_witness :
  exists df s flows,
    TrackerFrame.main Fixture.to_datetime_stub Pandas.seq_sum
                      Sample.dep_logs Sample.wth_logs [] []
    = Ok (TrackerFrame.Completed (df, s))
    /\ Dashboard.flow_df Fixture.to_datetime_stub Sample.flow_rows = Ok flows
    /\ map TrackerFrame.cumulative_net_staked df
       = map Dashboard.cumulative_net_staked flows.
Proof.
  destruct (TrackerFrame.main Fixture.to_datetime_stub Pandas.seq_sum
                              Sample.dep_logs Sample.wth_logs [] [])
    as [[|[df s]]|e] eqn:E.
  - exfalso. vm_compute in E. discriminate E.
  - destruct (tracker_and_dashboard_series_agree _ _ _ _ _ _ df s E)
      as (rows & frows & flows & _ & Hfrows & _ & Hflows & _ & Hcum).
    exists df, s, flows. split; [reflexivity|]. split; [|exact Hcum].
    unfold Sample.flow_rows. rewrite Hfrows. exact Hflows.
  - exfalso. vm_compute in E. discriminate E.
Defined.

(** ** After the aggregation *)

Lemma format_unlock_unlocked : forall expiry_ts now : Z,
  Dashboard.format_unlock expiry_ts now = "UNLOCKED" <-> expiry_ts <= now.
Proof.
  intros e now. unfold Dashboard.format_unlock.
  destruct (e <=? now) eqn:E.
  - apply Z.leb_le in E. split; [intro; exact E | reflexivity].
  - apply Z.leb_gt in E. split; [|lia].
    destruct (0 <? (e - now) / 86400); intro H;
      exfalso; exact (str_append_not_unlocked _ _ H).
Qed.

Lemma map_outcome_total : forall (A B : Type) (f : A -> outcome B) (xs : list A),
  (forall x, In x xs -> exists y, f x = Ok y) ->
  exists ys, map_outcome f xs = Ok ys.
Proof.
  intros A B f xs. induction xs as [|x xs IH]; intro H; cbn.
  - exists []. reflexivity.
  - destruct (H x (or_introl eq_refl)) as (y & Hy).
    destruct (IH (fun x0 Hx0 => H x0 (or_intror Hx0))) as (ys & Hys).
    exists (y :: ys). rewrite Hy. cbn. rewrite Hys. reflexivity.
Qed.

Lemma pos_df_row_facts : forall now to_datetime positions frame r,
  Dashboard.pos_df now to_datetime positions = Ok frame ->
  In r frame ->
  to_datetime (Dashboard.expiry_ts (Dashboard.base r)) = Ok (Dashboard.expiry_utc r)
  /\ Dashboard.is_locked r = (now <? Dashboard.expiry_ts (Dashboard.base r)).
Proof.
  intros now to_datetime positions frame r Hdf Hin. unfold Dashboard.pos_df in Hdf.
  apply bind_Ok in Hdf. destruct Hdf as (rows & _ & Hmap).
  destruct (map_outcome_In_inv _ _ _ _ _ r Hmap Hin) as (p & _ & Hrow).
  apply bind_Ok in Hrow. destruct Hrow as (utc & Hutc & Hrow).
  inversion Hrow. subst r. cbn. split; [exact Hutc | reflexivity].
Qed.

Lemma load_data_parts :
  forall now to_datetime decode_utf8_replace fsum dep wth rew_i rew_w pc tr
         flows active owners,
  Dashboard.load_data now to_datetime decode_utf8_replace fsum dep wth rew_i rew_w pc tr
  = Ok (flows, active, owners) ->
  exists rows T frame,
    Dashboard.flow_rows dep wth rew_i rew_w = Ok rows
    /\ Dashboard.flow_df to_datetime rows = Ok flows
    /\ Dashboard.positions_of decode_utf8_replace pc tr dep wth = Ok T
    /\ Dashboard.pos_df now to_datetime T = Ok frame
    /\ active = Dashboard.active_df frame
    /\ owners = Dashboard.owner_df fsum active.
Proof.
  intros now td dec fsum dep wth rew_i rew_w pc tr flows active owners H.
  unfold Dashboard.load_data in H.
  apply bind_Ok in H. destruct H as (rows & Hrows & H).
  apply bind_Ok in H. destruct H as (flows0 & Hflows & H).
  apply bind_Ok in H. destruct H as (T & HT & H).
  apply bind_Ok in H. destruct H as (frame & Hframe & H).
  inversion H. subst flows0 active owners.
  exists rows, T, frame. repeat split; assumption.
Qed.

Lemma owner_row_bounds : forall fsum active o,
  In o (Dashboard.owner_df fsum active) ->
  (forall r, In r active -> Dashboard.row_owner r = Some (owner_key (snd o)) ->
             earliest_unlock (snd o) <= Dashboard.expiry_ts (Dashboard.base r)
             <= latest_unlock (snd o))
  /\ (exists r1, In r1 active /\ Dashboard.row_owner r1 = Some (owner_key (snd o))
                 /\ Dashboard.expiry_ts (Dashboard.base r1) = earliest_unlock (snd o))
  /\ (exists r2, In r2 active /\ Dashboard.row_owner r2 = Some (owner_key (snd o))
                 /\ Dashboard.expiry_ts (Dashboard.base r2) = latest_unlock (snd o)).
Proof.
  intros fsum active o Hin.
  pose proof (table_unlock_bounds Dashboard.row_owner
                (fun r => Dashboard.expiry_ts (Dashboard.base r)) (Dashboard.agg fsum)
                (fun g => eq_refl) (fun g => eq_refl) (fun g => eq_refl) active o) as Hb.
  destruct (table_row_group Dashboard.row_owner (Dashboard.agg fsum) (fun g => eq_refl)
                            active o Hin) as [Hk _].
  apply group_keys_In in Hk. destruct Hk as (r0 & Hr0 & Hown0).
  destruct (Hb r0 Hin Hr0 Hown0) as (_ & H1 & H2).
  split; [|split; assumption].
  intros r Hr Hown. exact (proj1 (Hb r Hin Hr Hown)).
Qed.

Lemma In_combine_l : forall (A B : Type) (xs : list A) (ys : list B) (x : A) (y : B),
  In (x, y) (combine xs ys) -> In x xs.
Proof.
  intros A B xs. induction xs as [|a xs IH]; intros [|b ys] x y H; cbn in H;
    try contradiction.
  destruct H as [H|H]; [inversion H; left; reflexivity | right; eapply IH; exact H].
Qed.

(** X28: once [load_data] has built the positions frame, the columns it
    adds to the owner table cannot fail: the dates of the earliest and
    latest unlock are dates it has already converted for a position.  In
    the resulting rows the earliest unlock reads UNLOCKED exactly when
    some active position of the owner is no longer locked, and the latest
    unlock reads UNLOCKED exactly when none of them is locked. *)
Theorem owner_columns_follow :
  forall now to_datetime decode_utf8_replace fsum dep wth rew_i rew_w pc tr
         flows active owners,
  Dashboard.load_data now to_datetime decode_utf8_replace fsum dep wth rew_i rew_w pc tr
  = Ok (flows, active, owners) ->
  exists rows,
    DashboardView.owner_columns now to_datetime owners = Ok rows
    /\ map DashboardView.ranked_summary rows = owners
    /\ forall row, In row rows ->
         let k := owner_key (snd (DashboardView.ranked_summary row)) in
         (DashboardView.earliest_remaining row = "UNLOCKED"
          <-> exists r, In r active /\ Dashboard.row_owner r = Some k
                        /\ Dashboard.is_locked r = false)
         /\ (DashboardView.latest_remaining row = "UNLOCKED"
             <-> forall r, In r active -> Dashboard.row_owner r = Some k ->
                           Dashboard.is_locked r = false).
Proof.
  intros now td dec fsum dep wth rew_i rew_w pc tr flows active owners H.
  destruct (load_data_parts _ _ _ _ _ _ _ _ _ _ _ _ _ H)
    as (rows & T & frame & _ & _ & _ & Hframe & Hactive & Howners).
  assert (forall r, In r active ->
            td (Dashboard.expiry_ts (Dashboard.base r)) = Ok (Dashboard.expiry_utc r)
            /\ Dashboard.is_locked r = (now <? Dashboard.expiry_ts (Dashboard.base r)))
    as Hrow.
  { intros r Hr. rewrite Hactive in Hr. unfold Dashboard.active_df in Hr.
    apply filter_In in Hr. destruct Hr as [Hr _].
    exact (pos_df_row_facts _ _ _ _ _ Hframe Hr). }
  assert (forall o, In o owners ->
            (forall r, In r active -> Dashboard.row_owner r = Some (owner_key (snd o)) ->
                       earliest_unlock (snd o) <= Dashboard.expiry_ts (Dashboard.base r)
                       <= latest_unlock (snd o))
            /\ (exists r1, In r1 active /\ Dashboard.row_owner r1 = Some (owner_key (snd o))
                  /\ Dashboard.expiry_ts (Dashboard.base r1) = earliest_unlock (snd o))
            /\ (exists r2, In r2 active /\ Dashboard.row_owner r2 = Some (owner_key (snd o))
                  /\ Dashboard.expiry_ts (Dashboard.base r2) = latest_unlock (snd o)))
    as Hbounds by (intros o Ho; rewrite Howners in Ho; exact (owner_row_bounds _ _ _ Ho)).
  destruct (map_outcome_total _ _ (fun o => td (earliest_unlock (snd o))) owners) as (es & Hes).
  { intros o Ho. destruct (Hbounds o Ho) as (_ & (r1 & Hr1 & _ & <-) & _).
    eexists. exact (proj1 (Hrow r1 Hr1)). }
  destruct (map_outcome_total _ _ (fun o => td (latest_unlock (snd o))) owners) as (ls & Hls).
  { intros o Ho. destruct (Hbounds o Ho) as (_ & _ & (r2 & Hr2 & _ & <-)).
    eexists. exact (proj1 (Hrow r2 Hr2)). }
  unfold DashboardView.owner_columns. rewrite Hes. cbn [bind]. rewrite Hls. cbn [bind].
  eexists. split; [reflexivity|].
  pose proof (map_outcome_length _ _ _ _ _ Hes) as Le.
  pose proof (map_outcome_length _ _ _ _ _ Hls) as Ll.
  split.
  - rewrite map_map. cbn.
    rewrite <- (map_map fst fst).
    rewrite map_combine_fst by (rewrite length_combine, Le, Nat.min_id; symmetry; exact Ll).
    apply map_combine_fst. symmetry. exact Le.
  - intros row Hin. apply in_map_iff in Hin. destruct Hin as ([[o e] l] & <- & Hin).
    cbn. apply In_combine_l in Hin. apply In_combine_l in Hin.
    destruct (Hbounds o Hin) as (Hall & (r1 & Hr1 & Ho1 & He1) & (r2 & Hr2 & Ho2 & He2)).
    rewrite !format_unlock_unlocked. split; split.
    + intro Hle. exists r1. split; [exact Hr1|]. split; [exact Ho1|].
      rewrite (proj2 (Hrow r1 Hr1)). apply Z.ltb_ge. lia.
    + intros (r & Hr & Ho & Hl). rewrite (proj2 (Hrow r Hr)) in Hl. apply Z.ltb_ge in Hl.
      pose proof (Hall r Hr Ho). lia.
    + intros Hle r Hr Ho. rewrite (proj2 (Hrow r Hr)). apply Z.ltb_ge.
      pose proof (Hall r Hr Ho). lia.
    + intro Hnone. specialize (Hnone r2 Hr2 Ho2).
      rewrite (proj2 (Hrow r2 Hr2)) in Hnone. apply Z.ltb_ge in Hnone. lia.
Qed.

Lemma owner_columns_follow_witness :
  exists flows active owners rows,
    Dashboard.load_data Fixture.NOW Fixture.to_datetime_stub Fixture.decode_stub
                        Pandas.seq_sum Sample.dep_logs [] [] []
                        [Fixture.created_log 1 1700000100 Fixture.label_v1]
                        [Fixture.transfer_log 11 1]
    = Ok (flows, active, owners)
    /\ DashboardView.owner_columns Fixture.NOW Fixture.to_datetime_stub owners = Ok rows
    /\ map DashboardView.ranked_summary rows = owners.
Proof.
  destruct (Dashboard.load_data Fixture.NOW Fixture.to_datetime_stub Fixture.decode_stub
                                Pandas.seq_sum Sample.dep_logs [] [] []
                                [Fixture.created_log 1 1700000100 Fixture.label_v1]
                                [Fixture.transfer_log 11 1])
    as [[[flows active] owners]|e] eqn:E.
  - destruct (owner_columns_follow _ _ _ _ _ _ _ _ _ _ _ _ _ E) as (rows & Hrows & Hmap & _).
    exists flows, active, owners, rows. split; [reflexivity|]. split; assumption.
  - exfalso. vm_compute in E. discriminate E.
Defined.

Lemma flow_of_event : forall name sign l r,
  Dashboard.flow_of name sign l = Ok r -> Dashboard.event r = name.
Proof.
  intros name sign l r H. unfold Dashboard.flow_of in H.
  repeat (apply bind_Ok in H; destruct H as (? & _ & H)).
  inversion H. reflexivity.
Qed.

Lemma flow_events : forall name sign logs rows,
  map_outcome (Dashboard.flow_of name sign) logs = Ok rows ->
  forall r, In r rows -> Dashboard.event r = name.
Proof.
  intros name sign logs rows Hmap r Hin.
  destruct (map_outcome_In_inv _ _ _ _ _ r Hmap Hin) as (l & _ & Hl).
  exact (flow_of_event _ _ _ _ Hl).
Qed.

Lemma length_le_sum : forall (A : Type) (f : A -> nat) (l : list A),
  (forall x, In x l -> (1 <= f x)%nat) -> (List.length l <= list_sum (map f l))%nat.
Proof.
  intros A f l. unfold list_sum. induction l as [|x l IH]; intro H; cbn; [lia|].
  pose proof (H x (or_introl eq_refl)).
  pose proof (IH (fun y Hy => H y (or_intror Hy))). lia.
Qed.

Lemma filter_length_le : forall (A : Type) (p : A -> bool) (l : list A),
  (List.length (filter p l) <= List.length l)%nat.
Proof.
  intros A p l. induction l as [|x l IH]; cbn; [lia|]. destruct (p x); cbn; lia.
Qed.

(** X29: the counts of the KPI row.  There are at most as many stakers
    as active positions, and at most as many locked positions as active
    positions; the three flow totals each sum one amount per fetched log
    of their kind. *)
Theorem kpi_counts :
  forall now to_datetime decode_utf8_replace fsum dep wth rew_i rew_w pc tr
         flows active owners,
  Dashboard.load_data now to_datetime decode_utf8_replace fsum dep wth rew_i rew_w pc tr
  = Ok (flows, active, owners) ->
  (DashboardView.num_stakers owners <= DashboardView.num_positions active)%nat
  /\ (DashboardView.locked_positions active <= DashboardView.num_positions active)%nat
  /\ List.length (DashboardView.amounts_of "Deposit" flows) = List.length dep
  /\ List.length (DashboardView.amounts_of "Withdrawal" flows) = List.length wth
  /\ List.length (DashboardView.amounts_of "Rewards Issued" flows) = List.length rew_i.
Proof.
  intros now td dec fsum dep wth rew_i rew_w pc tr flows active owners H.
  destruct (load_data_parts _ _ _ _ _ _ _ _ _ _ _ _ _ H)
    as (rows & T & frame & Hrows & Hflows & _ & _ & _ & Howners).
  split; [|split].
  - unfold DashboardView.num_stakers, DashboardView.num_positions. rewrite Howners.
    pose proof (table_structure Dashboard.row_owner (Dashboard.agg fsum)
                  (fun g => eq_refl) (fun g => eq_refl) active) as (_ & _ & _ & Hpos & _).
    pose proof (counts_add_up Dashboard.row_owner (Dashboard.agg fsum) (fun g => eq_refl)
                              active) as Hsum.
    rewrite map_map in Hsum.
    pose proof (length_le_sum _ (fun o => num_positions (snd o)) _ Hpos) as Hle.
    pose proof (filter_length_le _ (owned Dashboard.row_owner) active).
    unfold Dashboard.owner_df, Dashboard.owner_groups. lia.
  - apply filter_length_le.
  - destruct (flow_df_shape _ _ _ Hflows) as (dates & Hdates & Hsorted & _).
    pose proof (map_outcome_length _ _ _ _ _ Hdates) as Hlen.
    assert (Permutation (map Dashboard.flow flows) rows) as Hperm.
    { rewrite <- (map_combine_fst _ _ rows dates (eq_sym Hlen)).
      rewrite <- (map_map (fun fr => (Dashboard.flow fr, Dashboard.datetime fr)) fst).
      apply Permutation_map. rewrite Hsorted. apply sort_by_perm. }
    unfold Dashboard.flow_rows in Hrows.
    apply bind_Ok in Hrows. destruct Hrows as (a & Ha & Hrows).
    apply bind_Ok in Hrows. destruct Hrows as (b & Hb & Hrows).
    apply bind_Ok in Hrows. destruct Hrows as (c & Hc & Hrows).
    apply bind_Ok in Hrows. destruct Hrows as (d & Hd & Hrows).
    inversion Hrows as [Heq]. clear Hrows.
    pose proof (flow_events _ _ _ _ Ha) as Ea.
    pose proof (flow_events _ _ _ _ Hb) as Eb.
    pose proof (flow_events _ _ _ _ Hc) as Ec.
    pose proof (flow_events _ _ _ _ Hd) as Ed.
    unfold DashboardView.amounts_of. rewrite !length_map.
    rewrite !(filter_length_map _ _ Dashboard.flow
                (fun r => String.eqb (Dashboard.event r) _)).
    rewrite !(filter_length_perm _ _ _ _ Hperm).
    rewrite <- Heq, !filter_app, !length_app.
    split; [|split].
    + rewrite (filter_length_all _ _ a), (filter_length_none _ _ b),
              (filter_length_none _ _ c), (filter_length_none _ _ d).
      * rewrite (map_outcome_length _ _ _ _ _ Ha). lia.
      * intros x Hx. rewrite (Ed x Hx). reflexivity.
      * intros x Hx. rewrite (Ec x Hx). reflexivity.
      * intros x Hx. rewrite (Eb x Hx). reflexivity.
      * intros x Hx. rewrite (Ea x Hx). reflexivity.
    + rewrite (filter_length_none _ _ a), (filter_length_all _ _ b),
              (filter_length_none _ _ c), (filter_length_none _ _ d).
      * rewrite (map_outcome_length _ _ _ _ _ Hb). lia.
      * intros x Hx. rewrite (Ed x Hx). reflexivity.
      * intros x Hx. rewrite (Ec x Hx). reflexivity.
      * intros x Hx. rewrite (Eb x Hx). reflexivity.
      * intros x Hx. rewrite (Ea x Hx). reflexivity.
    + rewrite (filter_length_none _ _ a), (filter_length_none _ _ b),
              (filter_length_all _ _ c), (filter_length_none _ _ d).
      * rewrite (map_outcome_length _ _ _ _ _ Hc). lia.
      * intros x Hx. rewrite (Ed x Hx). reflexivity.
      * intros x Hx. rewrite (Ec x Hx). reflexivity.
      * intros x Hx. rewrite (Eb x Hx). reflexivity.
      * intros x Hx. rewrite (Ea x Hx). reflexivity.
Qed.

Lemma kpi_counts_witness :
  exists flows active owners,
    Dashboard.load_data Fixture.NOW Fixture.to_datetime_stub Fixture.decode_stub
                        Pandas.seq_sum Sample.dep_logs [] [] []
                        [Fixture.created_log 1 1700000100 Fixture.label_v1]
                        [Fixture.transfer_log 11 1]
    = Ok (flows, active, owners)
    /\ (DashboardView.num_stakers owners <= DashboardView.num_positions active)%nat.
Proof.
  destruct (Dashboard.load_data Fixture.NOW Fixture.to_datetime_stub Fixture.decode_stub
                                Pandas.seq_sum Sample.dep_logs [] [] []
                                [Fixture.created_log 1 1700000100 Fixture.label_v1]
                                [Fixture.transfer_log 11 1])
    as [[[flows active] owners]|e] eqn:E.
  - exists flows, active, owners. split; [reflexivity|].
    exact (proj1 (kpi_counts _ _ _ _ _ _ _ _ _ _ _ _ _ E)).
  - exfalso. vm_compute in E. discriminate E.
Defined.

(** ** The positions tab *)

Lemma filter_negb_perm : forall (A : Type) (p : A -> bool) (l : list A),
  Permutation (filter p l ++ filter (fun x => negb (p x)) l) l.
Proof.
  intros A p l. induction l as [|x l IH]; cbn; [constructor|].
  destruct (p x); cbn.
  - constructor. exact IH.
  - eapply perm_trans; [apply Permutation_sym; apply Permutation_middle|].
    constructor. exact IH.
Qed.

(** X30: in the positions tab the lock selection splits the frame: for
    any validator selection the rows shown under Locked and the rows
    shown under Unlocked are together the rows shown under All, the
    former all locked, the latter none; with no selection every active
    position is shown; and a position without owner is shown, labelled
    Unknown. *)
Theorem positions_tab_selection : forall (val_filter : string) (pos_df : list Dashboard.pos_row),
  Permutation (DashboardView.show_df "Locked" val_filter pos_df
                 ++ DashboardView.show_df "Unlocked" val_filter pos_df)
              (DashboardView.show_df "All" val_filter pos_df)
  /\ (forall r, In r (DashboardView.show_df "Locked" val_filter pos_df) ->
                In r pos_df /\ Dashboard.is_locked r = true)
  /\ (forall r, In r (DashboardView.show_df "Unlocked" val_filter pos_df) ->
                In r pos_df /\ Dashboard.is_locked r = false)
  /\ Permutation (DashboardView.show_df "All" "All" pos_df) pos_df
  /\ (forall r, In r pos_df -> Dashboard.row_owner r = None ->
                In r (DashboardView.show_df "All" "All" pos_df)
                /\ DashboardView.owner_short (Dashboard.row_owner r) = "Unknown").
Proof.
  intros v df. unfold DashboardView.show_df.
  change (String.eqb "Locked" "Locked") with true.
  change (String.eqb "Unlocked" "Locked") with false.
  change (String.eqb "Unlocked" "Unlocked") with true.
  change (String.eqb "All" "Locked") with false.
  change (String.eqb "All" "Unlocked") with false.
  change (String.eqb "All" "All") with true.
  cbv beta iota zeta. cbn [negb].
  set (byval := fun l : list Dashboard.pos_row =>
                  if negb (String.eqb v "All")
                  then filter (fun r => String.eqb (Dashboard.validator (Dashboard.base r)) v) l
                  else l).
  assert (forall l r, In r (byval l) -> In r l) as Hsub.
  { intros l r. unfold byval. destruct (negb (String.eqb v "All")); [|auto].
    intro Hr. apply filter_In in Hr. tauto. }
  assert (forall l1 l2, byval (l1 ++ l2) = byval l1 ++ byval l2) as Happ.
  { intros l1 l2. unfold byval. destruct (negb (String.eqb v "All")); [|reflexivity].
    apply filter_app. }
  assert (forall l1 l2, Permutation l1 l2 -> Permutation (byval l1) (byval l2)) as Hbyperm.
  { intros l1 l2 Hp. unfold byval. destruct (negb (String.eqb v "All")); [|exact Hp].
    clear - Hp. induction Hp; cbn.
    - constructor.
    - destruct (String.eqb _ v); [constructor|]; assumption.
    - destruct (String.eqb (Dashboard.validator (Dashboard.base x)) v),
               (String.eqb (Dashboard.validator (Dashboard.base y)) v);
        try apply Permutation_refl. constructor.
    - eapply perm_trans; eassumption. }
  fold (byval (filter Dashboard.is_locked df)).
  fold (byval (filter (fun r => negb (Dashboard.is_locked r)) df)).
  fold (byval df).
  split; [|split; [|split; [|split]]].
  - eapply perm_trans;
      [apply Permutation_app; apply sort_by_perm|].
    eapply perm_trans; [|apply Permutation_sym; apply sort_by_perm].
    rewrite <- Happ. apply Hbyperm. apply filter_negb_perm.
  - intros r Hr. apply (Permutation_in _ (sort_by_perm _ _ _)) in Hr.
    apply Hsub in Hr. apply filter_In in Hr. exact Hr.
  - intros r Hr. apply (Permutation_in _ (sort_by_perm _ _ _)) in Hr.
    apply Hsub in Hr. apply filter_In in Hr. destruct Hr as [Hr Hl].
    apply negb_true_iff in Hl. split; assumption.
  - apply sort_by_perm.
  - intros r Hr Hown. split.
    + apply (Permutation_in _ (Permutation_sym (sort_by_perm _ _ _))). exact Hr.
    + rewrite Hown. reflexivity.
Qed.

Lemma positions_tab_selection_witness :
  In (Fixture.pos_row_of 3 None Fixture.one)
     (DashboardView.show_df "All" "All" Fixture.active_rows)
  /\ DashboardView.owner_short (Dashboard.row_owner (Fixture.pos_row_of 3 None Fixture.one))
     = "Unknown".
Proof.
  apply (proj2 (proj2 (proj2 (proj2 (positions_tab_selection "All" Fixture.active_rows))))).
  - right. right. left. reflexivity.
  - reflexivity.
Defined.
